(** * Secured Air API: tiered, country-scoped access to aviation data

    A shallow embedding of the three dataset services (airlines, airports,
    routes), of the JWT manager and of the request-side tier resolution,
    followed by the properties of the access-control engine.

    Conventions of the embedding.
    - A JavaScript string is a [string]; the default comparison of
      [Array.prototype.sort] is the lexicographic order on code units,
      [String.le].
    - A plain object used as a dictionary ([Record<string, T[]>]) is the
      [gmap string (list T)] of its own properties, read through the members
      that it inherits from [Object.prototype] ([inherited]).  The
      enumeration order of [Object.keys]/[Object.values] is that of
      [map_to_list]; the code only takes its length or sorts it.
    - [throw new Error(msg)] is the result [Throw (mkError msg)].
    - A subscription tier is the string value of the TypeScript string enum,
      so that the guards [if (!config)] of the services stay reachable. *)

From Stdlib Require Import String Ascii.
From stdpp Require Import gmap strings list fin_maps sorting pretty.

Open Scope string_scope.
Open Scope list_scope.

(** ** JavaScript primitives *)

(** [!!s] for a string: only the empty string is falsy. *)
Definition truthy (s : string) : bool := negb (String.eqb s "").

(** [a || b] on strings. *)
Definition or_else (a : option string) (b : string) : string :=
  match a with
  | Some s => if truthy s then s else b
  | None => b
  end.

(** [Array.prototype.includes] on an array of strings. *)
Definition includes (l : list string) (x : string) : bool :=
  bool_decide (x ∈ l).

(** [Set.prototype.add]: a [Set] keeps its members in insertion order. *)
Definition Set_add (s : list string) (x : string) : list string :=
  if decide (x ∈ s) then s else s ++ [x].

(** [new Set(iterable)]. *)
Definition Set_new (l : list string) : list string := fold_left Set_add l [].

(** [Array.prototype.sort()] without a comparator, on strings. *)
Definition sort (l : list string) : list string := merge_sort String.le l.

(** [Object.keys] and [Object.values]. *)
Definition Object_keys {A} (m : gmap string A) : list string :=
  (map_to_list m).*1.

Definition Object_values {A} (m : gmap string A) : list A :=
  (map_to_list m).*2.

(** [Array.prototype.flat()] on an array of arrays. *)
Definition flat {A} (l : list (list A)) : list A := concat l.

(** ** JavaScript primitives of the request side and of the loaders *)

(** [!!x] for a value that is a string or [undefined]/[null]. *)
Definition truthy_opt (x : option string) : bool :=
  match x with
  | Some s => truthy s
  | None => false
  end.

(** [s.startsWith(p)] *)
Fixpoint startsWith (s p : string) {struct p} : bool :=
  match p, s with
  | EmptyString, _ => true
  | String a p, String b s => Ascii.eqb a b && startsWith s p
  | String _ _, EmptyString => false
  end.

(** [s.slice(n)] for [n >= 0]. *)
Fixpoint slice (n : nat) (s : string) : string :=
  match n, s with
  | O, _ => s
  | S n, String _ s => slice n s
  | S _, EmptyString => EmptyString
  end.

(** [s.split(sep)] for a separator of one character. *)
Fixpoint split (sep : ascii) (s : string) : list string :=
  match s with
  | EmptyString => [""]
  | String c s =>
      if Ascii.eqb c sep then "" :: split sep s
      else match split sep s with
           | w :: ws => String c w :: ws
           | [] => [String c ""]
           end
  end.

(** JSON bodies of the responses: an object whose fields hold a string, an
    array of strings, or [undefined]. *)
Inductive JsonValue :=
| JUndefined
| JString (s : string)
| JStrings (items : list string).

Definition Json : Type := list (string * JsonValue).

(** [Array.prototype.join] with a separator of one character. *)
Fixpoint join (sep : ascii) (l : list string) : string :=
  match l with
  | [] => ""
  | [s] => s
  | s :: l => s +:+ String sep (join sep l)
  end.

(** The white space and line terminators that [trim] strips, among the
    code units below 256 (the model has no others): tab, line feed, vertical
    tab, form feed, carriage return, space and no-break space. *)
Definition isWhiteSpace (c : ascii) : bool :=
  let n := nat_of_ascii c in
  Nat.leb 9 n && Nat.leb n 13 || Nat.eqb n 32 || Nat.eqb n 160.

(** [s.trimStart()], [s.trimEnd()] and [s.trim()]. *)
Fixpoint trimStart (s : string) : string :=
  match s with
  | String c s' => if isWhiteSpace c then trimStart s' else s
  | EmptyString => EmptyString
  end.

Fixpoint trimEnd (s : string) : string :=
  match s with
  | String c s' =>
      match trimEnd s' with
      | EmptyString => if isWhiteSpace c then EmptyString else String c EmptyString
      | t => String c t
      end
  | EmptyString => EmptyString
  end.

Definition trim (s : string) : string := trimEnd (trimStart s).

(** [fields[i]?.trim() || ''] *)
Definition field (fields : list string) (i : nat) : string :=
  or_else (trim <$> fields !! i) "".

(** [array.filter((x) => x !== null) as T[]] *)
Fixpoint compact {A} (l : list (option A)) : list A :=
  match l with
  | [] => []
  | Some x :: l => x :: compact l
  | None :: l => compact l
  end.

(** [a < b] on numbers that may be [undefined]: a comparison with
    [undefined] is false. *)
Definition js_lt (a b : option nat) : bool :=
  match a, b with
  | Some x, Some y => Nat.ltb x y
  | _, _ => false
  end.

(** The line feed, the separator of the lines of a CSV file. *)
Definition LF : ascii := ascii_of_nat 10.

(** ** Errors *)

Inductive Error := mkError (message : string).

Definition message (e : Error) : string := let 'mkError m := e in m.

Inductive result (A : Type) :=
| Return (a : A)
| Throw (e : Error).
Arguments Return {A} a.
Arguments Throw {A} e.

(** An exception propagates through the calls that do not catch it. *)
#[global] Instance result_bind : MBind result := fun A B k r =>
  match r with
  | Return a => k a
  | Throw e => Throw e
  end.

(** ** Plain objects used as dictionaries

    An object created by [{}] has own properties and inherits the members
    of [Object.prototype]: [acc[k]] is the own property [k] when there is
    one, else the inherited member when [k] names one, else [undefined]. *)

(** The names of the members of [Object.prototype].  Each member is a
    function, except [__proto__], which reads as [Object.prototype] itself:
    all are truthy and none has a method [push]. *)
Definition Object_prototype : list string :=
  ["constructor"; "__defineGetter__"; "__defineSetter__"; "hasOwnProperty";
   "__lookupGetter__"; "__lookupSetter__"; "isPrototypeOf";
   "propertyIsEnumerable"; "toString"; "valueOf"; "__proto__";
   "toLocaleString"].

Definition inherited (k : string) : bool := includes Object_prototype k.

(** [!!acc[k]], for an accumulator whose own properties hold arrays. *)
Definition has_member {A} (acc : gmap string (list A)) (k : string) : bool :=
  match acc !! k with
  | Some _ => true
  | None => inherited k
  end.

(** The [TypeError]s of a call [callee(...)] whose callee is not a function
    and of a read of a property of [undefined]. *)
Definition NotAFunction (callee : string) : Error :=
  mkError (callee +:+ " is not a function").

Definition CannotRead (property : string) : Error :=
  mkError ("Cannot read properties of undefined (reading '" +:+ property +:+ "')").

(** [acc[k].push(x)], where [object] is the text of [acc[k]] in the source:
    only an own property holds an array. *)
Definition push {A} (object : string) (acc : gmap string (list A))
    (k : string) (x : A) : result (gmap string (list A)) :=
  match acc !! k with
  | Some group => Return (<[k := group ++ [x]]> acc)
  | None =>
      if inherited k then Throw (NotAFunction (object +:+ ".push"))
      else Throw (CannotRead "push")
  end.

(** ** Tiers and tier configurations (identical in the three services) *)

Inductive SubscriptionTier := FREE | PRO | ELITE.

(** The string value of an enum member. *)
Definition tierValue (t : SubscriptionTier) : string :=
  match t with
  | FREE => "free"
  | PRO => "pro"
  | ELITE => "elite"
  end.

(** [countries: string[] | null] *)
Record TierConfiguration := { countries : option (list string) }.

Definition freeCountries : list string := ["Israel"].

Definition proCountries : list string :=
  ["Israel"; "United States"; "Canada"; "United Kingdom"; "Germany";
   "France"; "Australia"; "Japan"; "Brazil"; "China"; "India"].

(** The own properties of [tierConfigurations].  The services read it at a
    tier [tier] as [tierConfigurations !! tier], which is the value of
    [this.tierConfigurations[tier]] for every [tier] that names no member of
    [Object.prototype]; the properties below are about such tiers. *)
Definition tierConfigurations : gmap string TierConfiguration :=
  <[tierValue FREE := {| countries := Some freeCountries |}]>
  (<[tierValue PRO := {| countries := Some proCountries |}]>
  (<[tierValue ELITE := {| countries := None |}]> ∅)).

(** The messages of the errors thrown by the services. *)
Definition InvalidTier (tier : string) : Error :=
  mkError ("Invalid subscription tier: " +:+ tier).

Definition CountryNotAccessible (country tier : string) : Error :=
  mkError ("Country '" +:+ country +:+ "' is not accessible with " +:+ tier +:+ " tier").

Definition PairNotAccessible (sourceCountry destinationCountry : string) : Error :=
  mkError ("Access to routes between '" +:+ sourceCountry +:+ "' and '" +:+
           destinationCountry +:+ "' requires a higher subscription tier").

(** ** services/airlinesService.ts *)

Module AirlinesService.

Record Airline := {
  name : string;
  iata : string;
  icao : string;
  callsign : string;
  country : string;
  active : string;
}.

(** The service instance: the records loaded at construction. *)
Record AirlinesService := { airlines : list Airline }.

Definition parseCsvLine (line : string) : option Airline :=
  let fields := split "," line in
  if Nat.ltb (length fields) 6 then None
  else Some {|
    name := field fields 0;
    iata := field fields 1;
    icao := field fields 2;
    callsign := field fields 3;
    country := field fields 4;
    active := field fields 5;
  |}.

(** [loadAirlines], on the outcome of reading [airlines.csv]: its content,
    or nothing when [readFileSync] throws. *)
Definition loadAirlines (csvData : option string) : list Airline :=
  match csvData with
  | Some csvData =>
      let lines := split LF csvData in
      let dataLines := drop 1 lines in
      compact (map parseCsvLine
                 (List.filter (fun line => truthy (trim line)) dataLines))
  | None => []
  end.

(** [new AirlinesService()] *)
Definition new (csvData : option string) : AirlinesService :=
  {| airlines := loadAirlines csvData |}.

Definition groupAirlinesByCountry (airlines : list Airline)
  : result (gmap string (list Airline)) :=
  fold_left
    (fun acc airline =>
       acc ← acc;
       if negb (truthy (country airline)) then Return acc
       else
         let acc :=
           if negb (has_member acc (country airline))
           then <[country airline := []]> acc
           else acc in
         push "acc[airline.country]" acc (country airline) airline)
    airlines (Return ∅).

Definition getAirlinesByTier (this : AirlinesService) (tier : string)
  : result (gmap string (list Airline)) :=
  match tierConfigurations !! tier with
  | None => Throw (InvalidTier tier)
  | Some config =>
      match countries config with
      | None => groupAirlinesByCountry (airlines this)
      | Some cs =>
          let filteredAirlines :=
            List.filter (fun airline => includes cs (country airline))
                        (airlines this) in
          groupAirlinesByCountry filteredAirlines
      end
  end.

Definition getAirlinesByCountry (this : AirlinesService)
    (tier : string) (c : string) : result (list Airline) :=
  match tierConfigurations !! tier with
  | None => Throw (InvalidTier tier)
  | Some config =>
      if match countries config with
         | Some cs => negb (includes cs c)
         | None => false
         end
      then Throw (CountryNotAccessible c tier)
      else Return (List.filter (fun airline => String.eqb (country airline) c)
                               (airlines this))
  end.

Definition getAccessibleCountries (this : AirlinesService) (tier : string)
  : result (list string) :=
  match tierConfigurations !! tier with
  | None => Throw (InvalidTier tier)
  | Some config =>
      match countries config with
      | None => Return (sort (Set_new (map country (airlines this))))
      | Some cs => Return cs
      end
  end.

Record TierStatistics := {
  totalAirlines : nat;
  totalCountries : nat;
  countriesWithData : list string;
}.

Definition getTierStatistics (this : AirlinesService) (tier : string)
  : result TierStatistics :=
  airlinesByCountry ← getAirlinesByTier this tier;
  let countries := Object_keys airlinesByCountry in
  Return {|
    totalAirlines := length (flat (Object_values airlinesByCountry));
    totalCountries := length countries;
    countriesWithData := sort countries;
  |}.

Definition hasCountryAccess (tier : string) (c : string) : bool :=
  match tierConfigurations !! tier with
  | None => false
  | Some config =>
      match countries config with
      | None => true
      | Some cs => includes cs c
      end
  end.

End AirlinesService.

(** ** services/airportsService.ts *)

Module AirportsService.

Record Airport := {
  name : string;
  city : string;
  country : string;
  iata : string;
  icao : string;
  latitude : string;
  longitude : string;
  altitude : string;
  timezone : string;
  dst : string;
  timezoneDb : string;
}.

Record AirportsService := { airports : list Airport }.

Definition parseCsvLine (line : string) : option Airport :=
  let fields := split "," line in
  if Nat.ltb (length fields) 11 then None
  else Some {|
    name := field fields 0;
    city := field fields 1;
    country := field fields 2;
    iata := field fields 3;
    icao := field fields 4;
    latitude := field fields 5;
    longitude := field fields 6;
    altitude := field fields 7;
    timezone := field fields 8;
    dst := field fields 9;
    timezoneDb := field fields 10;
  |}.

(** [loadAirports], on the outcome of reading [airports.csv]. *)
Definition loadAirports (csvData : option string) : list Airport :=
  match csvData with
  | Some csvData =>
      let lines := split LF csvData in
      let dataLines := drop 1 lines in
      compact (map parseCsvLine
                 (List.filter (fun line => truthy (trim line)) dataLines))
  | None => []
  end.

(** [new AirportsService()] *)
Definition new (csvData : option string) : AirportsService :=
  {| airports := loadAirports csvData |}.

Definition groupAirportsByCountry (airports : list Airport)
  : result (gmap string (list Airport)) :=
  fold_left
    (fun acc airport =>
       acc ← acc;
       if negb (truthy (country airport)) then Return acc
       else
         let acc :=
           if negb (has_member acc (country airport))
           then <[country airport := []]> acc
           else acc in
         push "acc[airport.country]" acc (country airport) airport)
    airports (Return ∅).

Definition getAirportsByTier (this : AirportsService) (tier : string)
  : result (gmap string (list Airport)) :=
  match tierConfigurations !! tier with
  | None => Throw (InvalidTier tier)
  | Some config =>
      match countries config with
      | None => groupAirportsByCountry (airports this)
      | Some cs =>
          let filteredAirports :=
            List.filter (fun airport => includes cs (country airport))
                        (airports this) in
          groupAirportsByCountry filteredAirports
      end
  end.

Definition getAirportsByCountry (this : AirportsService)
    (tier : string) (c : string) : result (list Airport) :=
  match tierConfigurations !! tier with
  | None => Throw (InvalidTier tier)
  | Some config =>
      if match countries config with
         | Some cs => negb (includes cs c)
         | None => false
         end
      then Throw (CountryNotAccessible c tier)
      else Return (List.filter (fun airport => String.eqb (country airport) c)
                               (airports this))
  end.

Definition getAccessibleCountries (this : AirportsService) (tier : string)
  : result (list string) :=
  match tierConfigurations !! tier with
  | None => Throw (InvalidTier tier)
  | Some config =>
      match countries config with
      | None => Return (sort (Set_new (map country (airports this))))
      | Some cs => Return cs
      end
  end.

Record TierStatistics := {
  totalAirports : nat;
  totalCountries : nat;
  countriesWithData : list string;
}.

Definition getTierStatistics (this : AirportsService) (tier : string)
  : result TierStatistics :=
  airportsByCountry ← getAirportsByTier this tier;
  let countries := Object_keys airportsByCountry in
  Return {|
    totalAirports := length (flat (Object_values airportsByCountry));
    totalCountries := length countries;
    countriesWithData := sort countries;
  |}.

Definition hasCountryAccess (tier : string) (c : string) : bool :=
  match tierConfigurations !! tier with
  | None => false
  | Some config =>
      match countries config with
      | None => true
      | Some cs => includes cs c
      end
  end.

End AirportsService.

(** ** services/routesService.ts *)

Module RoutesService.

Record Route := {
  airline : string;
  airlineId : string;
  sourceAirport : string;
  sourceAirportId : string;
  destinationAirport : string;
  destinationAirportId : string;
  codeshare : string;
  stops : string;
  equipment : string;
}.

(** [interface RouteWithCountries extends Route]: the spread [...route]
    and the two resolved countries. *)
Record RouteWithCountries := {
  route : Route;
  sourceCountry : string;
  destinationCountry : string;
}.

(** The service instance: the loaded routes and the [Map] from IATA code
    to country name built from the airport file. *)
Record RoutesService := {
  routes : list Route;
  airportCountryMap : gmap string string;
}.

(** [loadAirportCountryMap], on the outcome of reading [airports.csv]. *)
Definition loadAirportCountryMap (csvData : option string)
  : gmap string string :=
  match csvData with
  | Some csvData =>
      let lines := split LF csvData in
      let dataLines := drop 1 lines in
      fold_left
        (fun airportCountryMap line =>
           if truthy (trim line) then
             let fields := split "," line in
             if Nat.leb 4 (length fields) then
               match trim <$> fields !! 3%nat, trim <$> fields !! 2%nat with
               | Some iata, Some country =>
                   if truthy iata && truthy country
                      && negb (String.eqb iata "\N")
                      && negb (String.eqb iata "")
                   then <[iata := country]> airportCountryMap
                   else airportCountryMap
               | _, _ => airportCountryMap
               end
             else airportCountryMap
           else airportCountryMap)
        dataLines ∅
  | None => ∅
  end.

Definition parseCsvLine (line : string) : option Route :=
  let fields := split "," line in
  if Nat.ltb (length fields) 9 then None
  else Some {|
    airline := field fields 0;
    airlineId := field fields 1;
    sourceAirport := field fields 2;
    sourceAirportId := field fields 3;
    destinationAirport := field fields 4;
    destinationAirportId := field fields 5;
    codeshare := field fields 6;
    stops := field fields 7;
    equipment := field fields 8;
  |}.

(** [loadRoutes], on the outcome of reading [routes.csv]. *)
Definition loadRoutes (csvData : option string) : list Route :=
  match csvData with
  | Some csvData =>
      let lines := split LF csvData in
      let dataLines := drop 1 lines in
      compact (map parseCsvLine
                 (List.filter (fun line => truthy (trim line)) dataLines))
  | None => []
  end.

(** [new RoutesService()] *)
Definition new (airportsCsv routesCsv : option string) : RoutesService :=
  {| routes := loadRoutes routesCsv;
     airportCountryMap := loadAirportCountryMap airportsCsv |}.

Definition getRouteWithCountries (this : RoutesService) (route : Route)
  : RouteWithCountries :=
  let sourceCountry :=
    or_else (airportCountryMap this !! sourceAirport route) "Unknown" in
  let destinationCountry :=
    or_else (airportCountryMap this !! destinationAirport route) "Unknown" in
  {| route := route;
     sourceCountry := sourceCountry;
     destinationCountry := destinationCountry |}.

Definition groupRoutesBySourceCountry (routes : list RouteWithCountries)
  : result (gmap string (list RouteWithCountries)) :=
  fold_left
    (fun acc route =>
       acc ← acc;
       if negb (truthy (sourceCountry route))
          || String.eqb (sourceCountry route) "Unknown"
       then Return acc
       else
         let acc :=
           if negb (has_member acc (sourceCountry route))
           then <[sourceCountry route := []]> acc
           else acc in
         push "acc[route.sourceCountry]" acc (sourceCountry route) route)
    routes (Return ∅).

Definition getRoutesByTier (this : RoutesService) (tier : string)
  : result (gmap string (list RouteWithCountries)) :=
  match tierConfigurations !! tier with
  | None => Throw (InvalidTier tier)
  | Some config =>
      let routesWithCountries :=
        map (getRouteWithCountries this) (routes this) in
      match countries config with
      | None => groupRoutesBySourceCountry routesWithCountries
      | Some cs =>
          let filteredRoutes :=
            List.filter
              (fun route =>
                 includes cs (sourceCountry route)
                 || includes cs (destinationCountry route))
              routesWithCountries in
          groupRoutesBySourceCountry filteredRoutes
      end
  end.

Definition getRoutesByCountry (this : RoutesService)
    (tier : string) (country : string) : result (list RouteWithCountries) :=
  match tierConfigurations !! tier with
  | None => Throw (InvalidTier tier)
  | Some config =>
      if match countries config with
         | Some cs => negb (includes cs country)
         | None => false
         end
      then Throw (CountryNotAccessible country tier)
      else
        let routesWithCountries :=
          map (getRouteWithCountries this) (routes this) in
        Return (List.filter
                  (fun route =>
                     String.eqb (sourceCountry route) country
                     || String.eqb (destinationCountry route) country)
                  routesWithCountries)
  end.

Definition getRoutesBetweenCountries (this : RoutesService)
    (tier : string) (sourceCountry' destinationCountry' : string)
  : result (list RouteWithCountries) :=
  match tierConfigurations !! tier with
  | None => Throw (InvalidTier tier)
  | Some config =>
      if match countries config with
         | Some cs =>
             negb (includes cs sourceCountry')
             || negb (includes cs destinationCountry')
         | None => false
         end
      then Throw (PairNotAccessible sourceCountry' destinationCountry')
      else
        let routesWithCountries :=
          map (getRouteWithCountries this) (routes this) in
        Return (List.filter
                  (fun route =>
                     String.eqb (sourceCountry route) sourceCountry'
                     && String.eqb (destinationCountry route) destinationCountry')
                  routesWithCountries)
  end.

Definition getAccessibleCountries (this : RoutesService) (tier : string)
  : result (list string) :=
  match tierConfigurations !! tier with
  | None => Throw (InvalidTier tier)
  | Some config =>
      match countries config with
      | None =>
          let routesWithCountries :=
            map (getRouteWithCountries this) (routes this) in
          let allCountries :=
            fold_left
              (fun allCountries route =>
                 let allCountries :=
                   if negb (String.eqb (sourceCountry route) "Unknown")
                   then Set_add allCountries (sourceCountry route)
                   else allCountries in
                 if negb (String.eqb (destinationCountry route) "Unknown")
                 then Set_add allCountries (destinationCountry route)
                 else allCountries)
              routesWithCountries [] in
          Return (sort allCountries)
      | Some cs => Return cs
      end
  end.

Record TierStatistics := {
  totalRoutes : nat;
  totalCountries : nat;
  countriesWithData : list string;
}.

Definition getTierStatistics (this : RoutesService) (tier : string)
  : result TierStatistics :=
  routesByCountry ← getRoutesByTier this tier;
  let countries := Object_keys routesByCountry in
  Return {|
    totalRoutes := length (flat (Object_values routesByCountry));
    totalCountries := length countries;
    countriesWithData := sort countries;
  |}.

Definition hasCountryAccess (tier : string) (country : string) : bool :=
  match tierConfigurations !! tier with
  | None => false
  | Some config =>
      match countries config with
      | None => true
      | Some cs => includes cs country
      end
  end.

End RoutesService.

(** ** utils/jwtManager.ts *)

Module JwtManager.

(** [Object.values(UserTier)] *)
Definition UserTier_values : list string := ["free"; "pro"; "elite"].

Definition UserTier_FREE : string := "free".
Definition UserTier_PRO : string := "pro".
Definition UserTier_ELITE : string := "elite".

(** The decoded payload; [tier] is whatever the token carries. *)
Record TokenPayload := {
  tier : option string;
  iat : option nat;
  exp : option nat;
}.

Record TokenValidationResult := {
  isValid : bool;
  payload : option TokenPayload;
  error : option string;
  validatedTier : option string;
}.

(** What the handler of [verifyToken] can tell about a caught exception:
    the answers to its three [instanceof] tests. *)
Record Caught := {
  isTokenExpiredError : bool;
  isJsonWebTokenError : bool;
  isNotBeforeError : bool;
}.

(** [jwt.verify(token, secret)] either returns the decoded payload or
    throws. *)
Inductive VerifyOutcome :=
| Decoded (payload : TokenPayload)
| Raised (exn : Caught).

Section WithLibrary.

(** [process.env.JWT_SECRET] and the [jsonwebtoken] library (at the
    instant of the call): collaborators of the manager. *)
Variable JWT_SECRET : option string.
Variable jwt_verify : string -> string -> VerifyOutcome.

Definition secretKey : string := or_else JWT_SECRET "fallback-secret-key".

Definition verifyToken (token : option string) : TokenValidationResult :=
  match token with
  | Some tok =>
      if negb (truthy tok) then
        {| isValid := false; payload := None;
           error := Some "No token provided"; validatedTier := None |}
      else
        match jwt_verify tok secretKey with
        | Decoded p =>
            if negb (match tier p with
                     | Some t => includes UserTier_values t
                     | None => false
                     end)
            then {| isValid := false; payload := None;
                    error := Some "Invalid tier in token";
                    validatedTier := None |}
            else {| isValid := true; payload := Some p;
                    error := None; validatedTier := tier p |}
        | Raised exn =>
            let errorMessage :=
              if isTokenExpiredError exn then "Token has expired"
              else if isJsonWebTokenError exn then "Invalid token"
              else if isNotBeforeError exn then "Token not active yet"
              else "Token verification failed" in
            {| isValid := false; payload := None;
               error := Some errorMessage; validatedTier := None |}
        end
  | None =>
      {| isValid := false; payload := None;
         error := Some "No token provided"; validatedTier := None |}
  end.

End WithLibrary.

(** [features[tier] || []], for a tier that names no member of
    [Object.prototype]; [requireFeature] passes a tier of the enumeration. *)
Definition getTierFeatures (tier : string) : list string :=
  if String.eqb tier UserTier_FREE then ["basic_access"]
  else if String.eqb tier UserTier_PRO then ["basic_access"; "pro_features"]
  else if String.eqb tier UserTier_ELITE
       then ["basic_access"; "pro_features"; "elite_features"]
  else [].

Definition requiresAuthentication (tier : string) : bool :=
  negb (String.eqb tier UserTier_FREE).

(** [tierHierarchy[tier]] as a number: there is none outside the
    enumeration, where the object gives [undefined] or an inherited member,
    and a comparison [<] with either is false. *)
Definition tierHierarchy (tier : string) : option nat :=
  if String.eqb tier UserTier_FREE then Some 0
  else if String.eqb tier UserTier_PRO then Some 1
  else if String.eqb tier UserTier_ELITE then Some 2
  else None.

Section WithSigning.

(** [process.env.JWT_SECRET], [process.env.JWT_EXPIRES] and the two entry
    points of the [jsonwebtoken] library. *)
Variable JWT_SECRET : option string.
Variable JWT_EXPIRES : option string.
Variable jwt_sign : TokenPayload -> string -> string -> string.
Variable jwt_verify : string -> string -> VerifyOutcome.

Definition expiresIn : string := or_else JWT_EXPIRES "30m".

Definition generateToken (tier : string) : option string :=
  if String.eqb tier UserTier_FREE then None
  else
    let tokenPayload := {| tier := Some tier; iat := None; exp := None |} in
    Some (jwt_sign tokenPayload (secretKey JWT_SECRET) expiresIn).

(** [validateTierAccess]; the non-null assertion [validation.payload!]
    throws a [TypeError] when there is no payload. *)
Definition validateTierAccess (token : option string) (requiredTier : string)
  : result TokenValidationResult :=
  if String.eqb requiredTier UserTier_FREE then
    Return {| isValid := true; payload := None; error := None;
              validatedTier := Some UserTier_FREE |}
  else if negb (truthy_opt token) then
    Return {| isValid := false; payload := None;
              error := Some (requiredTier +:+ " tier requires authentication");
              validatedTier := None |}
  else
    let validation := verifyToken JWT_SECRET jwt_verify token in
    if negb (isValid validation) then Return validation
    else
      match payload validation with
      | None =>
          Throw (mkError "Cannot read properties of undefined (reading 'tier')")
      | Some p =>
          let userTier := tier p in
          if js_lt (userTier ≫= tierHierarchy) (tierHierarchy requiredTier)
          then
            Return {| isValid := false; payload := None;
                      error :=
                        Some ("Insufficient permissions. Required: " +:+
                              requiredTier +:+ ", Current: " +:+
                              from_option id "undefined" userTier);
                      validatedTier := None |}
          else Return validation
      end.

End WithSigning.

End JwtManager.

(** ** The request side: middleware/featureAccess.ts and the routers *)

(** A request whose [Authorization] cookie, in [req.cookies], is absent or a
    string. *)
Record Request := {
  headers_authorization : option string;
  cookies_Authorization : option string;
}.

(** A request as a handler receives it behind [cookieParser()] (app.ts):
    the [Authorization] cookie is absent or a string, or it is the value
    that [cookie-parser] has parsed from a [j:] JSON cookie: an object, an
    array, a number or [true], which is truthy and has no method [split]. *)
Inductive Incoming :=
| WithCookie (req : Request)
| WithJsonCookie (headers_authorization : option string).

(** What a middleware does with a request: call [next()], or answer. *)
Inductive Outcome :=
| Next
| Respond (status : nat) (body : Json).

Section RequestSide.

Variable JWT_SECRET : option string.
Variable jwt_verify : string -> string -> JwtManager.VerifyOutcome.

(** [validation.payload?.tier || UserTier.FREE] *)
Definition tierOrFree (validation : JwtManager.TokenValidationResult)
  : string :=
  or_else (JwtManager.payload validation ≫= JwtManager.tier)
          JwtManager.UserTier_FREE.

Definition requireFeature (featureId : string) (req : Request) : Outcome :=
  let authHeader := headers_authorization req in
  let token :=
    match authHeader with
    | Some h => if startsWith h "Bearer " then Some (slice 7 h) else None
    | None => None
    end in
  let resolved : string + Outcome :=
    if truthy_opt token then
      let validation := JwtManager.verifyToken JWT_SECRET jwt_verify token in
      if negb (JwtManager.isValid validation) then
        inr (Respond 401
               [("error", JString "Invalid token");
                ("message",
                 from_option JString JUndefined
                             (JwtManager.error validation))])
      else inl (tierOrFree validation)
    else inl JwtManager.UserTier_FREE in
  match resolved with
  | inr response => response
  | inl userTier =>
      let userFeatures := JwtManager.getTierFeatures userTier in
      if negb (includes userFeatures featureId) then
        Respond 403
          [("error", JString "Access denied");
           ("message",
            JString ("Feature '" +:+ featureId +:+
                     "' requires a higher tier"));
           ("requiredFeature", JString featureId);
           ("userTier", JString userTier);
           ("userFeatures", JStrings userFeatures)]
      else Next
  end.

Definition basicAccess : Request -> Outcome := requireFeature "basic_access".
Definition proFeatures : Request -> Outcome := requireFeature "pro_features".
Definition eliteFeatures : Request -> Outcome := requireFeature "elite_features".

(** [getUserTier] of the airlines, airports and flight-routes routers, on a
    request whose [Authorization] cookie is absent or a string. *)
Definition getUserTier (req : Request) : string :=
  match cookies_Authorization req with
  | Some cookie =>
      if negb (truthy cookie) then JwtManager.UserTier_FREE
      else
        let token := split " " cookie !! 1%nat in
        let validation := JwtManager.verifyToken JWT_SECRET jwt_verify token in
        tierOrFree validation
  | None => JwtManager.UserTier_FREE
  end.

(** [getUserTier] on any request: on the parsed value of a JSON cookie,
    [req.cookies.Authorization.split] is not a function. *)
Definition getUserTierOf (incoming : Incoming) : result string :=
  match incoming with
  | WithCookie req => Return (getUserTier req)
  | WithJsonCookie _ =>
      Throw (NotAFunction "req.cookies.Authorization.split")
  end.

(** [mapUserTierToSubscriptionTier]: a [switch] with a default. *)
Definition mapUserTierToSubscriptionTier (userTier : string) : string :=
  if String.eqb userTier JwtManager.UserTier_FREE then tierValue FREE
  else if String.eqb userTier JwtManager.UserTier_PRO then tierValue PRO
  else if String.eqb userTier JwtManager.UserTier_ELITE then tierValue ELITE
  else tierValue FREE.

(** [router.get(path, basicAccess, handler)]: the handler resolves the
    tier of the request once the middleware has called [next()]. *)
Definition dataRouteTier (req : Request) : string + Outcome :=
  match basicAccess req with
  | Next => inl (mapUserTierToSubscriptionTier (getUserTier req))
  | Respond status body => inr (Respond status body)
  end.

End RequestSide.

(** [s.includes(sub)] on strings. *)
Fixpoint String_includes (s sub : string) : bool :=
  startsWith s sub
  || match s with
     | String _ s' => String_includes s' sub
     | EmptyString => false
     end.

(** ** routes/index.ts: the token endpoint *)

Module IndexRoutes.

(** What the handler of [/token/:tier] does: the [Authorization] cookie it
    sets, if any, and the message of its JSON body. *)
Record TokenReply := {
  cookie_Authorization : option string;
  message : string;
}.

Section Handlers.

Variable JWT_SECRET : option string.
Variable JWT_EXPIRES : option string.
Variable jwt_sign : JwtManager.TokenPayload -> string -> string -> string.

Definition getToken (tier : string) : TokenReply :=
  let token := JwtManager.generateToken JWT_SECRET JWT_EXPIRES jwt_sign tier in
  {| cookie_Authorization :=
       match token with
       | Some tok => if truthy tok then Some ("Bearer " +:+ tok) else None
       | None => None
       end;
     message :=
       if truthy_opt token then "Token set as cookie and returned"
       else "Free tier - no token needed" |}.

End Handlers.

End IndexRoutes.

(** ** routes/flightRoutes.ts: the handlers *)

Module FlightRoutes.

(** The replies of the handlers, one constructor for each [res.json]. *)
Inductive Reply :=
| ReplyData (tier : string)
    (data : gmap string (list RoutesService.RouteWithCountries))
    (totalRoutes totalCountries : nat) (accessibleCountries : list string)
| ReplyCountries (tier : string) (countries : list string) (totalCount : nat)
| ReplyDenied (error currentTier requiredTier : string)
| ReplyRoutes (tier country : string)
    (routes : list RoutesService.RouteWithCountries) (count : nat)
| ReplyBetween (tier sourceCountry destinationCountry : string)
    (routes : list RoutesService.RouteWithCountries) (count : nat)
| ReplyStatistics (tier : string) (statistics : RoutesService.TierStatistics)
    (accessLevel : string) (tierBenefits : option string)
| ReplyAccess (tier country : string) (hasAccess : bool) (message : string)
| ReplyPreview (currentTier previewTier : string)
    (totalRoutes totalCountries : nat)
    (sampleCountries allCountries : list string)
    (upgrade : option (string * string))
| ReplyError (status : nat) (error : string).

(** The status code of a reply. *)
Definition status (reply : Reply) : nat :=
  match reply with
  | ReplyDenied _ _ _ => 403
  | ReplyError status _ => status
  | _ => 200
  end.

Section Handlers.

Variable JWT_SECRET : option string.
Variable jwt_verify : string -> string -> JwtManager.VerifyOutcome.
Variable routesService : RoutesService.RoutesService.

(** [try { ... } catch (error) { res.status(500).json(...) }] *)
Definition orInternalError (body : result Reply) : Reply :=
  match body with
  | Return reply => reply
  | Throw e => ReplyError 500 (message e)
  end.

(** [router.get('/', ...)] *)
Definition getRoot (req : Incoming) : Reply :=
  orInternalError
    (userTier ← getUserTierOf JWT_SECRET jwt_verify req;
     let subscriptionTier := mapUserTierToSubscriptionTier userTier in
     routesData ← RoutesService.getRoutesByTier routesService subscriptionTier;
     statistics ← RoutesService.getTierStatistics routesService subscriptionTier;
     Return (ReplyData userTier routesData
               (RoutesService.totalRoutes statistics)
               (RoutesService.totalCountries statistics)
               (RoutesService.countriesWithData statistics))).

(** [router.get('/countries', ...)] *)
Definition getCountries (req : Incoming) : Reply :=
  orInternalError
    (userTier ← getUserTierOf JWT_SECRET jwt_verify req;
     let subscriptionTier := mapUserTierToSubscriptionTier userTier in
     accessibleCountries ←
       RoutesService.getAccessibleCountries routesService subscriptionTier;
     Return (ReplyCountries userTier accessibleCountries
               (length accessibleCountries))).

(** [router.get('/country/:country', ...)] *)
Definition getCountry (req : Incoming) (country : string) : Reply :=
  match
    (userTier ← getUserTierOf JWT_SECRET jwt_verify req;
     let subscriptionTier := mapUserTierToSubscriptionTier userTier in
     if negb (RoutesService.hasCountryAccess subscriptionTier country) then
       Return (ReplyDenied
                 ("Access to '" +:+ country +:+
                  "' requires a higher subscription tier")
                 userTier
                 (if String.eqb country "Israel" then "free" else "pro"))
     else
       routes ← RoutesService.getRoutesByCountry routesService
                  subscriptionTier country;
       Return (ReplyRoutes userTier country routes (length routes)))
  with
  | Return reply => reply
  | Throw e =>
      if String_includes (message e) "not accessible"
      then ReplyError 403 (message e)
      else ReplyError 500 (message e)
  end.

(** [router.get('/from/:sourceCountry/to/:destinationCountry', ...)] *)
Definition getFromTo (req : Incoming) (sourceCountry destinationCountry : string)
  : Reply :=
  match
    (userTier ← getUserTierOf JWT_SECRET jwt_verify req;
     let subscriptionTier := mapUserTierToSubscriptionTier userTier in
     if negb (RoutesService.hasCountryAccess subscriptionTier sourceCountry)
        || negb (RoutesService.hasCountryAccess subscriptionTier
                   destinationCountry)
     then
       Return (ReplyDenied
                 ("Access to routes between '" +:+ sourceCountry +:+
                  "' and '" +:+ destinationCountry +:+
                  "' requires a higher subscription tier")
                 userTier
                 (if String.eqb sourceCountry "Israel"
                     && String.eqb destinationCountry "Israel"
                  then "free" else "pro"))
     else
       routes ← RoutesService.getRoutesBetweenCountries routesService
                  subscriptionTier sourceCountry destinationCountry;
       Return (ReplyBetween userTier sourceCountry destinationCountry
                 routes (length routes)))
  with
  | Return reply => reply
  | Throw e =>
      if String_includes (message e) "requires a higher subscription tier"
      then ReplyError 403 (message e)
      else ReplyError 500 (message e)
  end.

(** [router.get('/statistics', ...)] *)
Definition getStatistics (req : Incoming) : Reply :=
  orInternalError
    (userTier ← getUserTierOf JWT_SECRET jwt_verify req;
     let subscriptionTier := mapUserTierToSubscriptionTier userTier in
     statistics ← RoutesService.getTierStatistics routesService subscriptionTier;
     Return (ReplyStatistics userTier statistics
               (if String.eqb subscriptionTier (tierValue ELITE)
                then "unlimited" else "restricted")
               (if String.eqb userTier JwtManager.UserTier_FREE
                then Some "Access to Israel routes only"
                else if String.eqb userTier JwtManager.UserTier_PRO
                then Some "Access to 11 major countries including Israel, USA, Canada, UK, and more"
                else if String.eqb userTier JwtManager.UserTier_ELITE
                then Some "Unlimited access to all countries and routes worldwide"
                else None))).

(** [router.get('/access/:country', ...)] *)
Definition getAccess (req : Incoming) (country : string) : Reply :=
  orInternalError
    (userTier ← getUserTierOf JWT_SECRET jwt_verify req;
     let subscriptionTier := mapUserTierToSubscriptionTier userTier in
     let hasAccess := RoutesService.hasCountryAccess subscriptionTier country in
     Return (ReplyAccess userTier country hasAccess
               (if hasAccess then "Access granted to " +:+ country
                else "Access to " +:+ country +:+
                     " requires a higher subscription tier"))).

(** [router.get('/tier/:tier/preview', ...)] *)
Definition getPreview (req : Incoming) (tier : string) : Reply :=
  orInternalError
    (currentUserTier ← getUserTierOf JWT_SECRET jwt_verify req;
     let previewTier := tier in
     let subscriptionTier := mapUserTierToSubscriptionTier previewTier in
     statistics ← RoutesService.getTierStatistics routesService subscriptionTier;
     accessibleCountries ←
       RoutesService.getAccessibleCountries routesService subscriptionTier;
     Return (ReplyPreview currentUserTier previewTier
               (RoutesService.totalRoutes statistics)
               (RoutesService.totalCountries statistics)
               (take 5 accessibleCountries)
               accessibleCountries
               (if negb (String.eqb previewTier currentUserTier)
                then Some ("Upgrade to " +:+ previewTier +:+
                           " tier to access this data",
                           "Get access to " +:+
                           pretty (RoutesService.totalCountries statistics) +:+
                           " countries and " +:+
                           pretty (RoutesService.totalRoutes statistics) +:+
                           " flight routes")
                else None))).

End Handlers.

End FlightRoutes.

(** ** The shape shared by the three [group...By...] reducers *)

Section Grouping.

Context {R : Type}.
Variable key : R -> string.
Variable skip : R -> bool.
Variable object : string.

Definition group_step (acc : result (gmap string (list R))) (r : R)
  : result (gmap string (list R)) :=
  acc ← acc;
  if skip r then Return acc
  else
    let acc :=
      if negb (has_member acc (key r)) then <[key r := []]> acc else acc in
    push object acc (key r) r.

Definition groupBy (l : list R) : result (gmap string (list R)) :=
  fold_left group_step l (Return ∅).

(** The records that a reducer files: those that it does not skip. *)
Definition kept (l : list R) : list R :=
  List.filter (fun r => negb (skip r)) l.

(** No record of [l] has a key that names a member of [Object.prototype]. *)
Definition plain (l : list R) : Prop :=
  Forall (fun r => inherited (key r) = false) l.

(** The mapping that a reducer builds from records with plain keys: each
    record that is not skipped is appended to the group of its key. *)
Definition collect_step (acc : gmap string (list R)) (r : R)
  : gmap string (list R) :=
  if skip r then acc
  else
    let acc :=
      match acc !! key r with
      | None => <[key r := []]> acc
      | Some _ => acc
      end in
    alter (fun group => group ++ [r]) (key r) acc.

Definition collect (l : list R) : gmap string (list R) :=
  fold_left collect_step l ∅.

(** The records that a reducer files under [k]. *)
Definition filed (k : string) (l : list R) : list R :=
  List.filter (fun r => negb (skip r) && String.eqb (key r) k) l.

End Grouping.

(** The sum of the sizes of the groups of a mapping. *)
Definition groupSizes {A} (m : gmap string (list A)) : nat :=
  map_fold (fun _ group n => length group + n) 0 m.

(** The tiers whose policy is a list, and their lists. *)
Definition listPolicy (t : SubscriptionTier) : option (list string) :=
  match t with
  | FREE => Some freeCountries
  | PRO => Some proCountries
  | ELITE => None
  end.

(** The filter that each [get...ByTier] applies before grouping. *)
Definition admits (policy : option (list string)) (c : string) : bool :=
  match policy with
  | Some cs => includes cs c
  | None => true
  end.

(** The reducers of the three services, as instances of the shared shape. *)
Definition skipAirline (a : AirlinesService.Airline) : bool :=
  negb (truthy (AirlinesService.country a)).

Definition skipAirport (a : AirportsService.Airport) : bool :=
  negb (truthy (AirportsService.country a)).

Definition skipRoute (r : RoutesService.RouteWithCountries) : bool :=
  negb (truthy (RoutesService.sourceCountry r))
  || String.eqb (RoutesService.sourceCountry r) "Unknown".

(** The routes of a service with their countries resolved, in load order. *)
Definition resolved (this : RoutesService.RoutesService)
  : list RoutesService.RouteWithCountries :=
  map (RoutesService.getRouteWithCountries this) (RoutesService.routes this).

(** The records that [get...ByTier] passes to its reducer under the tier
    [t]: those whose country the policy admits and, for routes, those with
    an endpoint in a country that the policy admits. *)
Definition admitted {A} (t : SubscriptionTier) (key : A -> string)
    (l : list A) : list A :=
  List.filter (fun a => admits (listPolicy t) (key a)) l.

Definition admittedRoutes (t : SubscriptionTier)
    (this : RoutesService.RoutesService)
  : list RoutesService.RouteWithCountries :=
  List.filter
    (fun r => admits (listPolicy t) (RoutesService.sourceCountry r)
              || admits (listPolicy t) (RoutesService.destinationCountry r))
    (resolved this).

(** The invariant of a grouped view [m] of the records [loaded]. *)
Definition well_grouped {A} (key : A -> string) (loaded : list A)
    (m : gmap string (list A)) : Prop :=
  forall k group,
    m !! k = Some group ->
    k ≠ "" ∧ group ≠ [] ∧ (forall a, a ∈ group -> key a = k) ∧ sublist group loaded.

(** What the statistics of a grouped view [m] are. *)
Definition summarises {A} (m : gmap string (list A))
    (total count : nat) (keys : list string) : Prop :=
  total = groupSizes m
  ∧ count = size (dom m)
  ∧ StronglySorted String.le keys
  ∧ NoDup keys
  ∧ (forall k, k ∈ keys <-> k ∈ dom m)
  ∧ count = length keys.

(** The order of the tiers, FREE < PRO < ELITE. *)
Definition tierRank (t : SubscriptionTier) : nat :=
  match t with
  | FREE => 0
  | PRO => 1
  | ELITE => 2
  end.

(** A grouped view [m1] is contained in a grouped view [m2]: every key of
    [m1] is a key of [m2], with a group that keeps the records of the group
    of [m1], in their order. *)
Definition embeds {A} (m1 m2 : gmap string (list A)) : Prop :=
  forall k group1,
    m1 !! k = Some group1 ->
    exists group2, m2 !! k = Some group2 ∧ sublist group1 group2.

(** The number of occurrences of a character in a string. *)
Fixpoint occurrences (c : ascii) (s : string) : nat :=
  match s with
  | EmptyString => 0
  | String c' s => (if Ascii.eqb c' c then 1 else 0) + occurrences c s
  end.

(** The fields of a record, in the order of the columns. *)
Definition airlineFields (a : AirlinesService.Airline) : list string :=
  [AirlinesService.name a; AirlinesService.iata a; AirlinesService.icao a;
   AirlinesService.callsign a; AirlinesService.country a;
   AirlinesService.active a].

Definition airportFields (a : AirportsService.Airport) : list string :=
  [AirportsService.name a; AirportsService.city a; AirportsService.country a;
   AirportsService.iata a; AirportsService.icao a; AirportsService.latitude a;
   AirportsService.longitude a; AirportsService.altitude a;
   AirportsService.timezone a; AirportsService.dst a;
   AirportsService.timezoneDb a].

Definition routeFields (r : RoutesService.Route) : list string :=
  [RoutesService.airline r; RoutesService.airlineId r;
   RoutesService.sourceAirport r; RoutesService.sourceAirportId r;
   RoutesService.destinationAirport r; RoutesService.destinationAirportId r;
   RoutesService.codeshare r; RoutesService.stops r;
   RoutesService.equipment r].

(** A field without leading or trailing white space. *)
Definition trimmed (s : string) : Prop := trim s = s.

(** The lines of a CSV file that the loaders read. *)
Definition nonBlank (line : string) : bool := truthy (trim line).

(** The library accepts the token and the payload carries the tier [t] of
    the enumeration. *)
Definition verifiesAs (JWT_SECRET : option string)
    (jwt_verify : string -> string -> JwtManager.VerifyOutcome)
    (token : option string) (t : string) : Prop :=
  exists tok p,
    token = Some tok ∧ tok ≠ ""
    ∧ jwt_verify tok (JwtManager.secretKey JWT_SECRET) = JwtManager.Decoded p
    ∧ JwtManager.tier p = Some t
    ∧ t ∈ JwtManager.UserTier_values.

(** The bearer token of the [Authorization] header of a request. *)
Definition bearerToken (req : Request) : option string :=
  match headers_authorization req with
  | Some h => if startsWith h "Bearer " then Some (slice 7 h) else None
  | None => None
  end.

(** ** Sample data *)

Definition sampleAirline (name country : string) : AirlinesService.Airline :=
  {| AirlinesService.name := name;
     AirlinesService.iata := "";
     AirlinesService.icao := "";
     AirlinesService.callsign := "";
     AirlinesService.country := country;
     AirlinesService.active := "Y" |}.

Definition sampleAirlines : AirlinesService.AirlinesService :=
  {| AirlinesService.airlines :=
       [sampleAirline "El Al" "Israel";
        sampleAirline "Lufthansa" "Germany";
        sampleAirline "Private flight" "Unknown";
        sampleAirline "Arkia" "Israel"] |}.

Definition sampleRoute (source destination : string) : RoutesService.Route :=
  {| RoutesService.airline := "LY";
     RoutesService.airlineId := "2064";
     RoutesService.sourceAirport := source;
     RoutesService.sourceAirportId := "";
     RoutesService.destinationAirport := destination;
     RoutesService.destinationAirportId := "";
     RoutesService.codeshare := "";
     RoutesService.stops := "0";
     RoutesService.equipment := "738" |}.

Definition sampleRoutes : RoutesService.RoutesService :=
  {| RoutesService.routes :=
       [sampleRoute "JFK" "TLV";
        sampleRoute "TLV" "ETM";
        sampleRoute "ZZZ" "TLV";
        sampleRoute "CDG" "FRA"];
     RoutesService.airportCountryMap :=
       <["TLV" := "Israel"]>
       (<["ETM" := "Israel"]>
       (<["JFK" := "United States"]>
       (<["CDG" := "France"]>
       (<["FRA" := "Germany"]> ∅)))) |}.

(** A routes service loaded from an airports file with an airport in a
    country named "constructor" and from a routes file with one route, from
    that airport to TLV. *)
Definition constructorRoutes : RoutesService.RoutesService :=
  RoutesService.new
    (Some (join LF ["name,city,country,iata,icao,lat,lon,alt,tz,dst,tzdb";
                    "Crossroads,Midway,constructor,CTR,XCTR,0,0,0,0,U,Etc";
                    "Ben Gurion,Tel Aviv,Israel,TLV,LLBG,32,34,135,2,E,Asia"]))
    (Some (join LF ["airline,airline_id,src,src_id,dst,dst_id,codeshare,stops,equipment";
                    "LY,2064,CTR,,TLV,,,0,738"])).

(** A toy [jsonwebtoken]: a token is the tier after the prefix "jwt.". *)
Definition toySign (p : JwtManager.TokenPayload) (secret expires : string)
  : string :=
  "jwt." +:+ default "" (JwtManager.tier p).

Definition toyVerify (token secret : string) : JwtManager.VerifyOutcome :=
  if startsWith token "jwt." then
    JwtManager.Decoded
      {| JwtManager.tier := Some (slice 4 token);
         JwtManager.iat := Some 0;
         JwtManager.exp := Some 1800 |}
  else
    JwtManager.Raised
      {| JwtManager.isTokenExpiredError := false;
         JwtManager.isJsonWebTokenError := true;
         JwtManager.isNotBeforeError := false |}.

(** A [jsonwebtoken] that rejects every token as malformed. *)
Definition rejectAll (token secret : string) : JwtManager.VerifyOutcome :=
  JwtManager.Raised
    {| JwtManager.isTokenExpiredError := false;
       JwtManager.isJsonWebTokenError := true;
       JwtManager.isNotBeforeError := false |}.

(** * Properties *)

(** ** JavaScript primitives *)

Lemma truthy_true (s : string) : truthy s = true <-> s ≠ "".
Proof.
  unfold truthy. rewrite negb_true_iff. split.
  - intros H ->. discriminate.
  - intros H. apply String.eqb_neq. exact H.
Qed.

Lemma truthy_false (s : string) : truthy s = false <-> s = "".
Proof.
  unfold truthy. rewrite negb_false_iff. apply String.eqb_eq.
Qed.

Lemma includes_true (l : list string) (x : string) :
  includes l x = true <-> x ∈ l.
Proof. unfold includes. apply bool_decide_eq_true. Qed.

Lemma includes_false (l : list string) (x : string) :
  includes l x = false <-> x ∉ l.
Proof. unfold includes. apply bool_decide_eq_false. Qed.

Lemma or_else_truthy (a : option string) (b : string) :
  b ≠ "" -> or_else a b ≠ "".
Proof.
  intros Hb. destruct a as [s|]; simpl; [|exact Hb].
  destruct (truthy s) eqn:E; [|exact Hb]. by apply truthy_true.
Qed.

Lemma elem_of_filter_bool {A} (f : A -> bool) (l : list A) (x : A) :
  x ∈ List.filter f l <-> x ∈ l ∧ f x = true.
Proof. rewrite !list_elem_of_In. apply filter_In. Qed.

Lemma filter_bool_sublist {A} (f : A -> bool) (l : list A) :
  sublist (List.filter f l) l.
Proof.
  induction l as [|x l IH]; simpl; [constructor|].
  destruct (f x); by constructor.
Qed.

Lemma filter_bool_filter {A} (f g : A -> bool) (l : list A) :
  List.filter f (List.filter g l) = List.filter (fun x => g x && f x) l.
Proof.
  induction l as [|x l IH]; simpl; [done|].
  destruct (g x); simpl; [|done]. destruct (f x); by rewrite IH.
Qed.

(** ** Sets and sorting *)

Lemma Set_add_elem (s : list string) (x y : string) :
  y ∈ Set_add s x <-> y ∈ s ∨ y = x.
Proof.
  unfold Set_add. case_decide.
  - split; [by left|]. intros [?| ->]; done.
  - by rewrite elem_of_app, list_elem_of_singleton.
Qed.

Lemma Set_add_NoDup (s : list string) (x : string) :
  NoDup s -> NoDup (Set_add s x).
Proof.
  intros Hs. unfold Set_add. case_decide; [done|].
  apply NoDup_app. split_and!; [done| |apply NoDup_singleton].
  intros y Hy ->%list_elem_of_singleton. done.
Qed.

Lemma Set_new_from (l s : list string) (y : string) :
  y ∈ fold_left Set_add l s <-> y ∈ s ∨ y ∈ l.
Proof.
  revert s. induction l as [|x l IH]; intros s; simpl.
  - split; [by left|]. intros [?|H]; [done|inversion H].
  - rewrite IH, Set_add_elem, elem_of_cons. tauto.
Qed.

Lemma Set_new_from_NoDup (l s : list string) :
  NoDup s -> NoDup (fold_left Set_add l s).
Proof.
  revert s. induction l as [|x l IH]; intros s Hs; simpl; [done|].
  apply IH. by apply Set_add_NoDup.
Qed.

Lemma Set_new_elem (l : list string) (y : string) : y ∈ Set_new l <-> y ∈ l.
Proof.
  unfold Set_new. rewrite Set_new_from.
  split; [intros [H|?]; [inversion H|done]|by right].
Qed.

Lemma Set_new_NoDup (l : list string) : NoDup (Set_new l).
Proof. apply Set_new_from_NoDup. constructor. Qed.

Lemma sort_sorted (l : list string) : StronglySorted String.le (sort l).
Proof. apply (StronglySorted_merge_sort String.le). Qed.

Lemma sort_perm (l : list string) : sort l ≡ₚ l.
Proof. apply merge_sort_Permutation. Qed.

Lemma sort_elem (l : list string) (x : string) : x ∈ sort l <-> x ∈ l.
Proof. by rewrite sort_perm. Qed.

Lemma sort_NoDup (l : list string) : NoDup l -> NoDup (sort l).
Proof. by rewrite sort_perm. Qed.

Lemma sort_length (l : list string) : length (sort l) = length l.
Proof. by rewrite sort_perm. Qed.

(** ** Grouping *)

Section GroupingFacts.

Context {R : Type}.
Variable key : R -> string.
Variable skip : R -> bool.

Lemma collect_step_lookup (acc : gmap string (list R)) (r : R) (k : string) :
  collect_step key skip acc r !! k =
    if negb (skip r) && String.eqb (key r) k
    then Some (default [] (acc !! k) ++ [r])
    else acc !! k.
Proof.
  unfold collect_step. destruct (skip r); simpl; [done|].
  destruct (String.eqb_spec (key r) k) as [->|Hne].
  - rewrite lookup_alter_eq.
    destruct (acc !! k) as [g|] eqn:E; simpl.
    + by rewrite E.
    + by rewrite lookup_insert_eq.
  - rewrite lookup_alter_ne by done.
    destruct (acc !! key r); [done|]. by rewrite lookup_insert_ne.
Qed.

Lemma fold_collect_lookup (l : list R) (acc : gmap string (list R)) (k : string) :
  fold_left (collect_step key skip) l acc !! k =
    match filed key skip k l with
    | [] => acc !! k
    | new => Some (default [] (acc !! k) ++ new)
    end.
Proof.
  revert acc. induction l as [|r l IH]; intros acc; [done|].
  cbn [fold_left]. rewrite IH, collect_step_lookup. unfold filed. cbn [List.filter].
  destruct (negb (skip r) && String.eqb (key r) k); [|done].
  cbn [default]. destruct (List.filter _ l) as [|x new]; [done|].
  unfold id. by rewrite <- app_assoc.
Qed.

(** What a reducer holds under a key: nothing, or exactly the records
    filed under it, in the order of the input. *)
Lemma collect_lookup (l : list R) (k : string) :
  collect key skip l !! k =
    match filed key skip k l with
    | [] => None
    | group => Some group
    end.
Proof.
  unfold collect. rewrite fold_collect_lookup, lookup_empty. done.
Qed.

Lemma collect_Some (l : list R) (k : string) (group : list R) :
  collect key skip l !! k = Some group ->
  group = filed key skip k l ∧ group ≠ [].
Proof.
  rewrite collect_lookup. destruct (filed key skip k l) eqn:E; [done|].
  intros [= <-]. done.
Qed.

Lemma elem_of_filed (l : list R) (k : string) (r : R) :
  r ∈ filed key skip k l <-> r ∈ l ∧ skip r = false ∧ key r = k.
Proof.
  unfold filed. rewrite elem_of_filter_bool, andb_true_iff, negb_true_iff.
  rewrite String.eqb_eq. tauto.
Qed.

Lemma collect_elem (l : list R) (k : string) (group : list R) (r : R) :
  collect key skip l !! k = Some group ->
  r ∈ group <-> r ∈ l ∧ skip r = false ∧ key r = k.
Proof. intros [-> _]%collect_Some. apply elem_of_filed. Qed.

Lemma collect_filed (l : list R) (r : R) :
  r ∈ l -> skip r = false ->
  collect key skip l !! key r = Some (filed key skip (key r) l)
  ∧ r ∈ filed key skip (key r) l.
Proof.
  intros Hin Hskip.
  assert (r ∈ filed key skip (key r) l) as Hr by by apply elem_of_filed.
  split; [|done]. rewrite collect_lookup.
  destruct (filed key skip (key r) l); [inversion Hr|done].
Qed.

End GroupingFacts.

(** ** Sizes of groups and numbers of keys *)

Section Sizes.

Context {R : Type}.

(** The same sum, over the enumeration of the entries. *)
Let weight (m : gmap string (list R)) : nat :=
  sum_list_with (fun entry => length entry.2) (map_to_list m).

Lemma groupSizes_weight (m : gmap string (list R)) : groupSizes m = weight m.
Proof.
  unfold groupSizes, weight. rewrite map_fold_foldr.
  induction (map_to_list m) as [|[k g] l IH]; simpl; [done|]. by rewrite IH.
Qed.

Lemma flat_values_groupSizes (m : gmap string (list R)) :
  length (flat (Object_values m)) = groupSizes m.
Proof.
  rewrite groupSizes_weight. unfold weight, flat, Object_values.
  induction (map_to_list m) as [|[k g] l IH]; csimpl; [done|].
  by rewrite length_app, IH.
Qed.

Lemma weight_insert (m : gmap string (list R)) (k : string) (g : list R) :
  m !! k = None -> weight (<[k := g]> m) = length g + weight m.
Proof.
  intros Hk. unfold weight. by rewrite (map_to_list_insert m k g Hk).
Qed.

Lemma weight_lookup (m : gmap string (list R)) (k : string) (g : list R) :
  m !! k = Some g -> weight m = length g + weight (delete k m).
Proof.
  intros Hk. unfold weight. by rewrite <- (map_to_list_delete m k g Hk).
Qed.

Variable key : R -> string.
Variable skip : R -> bool.

Lemma weight_collect_step (acc : gmap string (list R)) (r : R) :
  weight (collect_step key skip acc r) =
    weight acc + (if skip r then 0 else 1).
Proof.
  unfold collect_step. destruct (skip r); [lia|].
  destruct (acc !! key r) as [g|] eqn:E.
  - assert (alter (fun group => group ++ [r]) (key r) acc
            = <[key r := g ++ [r]]> (delete (key r) acc)) as ->.
    { apply map_eq. intros i. destruct (decide (key r = i)) as [<-|Hne].
      - by rewrite lookup_alter_eq, lookup_insert_eq, E.
      - by rewrite lookup_alter_ne, lookup_insert_ne, lookup_delete_ne. }
    rewrite weight_insert by apply lookup_delete_eq.
    rewrite (weight_lookup acc _ _ E), length_app. simpl. lia.
  - rewrite alter_insert_eq, weight_insert by done. simpl. lia.
Qed.

Lemma weight_fold (l : list R) (acc : gmap string (list R)) :
  weight (fold_left (collect_step key skip) l acc) =
    weight acc + length (List.filter (fun r => negb (skip r)) l).
Proof.
  revert acc. induction l as [|r l IH]; intros acc; simpl; [lia|].
  rewrite IH, weight_collect_step. destruct (skip r); simpl; lia.
Qed.

(** A reducer keeps every record that it does not skip, once. *)
Lemma groupSizes_collect (l : list R) :
  groupSizes (collect key skip l) =
    length (List.filter (fun r => negb (skip r)) l).
Proof.
  rewrite groupSizes_weight. unfold collect. rewrite weight_fold.
  unfold weight. by rewrite map_to_list_empty.
Qed.

End Sizes.

(** ** The reducers and the members that their accumulator inherits *)

Section ReducerFacts.

Context {R : Type}.
Variable key : R -> string.
Variable skip : R -> bool.
Variable object : string.

(** A record that the reducer cannot file: it is not skipped and its key
    names a member of [Object.prototype]. *)
Let stuck (r : R) : bool := negb (skip r) && inherited (key r).

(** The own keys of an accumulator name no inherited member. *)
Let own (acc : gmap string (list R)) : Prop :=
  forall k, inherited k = true -> acc !! k = None.

Lemma fold_group_step_Throw (l : list R) (e : Error) :
  fold_left (group_step key skip object) l (Throw e) = Throw e.
Proof. induction l as [|r l IH]; [done|]. exact IH. Qed.

Lemma alter_lookup_insert (acc : gmap string (list R)) (k : string)
    (f : list R -> list R) (group : list R) :
  acc !! k = Some group -> alter f k acc = <[k := f group]> acc.
Proof.
  intros Hk. apply map_eq. intros i. destruct (decide (k = i)) as [<-|Hne].
  - by rewrite lookup_alter_eq, lookup_insert_eq, Hk.
  - by rewrite lookup_alter_ne, lookup_insert_ne.
Qed.

Lemma group_step_Return (acc : gmap string (list R)) (r : R) :
  stuck r = false ->
  group_step key skip object (Return acc) r
  = Return (collect_step key skip acc r).
Proof.
  unfold stuck, group_step, collect_step. cbn.
  destruct (skip r); [done|]. cbn. intros Hkey.
  unfold has_member, push.
  destruct (acc !! key r) as [group|] eqn:Hk; cbn.
  - rewrite Hk. by rewrite (alter_lookup_insert _ _ _ _ Hk).
  - rewrite Hkey. cbn. rewrite lookup_insert_eq.
    by rewrite alter_insert_eq, insert_insert_eq.
Qed.

Lemma collect_step_own (acc : gmap string (list R)) (r : R) :
  own acc -> stuck r = false -> own (collect_step key skip acc r).
Proof.
  intros Hown Hr k Hk. rewrite collect_step_lookup.
  destruct (negb (skip r) && String.eqb (key r) k) eqn:E; [|by apply Hown].
  apply andb_true_iff in E as [Hskip Hkey%String.eqb_eq].
  unfold stuck in Hr. by rewrite Hskip, Hkey, Hk in Hr.
Qed.

Lemma group_step_stuck (acc : gmap string (list R)) (r : R) :
  own acc -> stuck r = true ->
  group_step key skip object (Return acc) r
  = Throw (NotAFunction (object +:+ ".push")).
Proof.
  intros Hown [Hskip Hkey]%andb_true_iff. apply negb_true_iff in Hskip.
  unfold group_step. cbn. rewrite Hskip. unfold has_member, push.
  rewrite (Hown _ Hkey), Hkey. cbn. by rewrite (Hown _ Hkey).
Qed.

Lemma fold_group_step (l : list R) (acc : gmap string (list R)) :
  own acc ->
  fold_left (group_step key skip object) l (Return acc)
  = if existsb stuck l then Throw (NotAFunction (object +:+ ".push"))
    else Return (fold_left (collect_step key skip) l acc).
Proof.
  revert acc. induction l as [|r l IH]; intros acc Hown; [done|].
  cbn [fold_left existsb]. destruct (stuck r) eqn:Hr; cbn [orb].
  - rewrite (group_step_stuck _ _ Hown Hr). apply fold_group_step_Throw.
  - rewrite (group_step_Return _ _ Hr). apply IH. by apply collect_step_own.
Qed.

(** A reducer throws at the first record that it cannot file, and
    otherwise returns the mapping collected from its records. *)
Lemma groupBy_collect (l : list R) :
  groupBy key skip object l
  = if existsb (fun r => negb (skip r) && inherited (key r)) l
    then Throw (NotAFunction (object +:+ ".push"))
    else Return (collect key skip l).
Proof. unfold groupBy. apply fold_group_step. intros k _. apply lookup_empty. Qed.

Lemma existsb_stuck_plain (l : list R) :
  existsb (fun r => negb (skip r) && inherited (key r)) l = false
  <-> plain key (kept skip l).
Proof.
  unfold plain, kept. induction l as [|r l IH]; cbn [existsb List.filter].
  - split; [constructor|done].
  - rewrite orb_false_iff, IH. destruct (skip r); cbn.
    + tauto.
    + rewrite Forall_cons. tauto.
Qed.

Lemma groupBy_plain (l : list R) :
  plain key (kept skip l) ->
  groupBy key skip object l = Return (collect key skip l).
Proof. intros Hl%existsb_stuck_plain. by rewrite groupBy_collect, Hl. Qed.

Lemma groupBy_Return (l : list R) (m : gmap string (list R)) :
  groupBy key skip object l = Return m ->
  m = collect key skip l ∧ plain key (kept skip l).
Proof.
  rewrite groupBy_collect.
  destruct (existsb _ l) eqn:E; [done|]. intros [= <-].
  split; [done|]. by apply existsb_stuck_plain.
Qed.

Lemma groupBy_Throw (l : list R) (e : Error) :
  groupBy key skip object l = Throw e ->
  e = NotAFunction (object +:+ ".push") ∧ ¬ plain key (kept skip l).
Proof.
  rewrite groupBy_collect.
  destruct (existsb _ l) eqn:E; [|done]. intros [= <-].
  split; [done|]. intros Hl%existsb_stuck_plain. congruence.
Qed.

(** A reducer returns exactly when the records that it keeps have plain
    keys. *)
Lemma groupBy_returns (l : list R) :
  (exists m, groupBy key skip object l = Return m) <-> plain key (kept skip l).
Proof.
  split.
  - intros [m Hm]. by apply groupBy_Return in Hm as [_ ?].
  - intros Hl. eexists. by apply groupBy_plain.
Qed.

Lemma plain_kept (l : list R) :
  (forall r, skip r = true -> inherited (key r) = false) ->
  plain key (kept skip l) <-> plain key l.
Proof.
  intros Hskip. unfold plain, kept. rewrite !Forall_forall. split.
  - intros Hl r Hr. destruct (skip r) eqn:E; [by apply Hskip|].
    apply Hl, elem_of_filter_bool. by rewrite E.
  - intros Hl r [Hr _]%elem_of_filter_bool. by apply Hl.
Qed.

End ReducerFacts.

Lemma Object_keys_elem {A} (m : gmap string A) (k : string) :
  k ∈ Object_keys m <-> is_Some (m !! k).
Proof.
  unfold Object_keys. rewrite list_elem_of_fmap. split.
  - intros [[k' x] [-> Hx]]. apply elem_of_map_to_list in Hx. by exists x.
  - intros [x Hx]. exists (k, x). split; [done|]. by apply elem_of_map_to_list.
Qed.

Lemma Object_keys_NoDup {A} (m : gmap string A) : NoDup (Object_keys m).
Proof. apply NoDup_fst_map_to_list. Qed.

Lemma Object_keys_length {A} (m : gmap string A) :
  length (Object_keys m) = size (dom m).
Proof.
  unfold Object_keys. by rewrite length_fmap, length_map_to_list, size_dom.
Qed.

(** ** The tier table *)

Lemma tierConfigurations_tier (t : SubscriptionTier) :
  tierConfigurations !! tierValue t = Some {| countries := listPolicy t |}.
Proof. destruct t; reflexivity. Qed.

Lemma tierConfigurations_None (tier : string) :
  tierConfigurations !! tier = None <-> forall t, tier ≠ tierValue t.
Proof.
  unfold tierConfigurations. rewrite !lookup_insert_None, lookup_empty. split.
  - intros [[[_ H3] H2] H1] t ->. destruct t; done.
  - intros H. split_and!; [done|..]; intros E.
    + by apply (H ELITE).
    + by apply (H PRO).
    + by apply (H FREE).
Qed.

Lemma tierValue_inj : Inj (=) (=) tierValue.
Proof. intros [] []; simpl; congruence. Qed.

Lemma filter_bool_Prop {A} (f : A -> bool) (P : A -> Prop)
    `{forall x, Decision (P x)} (l : list A) :
  (forall x, f x = true <-> P x) -> List.filter f l = filter P l.
Proof.
  intros Hf. induction l as [|x l IH]; [done|].
  cbn [List.filter]. rewrite filter_cons, IH.
  destruct (f x) eqn:E; case_decide as HP; try done.
  - apply Hf in E. done.
  - apply Hf in HP. congruence.
Qed.

(** ** Access decisions *)

Lemma airlines_hasCountryAccess_tier (t : SubscriptionTier) (c : string) :
  AirlinesService.hasCountryAccess (tierValue t) c = admits (listPolicy t) c.
Proof.
  unfold AirlinesService.hasCountryAccess.
  rewrite tierConfigurations_tier. by destruct t.
Qed.

Lemma airports_hasCountryAccess_tier (t : SubscriptionTier) (c : string) :
  AirportsService.hasCountryAccess (tierValue t) c = admits (listPolicy t) c.
Proof.
  unfold AirportsService.hasCountryAccess.
  rewrite tierConfigurations_tier. by destruct t.
Qed.

Lemma routes_hasCountryAccess_tier (t : SubscriptionTier) (c : string) :
  RoutesService.hasCountryAccess (tierValue t) c = admits (listPolicy t) c.
Proof.
  unfold RoutesService.hasCountryAccess.
  rewrite tierConfigurations_tier. by destruct t.
Qed.

(** C5. In each of the three services, [hasCountryAccess] answers [true]
    for every country under ELITE, and under FREE and PRO answers [true]
    if and only if the country is a member of the configured list of the
    tier, membership being plain equality of strings: a different case, a
    prefix or a padded name is not a member. *)
Theorem hasCountryAccess_exact (c : string) :
  Forall
    (fun hasCountryAccess : string -> string -> bool =>
       hasCountryAccess (tierValue ELITE) c = true
       ∧ (hasCountryAccess (tierValue FREE) c = true <-> c ∈ freeCountries)
       ∧ (hasCountryAccess (tierValue PRO) c = true <-> c ∈ proCountries)
       ∧ (hasCountryAccess (tierValue FREE) c = true <-> c = "Israel")
       ∧ hasCountryAccess (tierValue FREE) "israel" = false
       ∧ hasCountryAccess (tierValue FREE) "Isr" = false
       ∧ hasCountryAccess (tierValue FREE) " Israel" = false
       ∧ hasCountryAccess (tierValue PRO) "germany" = false
       ∧ hasCountryAccess (tierValue PRO) "United" = false)
    [AirlinesService.hasCountryAccess;
     AirportsService.hasCountryAccess;
     RoutesService.hasCountryAccess].
Proof.
  assert (forall f : string -> string -> bool,
            (forall t x, f (tierValue t) x = admits (listPolicy t) x) ->
            f (tierValue ELITE) c = true
            ∧ (f (tierValue FREE) c = true <-> c ∈ freeCountries)
            ∧ (f (tierValue PRO) c = true <-> c ∈ proCountries)
            ∧ (f (tierValue FREE) c = true <-> c = "Israel")
            ∧ f (tierValue FREE) "israel" = false
            ∧ f (tierValue FREE) "Isr" = false
            ∧ f (tierValue FREE) " Israel" = false
            ∧ f (tierValue PRO) "germany" = false
            ∧ f (tierValue PRO) "United" = false) as Hall.
  { intros f Hf. rewrite !Hf. cbn [listPolicy admits].
    split_and!; try reflexivity; try apply includes_true.
    rewrite includes_true. unfold freeCountries.
    by rewrite list_elem_of_singleton. }
  constructor; [apply Hall, airlines_hasCountryAccess_tier|].
  constructor; [apply Hall, airports_hasCountryAccess_tier|].
  constructor; [apply Hall, routes_hasCountryAccess_tier|].
  constructor.
Qed.

(** ** Single-country and pairwise queries *)

(** C6. For every tier and country, in each service, [byCountry] throws
    the error whose message is "Country '<country>' is not accessible with
    <tier> tier" exactly when [hasCountryAccess] is false for the tier and the
    country, and otherwise returns the records whose country field equals
    the country (airlines, airports), or whose resolved source or destination
    country equals it (routes). *)
Theorem byCountry_access_and_result
    (airlinesService : AirlinesService.AirlinesService)
    (airportsService : AirportsService.AirportsService)
    (routesService : RoutesService.RoutesService)
    (t : SubscriptionTier) (c : string) :
  let denied :=
    mkError ("Country '" +:+ c +:+ "' is not accessible with " +:+
             tierValue t +:+ " tier") in
  AirlinesService.getAirlinesByCountry airlinesService (tierValue t) c =
    (if AirlinesService.hasCountryAccess (tierValue t) c
     then Return (filter (fun a => AirlinesService.country a = c)
                         (AirlinesService.airlines airlinesService))
     else Throw denied)
  ∧ AirportsService.getAirportsByCountry airportsService (tierValue t) c =
    (if AirportsService.hasCountryAccess (tierValue t) c
     then Return (filter (fun a => AirportsService.country a = c)
                         (AirportsService.airports airportsService))
     else Throw denied)
  ∧ RoutesService.getRoutesByCountry routesService (tierValue t) c =
    (if RoutesService.hasCountryAccess (tierValue t) c
     then Return (filter (fun r => RoutesService.sourceCountry r = c
                                   ∨ RoutesService.destinationCountry r = c)
                         (map (RoutesService.getRouteWithCountries routesService)
                              (RoutesService.routes routesService)))
     else Throw denied)
  ∧ AirlinesService.getAirlinesByCountry airlinesService (tierValue PRO) "Mexico"
    = Throw (mkError "Country 'Mexico' is not accessible with pro tier").
Proof.
  intros denied.
  rewrite airlines_hasCountryAccess_tier, airports_hasCountryAccess_tier,
    routes_hasCountryAccess_tier.
  unfold AirlinesService.getAirlinesByCountry,
    AirportsService.getAirportsByCountry, RoutesService.getRoutesByCountry.
  rewrite !tierConfigurations_tier. cbn [countries].
  split_and!; [..|reflexivity].
  - rewrite (filter_bool_Prop _ (fun a => AirlinesService.country a = c))
      by (intros; apply String.eqb_eq).
    destruct t; cbn [listPolicy admits]; try destruct (includes _ c); done.
  - rewrite (filter_bool_Prop _ (fun a => AirportsService.country a = c))
      by (intros; apply String.eqb_eq).
    destruct t; cbn [listPolicy admits]; try destruct (includes _ c); done.
  - rewrite (filter_bool_Prop _
               (fun r => RoutesService.sourceCountry r = c
                         ∨ RoutesService.destinationCountry r = c))
      by (intros; rewrite orb_true_iff, !String.eqb_eq; done).
    destruct t; cbn [listPolicy admits]; try destruct (includes _ c); done.
Qed.

(** C2. For every tier and pair of countries, [getRoutesBetweenCountries]
    throws the pair-denial error unless [hasCountryAccess] holds of the
    source country and of the destination country, and otherwise returns
    the routes whose resolved source country is the given source and whose
    resolved destination country is the given destination.  It never throws
    under ELITE; under FREE, Israel to Israel succeeds and Israel to United
    States is denied. *)
Theorem betweenCountries_pairwise
    (this : RoutesService.RoutesService)
    (t : SubscriptionTier) (source destination : string) :
  RoutesService.getRoutesBetweenCountries this (tierValue t) source destination =
    (if RoutesService.hasCountryAccess (tierValue t) source
        && RoutesService.hasCountryAccess (tierValue t) destination
     then Return (filter (fun r => RoutesService.sourceCountry r = source
                                   ∧ RoutesService.destinationCountry r = destination)
                         (map (RoutesService.getRouteWithCountries this)
                              (RoutesService.routes this)))
     else Throw (mkError ("Access to routes between '" +:+ source +:+
                          "' and '" +:+ destination +:+
                          "' requires a higher subscription tier")))
  ∧ (forall e,
       RoutesService.getRoutesBetweenCountries this (tierValue ELITE)
         source destination ≠ Throw e)
  ∧ RoutesService.getRoutesBetweenCountries this (tierValue FREE)
      "Israel" "Israel" =
    Return (filter (fun r => RoutesService.sourceCountry r = "Israel"
                             ∧ RoutesService.destinationCountry r = "Israel")
                   (map (RoutesService.getRouteWithCountries this)
                        (RoutesService.routes this)))
  ∧ RoutesService.getRoutesBetweenCountries this (tierValue FREE)
      "Israel" "United States" =
    Throw (mkError "Access to routes between 'Israel' and 'United States' requires a higher subscription tier").
Proof.
  assert (forall t s d,
    RoutesService.getRoutesBetweenCountries this (tierValue t) s d =
    (if admits (listPolicy t) s && admits (listPolicy t) d
     then Return (filter (fun r => RoutesService.sourceCountry r = s
                                   ∧ RoutesService.destinationCountry r = d)
                         (map (RoutesService.getRouteWithCountries this)
                              (RoutesService.routes this)))
     else Throw (PairNotAccessible s d))) as Hgen.
  { intros t' s d. unfold RoutesService.getRoutesBetweenCountries.
    rewrite tierConfigurations_tier. cbn [countries].
    rewrite (filter_bool_Prop _
               (fun r => RoutesService.sourceCountry r = s
                         ∧ RoutesService.destinationCountry r = d))
      by (intros; rewrite andb_true_iff, !String.eqb_eq; done).
    destruct t'; cbn [listPolicy admits]; [| |done];
      destruct (includes _ s), (includes _ d); done. }
  split_and!.
  - rewrite !routes_hasCountryAccess_tier. apply Hgen.
  - intros e. by rewrite Hgen.
  - by rewrite Hgen.
  - by rewrite Hgen.
Qed.

(** ** Grouped views *)

Lemma filter_admits_all {A} (f : A -> string) (l : list A) :
  List.filter (fun a => admits None (f a)) l = l.
Proof. induction l as [|x l IH]; simpl; [done|]. f_equal. exact IH. Qed.

Lemma getAirlinesByTier_tier (this : AirlinesService.AirlinesService)
    (t : SubscriptionTier) :
  AirlinesService.getAirlinesByTier this (tierValue t) =
    groupBy AirlinesService.country skipAirline "acc[airline.country]"
      (admitted t AirlinesService.country (AirlinesService.airlines this)).
Proof.
  unfold AirlinesService.getAirlinesByTier, admitted.
  rewrite tierConfigurations_tier.
  destruct t; cbn [countries listPolicy]; try reflexivity.
  by rewrite filter_admits_all.
Qed.

Lemma getAirportsByTier_tier (this : AirportsService.AirportsService)
    (t : SubscriptionTier) :
  AirportsService.getAirportsByTier this (tierValue t) =
    groupBy AirportsService.country skipAirport "acc[airport.country]"
      (admitted t AirportsService.country (AirportsService.airports this)).
Proof.
  unfold AirportsService.getAirportsByTier, admitted.
  rewrite tierConfigurations_tier.
  destruct t; cbn [countries listPolicy]; try reflexivity.
  by rewrite filter_admits_all.
Qed.

(** The filter of [getRoutesByTier]: either endpoint may match. *)
Lemma getRoutesByTier_policy (this : RoutesService.RoutesService)
    (tier : string) (policy : option (list string)) :
  tierConfigurations !! tier = Some {| countries := policy |} ->
  RoutesService.getRoutesByTier this tier =
    groupBy RoutesService.sourceCountry skipRoute "acc[route.sourceCountry]"
      (List.filter
         (fun r => match policy with
                   | Some cs =>
                       includes cs (RoutesService.sourceCountry r)
                       || includes cs (RoutesService.destinationCountry r)
                   | None => true
                   end)
         (resolved this)).
Proof.
  intros Hcfg. unfold RoutesService.getRoutesByTier. rewrite Hcfg.
  destruct policy as [cs|]; cbn [countries]; [reflexivity|].
  assert (List.filter (fun _ => true) (resolved this) = resolved this) as ->
    by apply (filter_admits_all (fun _ => "")).
  reflexivity.
Qed.

Lemma getRoutesByTier_tier (this : RoutesService.RoutesService)
    (t : SubscriptionTier) :
  RoutesService.getRoutesByTier this (tierValue t) =
    groupBy RoutesService.sourceCountry skipRoute "acc[route.sourceCountry]"
      (admittedRoutes t this).
Proof.
  rewrite (getRoutesByTier_policy this _ _ (tierConfigurations_tier t)).
  unfold admittedRoutes. by destruct t.
Qed.

Lemma skipAirline_false (a : AirlinesService.Airline) :
  skipAirline a = false <-> AirlinesService.country a ≠ "".
Proof. unfold skipAirline. rewrite negb_false_iff. apply truthy_true. Qed.

Lemma skipAirport_false (a : AirportsService.Airport) :
  skipAirport a = false <-> AirportsService.country a ≠ "".
Proof. unfold skipAirport. rewrite negb_false_iff. apply truthy_true. Qed.

Lemma skipRoute_false (r : RoutesService.RouteWithCountries) :
  skipRoute r = false <->
  RoutesService.sourceCountry r ≠ "" ∧ RoutesService.sourceCountry r ≠ "Unknown".
Proof.
  unfold skipRoute. rewrite orb_false_iff, negb_false_iff, truthy_true.
  by rewrite String.eqb_neq.
Qed.

(** The keys that the reducers skip name no member of [Object.prototype]. *)
Lemma skipAirline_plain (a : AirlinesService.Airline) :
  skipAirline a = true -> inherited (AirlinesService.country a) = false.
Proof.
  destruct (skipAirline a) eqn:E; [|done]. intros _.
  destruct (inherited _) eqn:Hin; [|done].
  assert (skipAirline a = false); [|congruence].
  apply skipAirline_false. intros Hk. by rewrite Hk in Hin.
Qed.

Lemma skipAirport_plain (a : AirportsService.Airport) :
  skipAirport a = true -> inherited (AirportsService.country a) = false.
Proof.
  destruct (skipAirport a) eqn:E; [|done]. intros _.
  destruct (inherited _) eqn:Hin; [|done].
  assert (skipAirport a = false); [|congruence].
  apply skipAirport_false. intros Hk. by rewrite Hk in Hin.
Qed.

Lemma skipRoute_plain (r : RoutesService.RouteWithCountries) :
  skipRoute r = true -> inherited (RoutesService.sourceCountry r) = false.
Proof.
  destruct (skipRoute r) eqn:E; [|done]. intros _.
  destruct (inherited _) eqn:Hin; [|done].
  assert (skipRoute r = false); [|congruence].
  apply skipRoute_false. split; intros Hk; by rewrite Hk in Hin.
Qed.

(** The countries of the policy lists name no member of [Object.prototype]:
    under a list policy the airlines and airports that pass the filter have
    plain keys. *)
Lemma admitted_plain {A} (t : SubscriptionTier) (key : A -> string)
    (l : list A) :
  t ≠ ELITE -> plain key (admitted t key l).
Proof.
  intros Ht. apply Forall_forall. intros a [_ Ha]%elem_of_filter_bool.
  destruct (inherited (key a)) eqn:Hin; [|done]. exfalso.
  apply includes_true in Hin.
  unfold Object_prototype in Hin. rewrite !elem_of_cons in Hin.
  destruct t; [| |done]; cbn in Ha; apply includes_true in Ha;
    unfold freeCountries, proCountries in Ha; rewrite !elem_of_cons in Ha;
    rewrite elem_of_nil in Ha, Hin.
  all: repeat (destruct Hin as [Hin|Hin]; [rewrite Hin in Ha; clear Hin;
         repeat (destruct Ha as [Ha|Ha]; [discriminate Ha|]); done|]).
  all: done.
Qed.

(** Each [get...ByTier] returns the mapping collected from the records that
    pass its filter, and it returns exactly when those records have plain
    keys. *)
Lemma getAirlinesByTier_Return (this : AirlinesService.AirlinesService)
    (t : SubscriptionTier) (m : gmap string (list AirlinesService.Airline)) :
  AirlinesService.getAirlinesByTier this (tierValue t) = Return m ->
  m = collect AirlinesService.country skipAirline
        (admitted t AirlinesService.country (AirlinesService.airlines this)).
Proof. rewrite getAirlinesByTier_tier. by intros [? _]%groupBy_Return. Qed.

Lemma getAirlinesByTier_returns (this : AirlinesService.AirlinesService)
    (t : SubscriptionTier) :
  (exists m, AirlinesService.getAirlinesByTier this (tierValue t) = Return m)
  <-> plain AirlinesService.country
        (admitted t AirlinesService.country (AirlinesService.airlines this)).
Proof.
  rewrite getAirlinesByTier_tier, groupBy_returns.
  apply plain_kept, skipAirline_plain.
Qed.

Lemma getAirportsByTier_Return (this : AirportsService.AirportsService)
    (t : SubscriptionTier) (m : gmap string (list AirportsService.Airport)) :
  AirportsService.getAirportsByTier this (tierValue t) = Return m ->
  m = collect AirportsService.country skipAirport
        (admitted t AirportsService.country (AirportsService.airports this)).
Proof. rewrite getAirportsByTier_tier. by intros [? _]%groupBy_Return. Qed.

Lemma getAirportsByTier_returns (this : AirportsService.AirportsService)
    (t : SubscriptionTier) :
  (exists m, AirportsService.getAirportsByTier this (tierValue t) = Return m)
  <-> plain AirportsService.country
        (admitted t AirportsService.country (AirportsService.airports this)).
Proof.
  rewrite getAirportsByTier_tier, groupBy_returns.
  apply plain_kept, skipAirport_plain.
Qed.

Lemma getRoutesByTier_Return (this : RoutesService.RoutesService)
    (t : SubscriptionTier)
    (m : gmap string (list RoutesService.RouteWithCountries)) :
  RoutesService.getRoutesByTier this (tierValue t) = Return m ->
  m = collect RoutesService.sourceCountry skipRoute (admittedRoutes t this).
Proof. rewrite getRoutesByTier_tier. by intros [? _]%groupBy_Return. Qed.

Lemma getRoutesByTier_returns (this : RoutesService.RoutesService)
    (t : SubscriptionTier) :
  (exists m, RoutesService.getRoutesByTier this (tierValue t) = Return m)
  <-> plain RoutesService.sourceCountry (admittedRoutes t this).
Proof.
  rewrite getRoutesByTier_tier, groupBy_returns.
  apply plain_kept, skipRoute_plain.
Qed.

(** A grouped view of a filtered list is well grouped over the whole list,
    as soon as the reducer skips the records with an empty key. *)
Lemma collect_well_grouped {A} (key : A -> string) (skip f : A -> bool)
    (loaded : list A) :
  (forall a, skip a = false -> key a ≠ "") ->
  well_grouped key loaded (collect key skip (List.filter f loaded)).
Proof.
  intros Hskip k group Hk.
  pose proof (collect_Some key skip _ _ _ Hk) as [Hgroup Hne].
  assert (forall a, a ∈ group -> skip a = false ∧ key a = k) as Hin.
  { intros a Ha. by apply (collect_elem key skip _ _ _ _ Hk) in Ha as (_ & ? & ?). }
  split_and!; [|done|intros a Ha; by apply Hin|].
  - destruct group as [|a group]; [done|].
    destruct (Hin a) as [Hs <-]; [by left|]. by apply Hskip.
  - rewrite Hgroup. unfold filed.
    etrans; [apply filter_bool_sublist|apply filter_bool_sublist].
Qed.

(** C10. For every tier and in each of the three services, every mapping
    that [byTier] returns is well grouped: every key is a non-empty string,
    every group is a non-empty list, every record of the group under [k] has
    [k] as its country (airlines, airports) or source country (routes), and
    the group lists its records in the order of the loaded records.  And
    [byTier] returns a mapping exactly when no record that passes the filter
    of the tier has a country (a source country, for routes) that names a
    member of [Object.prototype]. *)
Theorem byTier_well_grouped
    (airlinesService : AirlinesService.AirlinesService)
    (airportsService : AirportsService.AirportsService)
    (routesService : RoutesService.RoutesService)
    (t : SubscriptionTier) :
  ((forall m,
      AirlinesService.getAirlinesByTier airlinesService (tierValue t) = Return m ->
      well_grouped AirlinesService.country
        (AirlinesService.airlines airlinesService) m)
   ∧ ((exists m,
         AirlinesService.getAirlinesByTier airlinesService (tierValue t)
         = Return m)
      <-> plain AirlinesService.country
            (admitted t AirlinesService.country
               (AirlinesService.airlines airlinesService))))
  ∧ ((forall m,
        AirportsService.getAirportsByTier airportsService (tierValue t) = Return m ->
        well_grouped AirportsService.country
          (AirportsService.airports airportsService) m)
     ∧ ((exists m,
           AirportsService.getAirportsByTier airportsService (tierValue t)
           = Return m)
        <-> plain AirportsService.country
              (admitted t AirportsService.country
                 (AirportsService.airports airportsService))))
  ∧ ((forall m,
        RoutesService.getRoutesByTier routesService (tierValue t) = Return m ->
        well_grouped RoutesService.sourceCountry (resolved routesService) m)
     ∧ ((exists m,
           RoutesService.getRoutesByTier routesService (tierValue t) = Return m)
        <-> plain RoutesService.sourceCountry (admittedRoutes t routesService))).
Proof.
  split_and!.
  - intros m ->%getAirlinesByTier_Return.
    apply collect_well_grouped. intros a. apply skipAirline_false.
  - apply getAirlinesByTier_returns.
  - intros m ->%getAirportsByTier_Return.
    apply collect_well_grouped. intros a. apply skipAirport_false.
  - apply getAirportsByTier_returns.
  - intros m ->%getRoutesByTier_Return.
    apply collect_well_grouped. intros r Hr. by apply skipRoute_false in Hr as [? _].
  - apply getRoutesByTier_returns.
Qed.

(** C1. Under a tier with a list policy, a loaded route whose resolved
    destination country is in the list is lost, with every other route, when
    its resolved source country names a member of [Object.prototype]: the
    reducer of [getRoutesByTier] finds the inherited member where it expects
    the group of the country, and the call throws a [TypeError] instead of
    returning the mapping in which the route is listed under its source
    country. *)
Theorem getRoutesByTier_inherited_source_throws
    (this : RoutesService.RoutesService) (tier : string) (cs : list string)
    (r : RoutesService.Route) :
  tierConfigurations !! tier = Some {| countries := Some cs |} ->
  r ∈ RoutesService.routes this ->
  let rc := RoutesService.getRouteWithCountries this r in
  RoutesService.destinationCountry rc ∈ cs ->
  inherited (RoutesService.sourceCountry rc) = true ->
  RoutesService.getRoutesByTier this tier
  = Throw (NotAFunction "acc[route.sourceCountry].push").
Proof.
  intros Hcfg Hr rc Hdst Hsrc.
  rewrite (getRoutesByTier_policy _ _ _ Hcfg), groupBy_collect.
  set (stuck := fun x => negb (skipRoute x) && inherited _).
  assert (existsb stuck
            (List.filter
               (fun x => includes cs (RoutesService.sourceCountry x)
                         || includes cs (RoutesService.destinationCountry x))
               (resolved this)) = true) as ->; [|done].
  apply existsb_exists. exists rc. split.
  - apply list_elem_of_In, elem_of_filter_bool. split.
    + unfold resolved. apply list_elem_of_In, in_map. by apply list_elem_of_In.
    + apply orb_true_iff. right. by apply includes_true.
  - unfold stuck. rewrite Hsrc.
    destruct (skipRoute rc) eqn:Hskip; [|done].
    apply skipRoute_plain in Hskip. congruence.
Qed.

(** C1, at a failing input: an airports file that places the airport CTR in
    a country named "constructor" and a route from CTR to TLV (Israel).
    Under FREE the route passes the filter by its destination, its source
    country is neither in the list, nor "Unknown", nor empty, and
    [getRoutesByTier] throws. *)
Lemma getRoutesByTier_inherited_source_throws_constructor :
  let rc :=
    RoutesService.getRouteWithCountries constructorRoutes
      (sampleRoute "CTR" "TLV") in
  RoutesService.routes constructorRoutes = [sampleRoute "CTR" "TLV"]
  ∧ RoutesService.sourceCountry rc = "constructor"
  ∧ RoutesService.destinationCountry rc = "Israel"
  ∧ (RoutesService.sourceCountry rc ∉ freeCountries)
  ∧ RoutesService.getRoutesByTier constructorRoutes "free"
    = Throw (NotAFunction "acc[route.sourceCountry].push").
Proof.
  split; [reflexivity|]. split; [reflexivity|]. split; [reflexivity|].
  split.
  - vm_compute. intros H. inversion H as [|? ? ? H']. inversion H'.
  - apply (getRoutesByTier_inherited_source_throws constructorRoutes "free"
             freeCountries (sampleRoute "CTR" "TLV")).
    + reflexivity.
    + apply list_elem_of_here.
    + apply list_elem_of_here.
    + reflexivity.
Defined.

(** ** Statistics *)

Lemma summarises_keys_values {A} (m : gmap string (list A)) :
  summarises m (length (flat (Object_values m))) (length (Object_keys m))
             (sort (Object_keys m)).
Proof.
  unfold summarises. split_and!.
  - apply flat_values_groupSizes.
  - apply Object_keys_length.
  - apply sort_sorted.
  - apply sort_NoDup, Object_keys_NoDup.
  - intros k. by rewrite sort_elem, Object_keys_elem, elem_of_dom.
  - by rewrite sort_length.
Qed.

(** Each [getTierStatistics] is computed from the outcome of [byTier]
    alone: it summarises the mapping returned, and it throws what [byTier]
    throws. *)
Lemma airlines_getTierStatistics_of (this : AirlinesService.AirlinesService)
    (tier : string) (m : gmap string (list AirlinesService.Airline)) :
  AirlinesService.getAirlinesByTier this tier = Return m ->
  AirlinesService.getTierStatistics this tier =
    Return {| AirlinesService.totalAirlines := length (flat (Object_values m));
              AirlinesService.totalCountries := length (Object_keys m);
              AirlinesService.countriesWithData := sort (Object_keys m) |}.
Proof. intros Hm. unfold AirlinesService.getTierStatistics. by rewrite Hm. Qed.

Lemma airports_getTierStatistics_of (this : AirportsService.AirportsService)
    (tier : string) (m : gmap string (list AirportsService.Airport)) :
  AirportsService.getAirportsByTier this tier = Return m ->
  AirportsService.getTierStatistics this tier =
    Return {| AirportsService.totalAirports := length (flat (Object_values m));
              AirportsService.totalCountries := length (Object_keys m);
              AirportsService.countriesWithData := sort (Object_keys m) |}.
Proof. intros Hm. unfold AirportsService.getTierStatistics. by rewrite Hm. Qed.

Lemma routes_getTierStatistics_of (this : RoutesService.RoutesService)
    (tier : string) (m : gmap string (list RoutesService.RouteWithCountries)) :
  RoutesService.getRoutesByTier this tier = Return m ->
  RoutesService.getTierStatistics this tier =
    Return {| RoutesService.totalRoutes := length (flat (Object_values m));
              RoutesService.totalCountries := length (Object_keys m);
              RoutesService.countriesWithData := sort (Object_keys m) |}.
Proof. intros Hm. unfold RoutesService.getTierStatistics. by rewrite Hm. Qed.

Lemma airlines_getTierStatistics_Throw (this : AirlinesService.AirlinesService)
    (tier : string) (e : Error) :
  AirlinesService.getAirlinesByTier this tier = Throw e ->
  AirlinesService.getTierStatistics this tier = Throw e.
Proof. intros Hm. unfold AirlinesService.getTierStatistics. by rewrite Hm. Qed.

Lemma airports_getTierStatistics_Throw (this : AirportsService.AirportsService)
    (tier : string) (e : Error) :
  AirportsService.getAirportsByTier this tier = Throw e ->
  AirportsService.getTierStatistics this tier = Throw e.
Proof. intros Hm. unfold AirportsService.getTierStatistics. by rewrite Hm. Qed.

Lemma routes_getTierStatistics_Throw (this : RoutesService.RoutesService)
    (tier : string) (e : Error) :
  RoutesService.getRoutesByTier this tier = Throw e ->
  RoutesService.getTierStatistics this tier = Throw e.
Proof. intros Hm. unfold RoutesService.getTierStatistics. by rewrite Hm. Qed.

(** C8. For every tier of the table and in each of the three services,
    [getTierStatistics] is derived from [byTier] for the same tier and from
    nothing else.  When [byTier] returns a mapping, [getTierStatistics]
    returns its statistics: the total is the sum of the sizes of its groups,
    [totalCountries] is the number of its keys, [countriesWithData] is the
    sorted list of its keys, and so [totalCountries] is the length of
    [countriesWithData]; the total is also the number of loaded records that
    pass the filter of the tier and are not skipped by the reducer.  When
    [byTier] throws, [getTierStatistics] throws the same error.  And
    [byTier] returns exactly when no record that passes the filter of the
    tier has a country (a source country, for routes) that names a member of
    [Object.prototype]. *)
Theorem getTierStatistics_summarises_byTier
    (airlinesService : AirlinesService.AirlinesService)
    (airportsService : AirportsService.AirportsService)
    (routesService : RoutesService.RoutesService)
    (t : SubscriptionTier) :
  ((forall m,
      AirlinesService.getAirlinesByTier airlinesService (tierValue t) = Return m ->
      exists s,
        AirlinesService.getTierStatistics airlinesService (tierValue t) = Return s
        ∧ summarises m (AirlinesService.totalAirlines s)
            (AirlinesService.totalCountries s)
            (AirlinesService.countriesWithData s)
        ∧ AirlinesService.totalCountries s
          = length (AirlinesService.countriesWithData s)
        ∧ AirlinesService.totalAirlines s
          = length (List.filter
                      (fun a => admits (listPolicy t) (AirlinesService.country a)
                                && truthy (AirlinesService.country a))
                      (AirlinesService.airlines airlinesService)))
   ∧ (forall e,
        AirlinesService.getAirlinesByTier airlinesService (tierValue t) = Throw e ->
        AirlinesService.getTierStatistics airlinesService (tierValue t) = Throw e)
   ∧ ((exists m,
         AirlinesService.getAirlinesByTier airlinesService (tierValue t)
         = Return m)
      <-> plain AirlinesService.country
            (admitted t AirlinesService.country
               (AirlinesService.airlines airlinesService))))
  ∧ ((forall m,
        AirportsService.getAirportsByTier airportsService (tierValue t) = Return m ->
        exists s,
          AirportsService.getTierStatistics airportsService (tierValue t) = Return s
          ∧ summarises m (AirportsService.totalAirports s)
              (AirportsService.totalCountries s)
              (AirportsService.countriesWithData s)
          ∧ AirportsService.totalCountries s
            = length (AirportsService.countriesWithData s)
          ∧ AirportsService.totalAirports s
            = length (List.filter
                        (fun a => admits (listPolicy t) (AirportsService.country a)
                                  && truthy (AirportsService.country a))
                        (AirportsService.airports airportsService)))
     ∧ (forall e,
          AirportsService.getAirportsByTier airportsService (tierValue t) = Throw e ->
          AirportsService.getTierStatistics airportsService (tierValue t) = Throw e)
     ∧ ((exists m,
           AirportsService.getAirportsByTier airportsService (tierValue t)
           = Return m)
        <-> plain AirportsService.country
              (admitted t AirportsService.country
                 (AirportsService.airports airportsService))))
  ∧ ((forall m,
        RoutesService.getRoutesByTier routesService (tierValue t) = Return m ->
        exists s,
          RoutesService.getTierStatistics routesService (tierValue t) = Return s
          ∧ summarises m (RoutesService.totalRoutes s)
              (RoutesService.totalCountries s)
              (RoutesService.countriesWithData s)
          ∧ RoutesService.totalCountries s
            = length (RoutesService.countriesWithData s)
          ∧ RoutesService.totalRoutes s
            = length (List.filter
                        (fun r => (admits (listPolicy t) (RoutesService.sourceCountry r)
                                   || admits (listPolicy t)
                                        (RoutesService.destinationCountry r))
                                  && negb (skipRoute r))
                        (resolved routesService)))
     ∧ (forall e,
          RoutesService.getRoutesByTier routesService (tierValue t) = Throw e ->
          RoutesService.getTierStatistics routesService (tierValue t) = Throw e)
     ∧ ((exists m,
           RoutesService.getRoutesByTier routesService (tierValue t) = Return m)
        <-> plain RoutesService.sourceCountry (admittedRoutes t routesService))).
Proof.
  split_and!.
  - intros m Hm. eexists.
    split; [by apply airlines_getTierStatistics_of|]. cbn.
    split; [apply summarises_keys_values|].
    split; [by rewrite sort_length|].
    apply getAirlinesByTier_Return in Hm as ->. unfold admitted.
    rewrite flat_values_groupSizes, groupSizes_collect, filter_bool_filter.
    f_equal. apply filter_ext. intros a. unfold skipAirline.
    by rewrite negb_involutive.
  - intros e. apply airlines_getTierStatistics_Throw.
  - apply getAirlinesByTier_returns.
  - intros m Hm. eexists.
    split; [by apply airports_getTierStatistics_of|]. cbn.
    split; [apply summarises_keys_values|].
    split; [by rewrite sort_length|].
    apply getAirportsByTier_Return in Hm as ->. unfold admitted.
    rewrite flat_values_groupSizes, groupSizes_collect, filter_bool_filter.
    f_equal. apply filter_ext. intros a. unfold skipAirport.
    by rewrite negb_involutive.
  - intros e. apply airports_getTierStatistics_Throw.
  - apply getAirportsByTier_returns.
  - intros m Hm. eexists.
    split; [by apply routes_getTierStatistics_of|]. cbn.
    split; [apply summarises_keys_values|].
    split; [by rewrite sort_length|].
    apply getRoutesByTier_Return in Hm as ->. unfold admittedRoutes.
    by rewrite flat_values_groupSizes, groupSizes_collect, filter_bool_filter.
  - intros e. apply routes_getTierStatistics_Throw.
  - apply getRoutesByTier_returns.
Qed.

(** ** Routes with an unresolved airport *)

Lemma getRoutesByCountry_tier (this : RoutesService.RoutesService)
    (t : SubscriptionTier) (c : string) :
  RoutesService.getRoutesByCountry this (tierValue t) c =
    if admits (listPolicy t) c
    then Return (filter (fun r => RoutesService.sourceCountry r = c
                                  ∨ RoutesService.destinationCountry r = c)
                        (resolved this))
    else Throw (CountryNotAccessible c (tierValue t)).
Proof.
  unfold RoutesService.getRoutesByCountry. rewrite tierConfigurations_tier.
  cbn [countries].
  rewrite (filter_bool_Prop _
             (fun r => RoutesService.sourceCountry r = c
                       ∨ RoutesService.destinationCountry r = c))
    by (intros; rewrite orb_true_iff, !String.eqb_eq; done).
  destruct t; cbn [listPolicy admits]; try destruct (includes _ c); done.
Qed.

Lemma resolved_elem (this : RoutesService.RoutesService)
    (r : RoutesService.Route) :
  r ∈ RoutesService.routes this ->
  RoutesService.getRouteWithCountries this r ∈ resolved this.
Proof.
  intros Hr. unfold resolved. apply list_elem_of_In, in_map.
  by apply list_elem_of_In.
Qed.

(** C9. "Unknown" is an accessible country under ELITE, and
    [getRoutesByCountry] for ELITE and "Unknown" returns the routes whose
    resolved source or destination country is "Unknown"; among them every
    loaded route with an airport code missing from the index, and every route
    that the grouped view of any tier leaves out because its source country is
    "Unknown". *)
Theorem unknown_routes_by_country (this : RoutesService.RoutesService) :
  RoutesService.hasCountryAccess (tierValue ELITE) "Unknown" = true
  ∧ exists l,
      RoutesService.getRoutesByCountry this (tierValue ELITE) "Unknown"
      = Return l
      ∧ l = filter (fun rc => RoutesService.sourceCountry rc = "Unknown"
                              ∨ RoutesService.destinationCountry rc = "Unknown")
                   (resolved this)
      ∧ (forall r,
           r ∈ RoutesService.routes this ->
           RoutesService.airportCountryMap this
             !! RoutesService.sourceAirport r = None
           ∨ RoutesService.airportCountryMap this
               !! RoutesService.destinationAirport r = None ->
           RoutesService.getRouteWithCountries this r ∈ l)
      ∧ (forall t m rc,
           RoutesService.getRoutesByTier this (tierValue t) = Return m ->
           rc ∈ resolved this ->
           RoutesService.sourceCountry rc = "Unknown" ->
           (forall k group, m !! k = Some group -> rc ∉ group) ∧ rc ∈ l).
Proof.
  split; [reflexivity|].
  eexists. split; [apply (getRoutesByCountry_tier this ELITE)|].
  split; [reflexivity|]. split.
  - intros r Hr Hmiss. apply list_elem_of_filter. split; [|by apply resolved_elem].
    cbn [RoutesService.getRouteWithCountries RoutesService.sourceCountry
         RoutesService.destinationCountry].
    destruct Hmiss as [-> | ->]; [by left|by right].
  - intros t m rc Hm Hrc Hsrc. split.
    + intros k group Hk Hin.
      apply getRoutesByTier_Return in Hm as ->.
      apply (collect_elem _ _ _ _ _ _ Hk) in Hin as (_ & Hskip & _).
      apply skipRoute_false in Hskip as [_ ?]. done.
    + apply list_elem_of_filter. split; [by left|done].
Qed.

(** ** Accessible countries *)

Section AllCountries.

(** The body of the loop of [RoutesService.getAccessibleCountries]. *)
Let addCountries (allCountries : list string)
    (route : RoutesService.RouteWithCountries) : list string :=
  let allCountries :=
    if negb (String.eqb (RoutesService.sourceCountry route) "Unknown")
    then Set_add allCountries (RoutesService.sourceCountry route)
    else allCountries in
  if negb (String.eqb (RoutesService.destinationCountry route) "Unknown")
  then Set_add allCountries (RoutesService.destinationCountry route)
  else allCountries.

Lemma addCountries_elem (s : list string)
    (x : RoutesService.RouteWithCountries) (c : string) :
  c ∈ addCountries s x
  <-> c ∈ s
      ∨ (c ≠ "Unknown"
         ∧ (RoutesService.sourceCountry x = c
            ∨ RoutesService.destinationCountry x = c)).
Proof.
  unfold addCountries.
  destruct (String.eqb_spec (RoutesService.sourceCountry x) "Unknown") as [Hs|Hs];
    destruct (String.eqb_spec (RoutesService.destinationCountry x) "Unknown")
      as [Hd|Hd]; cbn [negb]; rewrite ?Set_add_elem.
  all: intuition (subst; try congruence; auto).
Qed.

Lemma allCountries_elem (l : list RoutesService.RouteWithCountries)
    (s : list string) (c : string) :
  c ∈ fold_left addCountries l s
  <-> c ∈ s
      ∨ (c ≠ "Unknown"
         ∧ exists rc, rc ∈ l ∧ (RoutesService.sourceCountry rc = c
                                ∨ RoutesService.destinationCountry rc = c)).
Proof.
  revert s. induction l as [|x l IH]; intros s.
  - simpl. split; [by left|].
    intros [?|(_ & rc & Hrc & _)]; [done|inversion Hrc].
  - cbn [fold_left]. rewrite IH, addCountries_elem. split.
    + intros [[?|[Hc Hx]]|(Hc & rc & Hrc & Hor)]; [by left|right..].
      * split; [done|]. exists x. split; [by left|done].
      * split; [done|]. exists rc. split; [by right|done].
    + intros [?|(Hc & rc & Hrc & Hor)]; [by left; left|].
      apply elem_of_cons in Hrc as [->|Hrc]; [by left; right|].
      right. split; [done|]. by exists rc.
Qed.

Lemma allCountries_NoDup (l : list RoutesService.RouteWithCountries)
    (s : list string) :
  NoDup s -> NoDup (fold_left addCountries l s).
Proof.
  revert s. induction l as [|x l IH]; intros s Hs; [done|].
  cbn [fold_left]. apply IH. unfold addCountries.
  destruct (negb _), (negb _); auto using Set_add_NoDup.
Qed.

End AllCountries.

(** C7, as the code has it.  Under ELITE, the routes service lists, sorted
    and without duplicates, the resolved source and destination countries of
    the loaded routes other than "Unknown"; the airlines and airports services
    list, sorted and without duplicates, every value of the country field of
    the loaded records, with no value left out.  Under FREE and PRO each
    service returns the configured list as it is written, and the PRO list
    is not in sorted order. *)
Theorem getAccessibleCountries_listing
    (airlinesService : AirlinesService.AirlinesService)
    (airportsService : AirportsService.AirportsService)
    (routesService : RoutesService.RoutesService) :
  (exists l,
      RoutesService.getAccessibleCountries routesService (tierValue ELITE)
      = Return l
      ∧ StronglySorted String.le l ∧ NoDup l
      ∧ forall c,
          c ∈ l <->
          c ≠ "Unknown"
          ∧ exists rc, rc ∈ resolved routesService
                       ∧ (RoutesService.sourceCountry rc = c
                          ∨ RoutesService.destinationCountry rc = c))
  ∧ (exists l,
      AirlinesService.getAccessibleCountries airlinesService (tierValue ELITE)
      = Return l
      ∧ StronglySorted String.le l ∧ NoDup l
      ∧ forall c,
          c ∈ l <->
          exists a, a ∈ AirlinesService.airlines airlinesService
                    ∧ AirlinesService.country a = c)
  ∧ (exists l,
      AirportsService.getAccessibleCountries airportsService (tierValue ELITE)
      = Return l
      ∧ StronglySorted String.le l ∧ NoDup l
      ∧ forall c,
          c ∈ l <->
          exists a, a ∈ AirportsService.airports airportsService
                    ∧ AirportsService.country a = c)
  ∧ AirlinesService.getAccessibleCountries airlinesService (tierValue FREE)
    = Return freeCountries
  ∧ AirlinesService.getAccessibleCountries airlinesService (tierValue PRO)
    = Return proCountries
  ∧ AirportsService.getAccessibleCountries airportsService (tierValue FREE)
    = Return freeCountries
  ∧ AirportsService.getAccessibleCountries airportsService (tierValue PRO)
    = Return proCountries
  ∧ RoutesService.getAccessibleCountries routesService (tierValue FREE)
    = Return freeCountries
  ∧ RoutesService.getAccessibleCountries routesService (tierValue PRO)
    = Return proCountries
  ∧ freeCountries = ["Israel"]
  ∧ ¬ StronglySorted String.le proCountries.
Proof.
  split_and!.
  - eexists. split; [reflexivity|]. split_and!.
    + apply sort_sorted.
    + apply sort_NoDup, allCountries_NoDup. constructor.
    + intros c. rewrite sort_elem, allCountries_elem. split.
      * intros [H|H]; [inversion H|done].
      * by right.
  - eexists. split; [reflexivity|]. split_and!.
    + apply sort_sorted.
    + apply sort_NoDup, Set_new_NoDup.
    + intros c. rewrite sort_elem, Set_new_elem, list_elem_of_In, in_map_iff.
      split; intros (a & ? & ?); exists a; by rewrite list_elem_of_In in *.
  - eexists. split; [reflexivity|]. split_and!.
    + apply sort_sorted.
    + apply sort_NoDup, Set_new_NoDup.
    + intros c. rewrite sort_elem, Set_new_elem, list_elem_of_In, in_map_iff.
      split; intros (a & ? & ?); exists a; by rewrite list_elem_of_In in *.
  - reflexivity.
  - reflexivity.
  - reflexivity.
  - reflexivity.
  - reflexivity.
  - reflexivity.
  - reflexivity.
  - intros Hsorted. unfold proCountries in Hsorted.
    apply StronglySorted_inv in Hsorted as [Hsorted _].
    apply StronglySorted_inv in Hsorted as [_ Hall].
    apply Forall_inv in Hall. by vm_compute in Hall.
Qed.

(** C7, counterexample.  An airline whose country field reads "Unknown" makes
    "Unknown" one of the accessible countries of ELITE. *)
Lemma getAccessibleCountries_airlines_lists_Unknown :
  exists l,
    AirlinesService.getAccessibleCountries sampleAirlines (tierValue ELITE)
    = Return l
    ∧ l = ["Germany"; "Israel"; "Unknown"]
    ∧ "Unknown" ∈ l.
Proof.
  eexists. split; [vm_compute; reflexivity|]. split; [reflexivity|].
  compute_done.
Qed.

(** ** Tiers absent from the table *)

(** C3, as the code has it.  For a tier value that is absent from the tier
    table and names no member of [Object.prototype] (so that the table gives
    [undefined] for it), every operation of the three services that returns
    data throws the error "Invalid subscription tier: <tier>", whereas
    [hasCountryAccess] returns [false] without an error. *)
Theorem absent_tier_outcomes
    (airlinesService : AirlinesService.AirlinesService)
    (airportsService : AirportsService.AirportsService)
    (routesService : RoutesService.RoutesService)
    (tier c d : string) :
  tierConfigurations !! tier = None ->
  inherited tier = false ->
  let invalid := mkError ("Invalid subscription tier: " +:+ tier) in
  AirlinesService.getAirlinesByTier airlinesService tier = Throw invalid
  ∧ AirlinesService.getAirlinesByCountry airlinesService tier c = Throw invalid
  ∧ AirlinesService.getAccessibleCountries airlinesService tier = Throw invalid
  ∧ AirlinesService.getTierStatistics airlinesService tier = Throw invalid
  ∧ AirportsService.getAirportsByTier airportsService tier = Throw invalid
  ∧ AirportsService.getAirportsByCountry airportsService tier c = Throw invalid
  ∧ AirportsService.getAccessibleCountries airportsService tier = Throw invalid
  ∧ AirportsService.getTierStatistics airportsService tier = Throw invalid
  ∧ RoutesService.getRoutesByTier routesService tier = Throw invalid
  ∧ RoutesService.getRoutesByCountry routesService tier c = Throw invalid
  ∧ RoutesService.getRoutesBetweenCountries routesService tier c d
    = Throw invalid
  ∧ RoutesService.getAccessibleCountries routesService tier = Throw invalid
  ∧ RoutesService.getTierStatistics routesService tier = Throw invalid
  ∧ AirlinesService.hasCountryAccess tier c = false
  ∧ AirportsService.hasCountryAccess tier c = false
  ∧ RoutesService.hasCountryAccess tier c = false.
Proof.
  intros Habsent _ invalid.
  unfold AirlinesService.getTierStatistics, AirportsService.getTierStatistics,
    RoutesService.getTierStatistics.
  unfold AirlinesService.getAirlinesByTier, AirlinesService.getAirlinesByCountry,
    AirlinesService.getAccessibleCountries, AirlinesService.hasCountryAccess,
    AirportsService.getAirportsByTier, AirportsService.getAirportsByCountry,
    AirportsService.getAccessibleCountries, AirportsService.hasCountryAccess,
    RoutesService.getRoutesByTier, RoutesService.getRoutesByCountry,
    RoutesService.getRoutesBetweenCountries,
    RoutesService.getAccessibleCountries, RoutesService.hasCountryAccess.
  rewrite Habsent. repeat split.
Qed.

(** C3, witness: the tier value "gold". *)
Lemma absent_tier_outcomes_gold :
  AirlinesService.getAirlinesByTier sampleAirlines "gold"
  = Throw (mkError "Invalid subscription tier: gold")
  ∧ RoutesService.getTierStatistics sampleRoutes "gold"
    = Throw (mkError "Invalid subscription tier: gold")
  ∧ RoutesService.hasCountryAccess "gold" "Israel" = false.
Proof.
  pose proof (absent_tier_outcomes sampleAirlines
                {| AirportsService.airports := [] |} sampleRoutes
                "gold" "Israel" "Israel" eq_refl eq_refl) as H.
  cbv zeta in H. split_and!; apply H.
Defined.

(** C3, counterexample.  "gold" is not a tier of the table, and
    [hasCountryAccess] answers [false] for it in each service instead of
    failing. *)
Lemma hasCountryAccess_absent_tier_is_false :
  tierConfigurations !! "gold" = None
  ∧ inherited "gold" = false
  ∧ AirlinesService.hasCountryAccess "gold" "Israel" = false
  ∧ AirportsService.hasCountryAccess "gold" "Israel" = false
  ∧ RoutesService.hasCountryAccess "gold" "Israel" = false.
Proof. repeat split. Qed.

(** ** Resolution of the tier of a request *)

Section RequestFacts.

Variable JWT_SECRET : option string.
Variable jwt_verify : string -> string -> JwtManager.VerifyOutcome.

(** A validation that is not valid carries no payload. *)
Lemma verifyToken_invalid_payload (token : option string) :
  JwtManager.isValid (JwtManager.verifyToken JWT_SECRET jwt_verify token) = false ->
  JwtManager.payload (JwtManager.verifyToken JWT_SECRET jwt_verify token) = None.
Proof.
  unfold JwtManager.verifyToken. destruct token as [tok|]; [|done].
  destruct (negb (truthy tok)); [done|].
  destruct (jwt_verify tok _) as [p|exn]; [|done].
  destruct (negb _); [done|]. discriminate.
Qed.

Lemma verifyToken_raised (tok : string) (exn : JwtManager.Caught) :
  tok ≠ "" ->
  jwt_verify tok (JwtManager.secretKey JWT_SECRET) = JwtManager.Raised exn ->
  JwtManager.verifyToken JWT_SECRET jwt_verify (Some tok) =
    {| JwtManager.isValid := false;
       JwtManager.payload := None;
       JwtManager.error :=
         Some (if JwtManager.isTokenExpiredError exn then "Token has expired"
               else if JwtManager.isJsonWebTokenError exn then "Invalid token"
               else if JwtManager.isNotBeforeError exn
                    then "Token not active yet"
               else "Token verification failed");
       JwtManager.validatedTier := None |}.
Proof.
  intros Htok Hraised. unfold JwtManager.verifyToken.
  apply truthy_true in Htok. rewrite Htok. cbn [negb]. by rewrite Hraised.
Qed.

Lemma getUserTier_invalid (req : Request) (cookie : string) :
  cookies_Authorization req = Some cookie ->
  JwtManager.isValid (JwtManager.verifyToken JWT_SECRET jwt_verify (split " " cookie !! 1%nat)) = false ->
  getUserTier JWT_SECRET jwt_verify req = JwtManager.UserTier_FREE.
Proof.
  intros Hcookie Hinvalid. unfold getUserTier. rewrite Hcookie.
  destruct (negb (truthy cookie)); [done|].
  unfold tierOrFree. by rewrite verifyToken_invalid_payload.
Qed.

End RequestFacts.

(** C4, as the code has it.  Where the handlers resolve the tier
    ([getUserTier]), a request without the credential cookie is FREE, and so
    is a request whose cookie carries a token that the library rejects
    (malformed, signed with another key, expired).  The [requireFeature] guard
    in front of every data route lets a request without a bearer header
    through, but answers a bearer token that the library rejects with status
    401 and the reason of the rejection, so that such a request does not
    proceed. *)
Theorem credential_resolution
    (JWT_SECRET : option string)
    (jwt_verify : string -> string -> JwtManager.VerifyOutcome)
    (token cookie : string) (exn : JwtManager.Caught)
    (header other : option string) (featureId : string) :
  token ≠ "" ->
  jwt_verify token (JwtManager.secretKey JWT_SECRET) = JwtManager.Raised exn ->
  split " " cookie !! 1%nat = Some token ->
  let reason :=
    if JwtManager.isTokenExpiredError exn then "Token has expired"
    else if JwtManager.isJsonWebTokenError exn then "Invalid token"
    else if JwtManager.isNotBeforeError exn then "Token not active yet"
    else "Token verification failed" in
  let rejection :=
    Respond 401 [("error", JString "Invalid token");
                 ("message", JString reason)] in
  getUserTier JWT_SECRET jwt_verify
    {| headers_authorization := header; cookies_Authorization := None |}
  = "free"
  ∧ getUserTier JWT_SECRET jwt_verify
      {| headers_authorization := header; cookies_Authorization := Some cookie |}
    = "free"
  ∧ requireFeature JWT_SECRET jwt_verify "basic_access"
      {| headers_authorization := None; cookies_Authorization := other |}
    = Next
  ∧ dataRouteTier JWT_SECRET jwt_verify
      {| headers_authorization := None; cookies_Authorization := Some cookie |}
    = inl (tierValue FREE)
  ∧ requireFeature JWT_SECRET jwt_verify featureId
      {| headers_authorization := Some ("Bearer " +:+ token);
         cookies_Authorization := other |}
    = rejection
  ∧ dataRouteTier JWT_SECRET jwt_verify
      {| headers_authorization := Some ("Bearer " +:+ token);
         cookies_Authorization := other |}
    = inr rejection.
Proof.
  intros Htoken Hraised Hcookie reason rejection.
  pose proof (verifyToken_raised JWT_SECRET jwt_verify token exn Htoken Hraised)
    as Hverify.
  assert (getUserTier JWT_SECRET jwt_verify
            {| headers_authorization := None;
               cookies_Authorization := Some cookie |} = "free") as Hfree.
  { apply (getUserTier_invalid _ _ _ cookie); [done|].
    cbn [cookies_Authorization]. by rewrite Hcookie, Hverify. }
  assert (forall f,
            requireFeature JWT_SECRET jwt_verify f
              {| headers_authorization := Some ("Bearer " +:+ token);
                 cookies_Authorization := other |} = rejection) as Hreject.
  { intros f. unfold requireFeature. cbn [headers_authorization].
    change (startsWith ("Bearer " +:+ token) "Bearer ") with true.
    change (slice 7 ("Bearer " +:+ token)) with token.
    cbn [truthy_opt]. apply truthy_true in Htoken. rewrite Htoken.
    by rewrite Hverify. }
  split_and!.
  - reflexivity.
  - apply (getUserTier_invalid _ _ _ cookie); [done|].
    by rewrite Hcookie, Hverify.
  - reflexivity.
  - unfold dataRouteTier. change (basicAccess _ _ _) with Next.
    by rewrite Hfree.
  - apply Hreject.
  - unfold dataRouteTier, basicAccess. by rewrite Hreject.
Qed.

(** C4, witness: a library that rejects every token, the token "abc". *)
Lemma credential_resolution_rejectAll :
  getUserTier None rejectAll
    {| headers_authorization := None;
       cookies_Authorization := Some "Bearer abc" |}
  = "free"
  ∧ requireFeature None rejectAll "basic_access"
      {| headers_authorization := Some "Bearer abc";
         cookies_Authorization := None |}
    = Respond 401 [("error", JString "Invalid token");
                   ("message", JString "Invalid token")].
Proof.
  pose proof (credential_resolution None rejectAll "abc" "Bearer abc"
                {| JwtManager.isTokenExpiredError := false;
                   JwtManager.isJsonWebTokenError := true;
                   JwtManager.isNotBeforeError := false |}
                None None "basic_access"
                ltac:(discriminate) eq_refl eq_refl) as H.
  cbv zeta in H. split; apply H.
Defined.

(** C4, counterexample.  A data route asked with a bearer token that the
    library rejects answers 401; the request does not proceed as FREE. *)
Lemma rejected_bearer_token_is_refused :
  basicAccess None rejectAll
    {| headers_authorization := Some "Bearer abc";
       cookies_Authorization := None |}
  = Respond 401 [("error", JString "Invalid token");
                 ("message", JString "Invalid token")]
  ∧ dataRouteTier None rejectAll
      {| headers_authorization := Some "Bearer abc";
         cookies_Authorization := None |}
    ≠ inl (tierValue FREE).
Proof. split; [reflexivity|discriminate]. Qed.

(** ** The sample data, evaluated *)

Example sampleRoutes_statistics_free :
  RoutesService.getTierStatistics sampleRoutes (tierValue FREE)
  = Return {| RoutesService.totalRoutes := 2;
              RoutesService.totalCountries := 2;
              RoutesService.countriesWithData := ["Israel"; "United States"] |}.
Proof. vm_compute. reflexivity. Qed.

Example sampleRoutes_statistics_elite :
  RoutesService.getTierStatistics sampleRoutes (tierValue ELITE)
  = Return {| RoutesService.totalRoutes := 3;
              RoutesService.totalCountries := 3;
              RoutesService.countriesWithData :=
                ["France"; "Israel"; "United States"] |}.
Proof. vm_compute. reflexivity. Qed.

Example sampleRoutes_unknown_source_in_no_group :
  (m ← RoutesService.getRoutesByTier sampleRoutes (tierValue FREE);
   Return (m !! "Unknown", length <$> m !! "Israel"))
  = Return (None, Some 1).
Proof. vm_compute. reflexivity. Qed.

Example sampleRoutes_unknown_by_country :
  RoutesService.getRoutesByCountry sampleRoutes (tierValue ELITE) "Unknown"
  = Return [RoutesService.getRouteWithCountries sampleRoutes
              (sampleRoute "ZZZ" "TLV")].
Proof. vm_compute. reflexivity. Qed.

Example sampleRoutes_accessible_elite :
  RoutesService.getAccessibleCountries sampleRoutes (tierValue ELITE)
  = Return ["France"; "Germany"; "Israel"; "United States"].
Proof. vm_compute. reflexivity. Qed.

Example sampleAirlines_byTier_free :
  (m ← AirlinesService.getAirlinesByTier sampleAirlines (tierValue FREE);
   Return (Object_keys m, m !! "Israel"))
  = Return (["Israel"],
            Some [sampleAirline "El Al" "Israel"; sampleAirline "Arkia" "Israel"]).
Proof. vm_compute. reflexivity. Qed.

Example sampleAirlines_byCountry_pro_Mexico :
  AirlinesService.getAirlinesByCountry sampleAirlines (tierValue PRO) "Mexico"
  = Throw (mkError "Country 'Mexico' is not accessible with pro tier").
Proof. vm_compute. reflexivity. Qed.

Example split_cookie : split " " "Bearer abc" = ["Bearer"; "abc"].
Proof. reflexivity. Qed.

Example split_no_token : split " " "Bearer" !! 1%nat = None.
Proof. reflexivity. Qed.

(** * Further properties of the code *)

(** ** Tiers compared *)

Lemma admits_mono (t1 t2 : SubscriptionTier) (c : string) :
  tierRank t1 <= tierRank t2 ->
  admits (listPolicy t1) c = true -> admits (listPolicy t2) c = true.
Proof.
  destruct t1, t2; cbn [tierRank listPolicy admits]; try done; try lia.
  rewrite !includes_true. unfold freeCountries, proCountries.
  intros _ ->%list_elem_of_singleton. by left.
Qed.

(** X1. Access grows with the tier: in each service, a country accessible
    under a tier is accessible under every higher tier. *)
Theorem hasCountryAccess_monotone (t1 t2 : SubscriptionTier) (c : string) :
  tierRank t1 <= tierRank t2 ->
  Forall
    (fun hasCountryAccess : string -> string -> bool =>
       hasCountryAccess (tierValue t1) c = true ->
       hasCountryAccess (tierValue t2) c = true)
    [AirlinesService.hasCountryAccess;
     AirportsService.hasCountryAccess;
     RoutesService.hasCountryAccess].
Proof.
  intros Hrank.
  constructor; [|constructor; [|constructor; [|constructor]]].
  - rewrite !airlines_hasCountryAccess_tier. by apply admits_mono.
  - rewrite !airports_hasCountryAccess_tier. by apply admits_mono.
  - rewrite !routes_hasCountryAccess_tier. by apply admits_mono.
Qed.

Lemma hasCountryAccess_monotone_free_pro :
  AirlinesService.hasCountryAccess "free" "Israel" = true
  ∧ AirlinesService.hasCountryAccess "pro" "Israel" = true.
Proof.
  pose proof (hasCountryAccess_monotone FREE PRO "Israel" ltac:(cbn; lia)) as H.
  apply Forall_inv in H. split; [reflexivity|]. apply H. reflexivity.
Defined.

(** X2. The list of accessible countries agrees with the access decision:
    in each service and for every tier, every listed country passes
    [hasCountryAccess], and under FREE and PRO every country that passes it
    is listed. *)
Theorem getAccessibleCountries_hasCountryAccess
    (airlinesService : AirlinesService.AirlinesService)
    (airportsService : AirportsService.AirportsService)
    (routesService : RoutesService.RoutesService)
    (t : SubscriptionTier) (c : string) :
  (exists l,
      AirlinesService.getAccessibleCountries airlinesService (tierValue t)
      = Return l
      ∧ (c ∈ l -> AirlinesService.hasCountryAccess (tierValue t) c = true)
      ∧ (t ≠ ELITE ->
         AirlinesService.hasCountryAccess (tierValue t) c = true -> c ∈ l))
  ∧ (exists l,
      AirportsService.getAccessibleCountries airportsService (tierValue t)
      = Return l
      ∧ (c ∈ l -> AirportsService.hasCountryAccess (tierValue t) c = true)
      ∧ (t ≠ ELITE ->
         AirportsService.hasCountryAccess (tierValue t) c = true -> c ∈ l))
  ∧ (exists l,
      RoutesService.getAccessibleCountries routesService (tierValue t)
      = Return l
      ∧ (c ∈ l -> RoutesService.hasCountryAccess (tierValue t) c = true)
      ∧ (t ≠ ELITE ->
         RoutesService.hasCountryAccess (tierValue t) c = true -> c ∈ l)).
Proof.
  rewrite airlines_hasCountryAccess_tier, airports_hasCountryAccess_tier,
    routes_hasCountryAccess_tier.
  unfold AirlinesService.getAccessibleCountries,
    AirportsService.getAccessibleCountries,
    RoutesService.getAccessibleCountries.
  rewrite tierConfigurations_tier. cbn [countries].
  destruct t; cbn [listPolicy admits];
    (split_and!; eexists; (split; [reflexivity|]); split;
     rewrite ?includes_true; done).
Qed.

(** ** Grouped views against single-country queries *)

Section GroupedByCountry.

Context {A : Type}.
Variable key : A -> string.
Variable adm : string -> bool.

Lemma filed_filter_key (l : list A) (k : string) :
  adm k = true -> k ≠ "" ->
  filed key (fun a => negb (truthy (key a))) k
        (List.filter (fun a => adm (key a)) l)
  = List.filter (fun a => String.eqb (key a) k) l.
Proof.
  intros Hadm Hk. unfold filed. rewrite filter_bool_filter.
  apply filter_ext. intros a.
  destruct (String.eqb_spec (key a) k) as [->|Hne].
  - apply truthy_true in Hk. by rewrite Hadm, Hk.
  - by rewrite !andb_false_r.
Qed.

Lemma collect_filter_key (l : list A) (k : string) (group : list A) :
  collect key (fun a => negb (truthy (key a)))
          (List.filter (fun a => adm (key a)) l) !! k = Some group ->
  adm k = true ∧ k ≠ ""
  ∧ group = List.filter (fun a => String.eqb (key a) k) l.
Proof.
  intros Hk. pose proof (collect_Some _ _ _ _ _ Hk) as [Hgroup Hne].
  destruct group as [|a group]; [done|].
  assert (a ∈ a :: group) as Ha by by left.
  apply (collect_elem _ _ _ _ _ _ Hk) in Ha as (Ha & Hskip & Hkey).
  apply elem_of_filter_bool in Ha as [_ Hadm].
  apply negb_false_iff, truthy_true in Hskip. subst k.
  split_and!; [done..|]. rewrite Hgroup. by apply filed_filter_key.
Qed.

Lemma collect_filter_lookup (l : list A) (k : string) :
  adm k = true -> k ≠ "" ->
  collect key (fun a => negb (truthy (key a)))
          (List.filter (fun a => adm (key a)) l) !! k
  = match List.filter (fun a => String.eqb (key a) k) l with
    | [] => None
    | group => Some group
    end.
Proof.
  intros Hadm Hk. by rewrite collect_lookup, filed_filter_key.
Qed.

End GroupedByCountry.

Lemma getAirlinesByCountry_tier (this : AirlinesService.AirlinesService)
    (t : SubscriptionTier) (c : string) :
  AirlinesService.getAirlinesByCountry this (tierValue t) c =
    if admits (listPolicy t) c
    then Return (List.filter
                   (fun a => String.eqb (AirlinesService.country a) c)
                   (AirlinesService.airlines this))
    else Throw (CountryNotAccessible c (tierValue t)).
Proof.
  unfold AirlinesService.getAirlinesByCountry. rewrite tierConfigurations_tier.
  destruct t; cbn [countries listPolicy admits]; try destruct (includes _ c); done.
Qed.

Lemma getAirportsByCountry_tier (this : AirportsService.AirportsService)
    (t : SubscriptionTier) (c : string) :
  AirportsService.getAirportsByCountry this (tierValue t) c =
    if admits (listPolicy t) c
    then Return (List.filter
                   (fun a => String.eqb (AirportsService.country a) c)
                   (AirportsService.airports this))
    else Throw (CountryNotAccessible c (tierValue t)).
Proof.
  unfold AirportsService.getAirportsByCountry. rewrite tierConfigurations_tier.
  destruct t; cbn [countries listPolicy admits]; try destruct (includes _ c); done.
Qed.

(** X3. For airlines and airports the grouped view and the single-country
    query agree.  In every mapping that [byTier] returns, each key is a
    country accessible under the tier and its group is the answer of
    [byCountry] for that key; conversely the non-empty answer of [byCountry]
    for a non-empty country name is the group of that country, and an empty
    answer means that the country is not a key.  Under FREE and PRO [byTier]
    returns such a mapping whatever the loaded records are. *)
Theorem byTier_groups_are_byCountry
    (airlinesService : AirlinesService.AirlinesService)
    (airportsService : AirportsService.AirportsService)
    (t : SubscriptionTier) :
  (forall m,
      AirlinesService.getAirlinesByTier airlinesService (tierValue t) = Return m ->
      (forall k group,
         m !! k = Some group ->
         AirlinesService.hasCountryAccess (tierValue t) k = true
         ∧ AirlinesService.getAirlinesByCountry airlinesService (tierValue t) k
           = Return group)
      ∧ (forall c l,
           c ≠ "" ->
           AirlinesService.getAirlinesByCountry airlinesService (tierValue t) c
           = Return l ->
           m !! c = match l with [] => None | _ => Some l end))
  ∧ (forall m,
      AirportsService.getAirportsByTier airportsService (tierValue t) = Return m ->
      (forall k group,
         m !! k = Some group ->
         AirportsService.hasCountryAccess (tierValue t) k = true
         ∧ AirportsService.getAirportsByCountry airportsService (tierValue t) k
           = Return group)
      ∧ (forall c l,
           c ≠ "" ->
           AirportsService.getAirportsByCountry airportsService (tierValue t) c
           = Return l ->
           m !! c = match l with [] => None | _ => Some l end))
  ∧ (t ≠ ELITE ->
     (exists m,
        AirlinesService.getAirlinesByTier airlinesService (tierValue t)
        = Return m)
     ∧ (exists m,
          AirportsService.getAirportsByTier airportsService (tierValue t)
          = Return m)).
Proof.
  split_and!.
  - intros m ->%getAirlinesByTier_Return. unfold admitted. split.
    + intros k group Hk.
      apply (collect_filter_key AirlinesService.country (admits (listPolicy t)))
        in Hk as (Hadm & _ & ->).
      rewrite airlines_hasCountryAccess_tier, getAirlinesByCountry_tier.
      by rewrite Hadm.
    + intros c l Hc. rewrite getAirlinesByCountry_tier.
      destruct (admits (listPolicy t) c) eqn:Hadm; [|done]. intros [= <-].
      rewrite (collect_filter_lookup AirlinesService.country
                 (admits (listPolicy t))) by done.
      by destruct (List.filter _ _).
  - intros m ->%getAirportsByTier_Return. unfold admitted. split.
    + intros k group Hk.
      apply (collect_filter_key AirportsService.country (admits (listPolicy t)))
        in Hk as (Hadm & _ & ->).
      rewrite airports_hasCountryAccess_tier, getAirportsByCountry_tier.
      by rewrite Hadm.
    + intros c l Hc. rewrite getAirportsByCountry_tier.
      destruct (admits (listPolicy t) c) eqn:Hadm; [|done]. intros [= <-].
      rewrite (collect_filter_lookup AirportsService.country
                 (admits (listPolicy t))) by done.
      by destruct (List.filter _ _).
  - intros Ht. split.
    + by apply getAirlinesByTier_returns, admitted_plain.
    + by apply getAirportsByTier_returns, admitted_plain.
Qed.

Lemma getRoutesByCountry_tier_bool (this : RoutesService.RoutesService)
    (t : SubscriptionTier) (c : string) :
  RoutesService.getRoutesByCountry this (tierValue t) c =
    if admits (listPolicy t) c
    then Return (List.filter
                   (fun r => String.eqb (RoutesService.sourceCountry r) c
                             || String.eqb (RoutesService.destinationCountry r) c)
                   (resolved this))
    else Throw (CountryNotAccessible c (tierValue t)).
Proof.
  unfold RoutesService.getRoutesByCountry. rewrite tierConfigurations_tier.
  destruct t; cbn [countries listPolicy admits]; try destruct (includes _ c); done.
Qed.

(** X4. For routes, in every mapping that [getRoutesByTier] returns for a
    tier, every record has a source or a destination country accessible
    under the tier, no key is "Unknown", and the group of a key that is
    itself accessible is the part of the answer of [getRoutesByCountry] for
    that key whose source country is the key.  [getRoutesByTier] returns
    such a mapping exactly when no route that passes the filter of the tier
    has a source country that names a member of [Object.prototype]. *)
Theorem getRoutesByTier_groups_against_byCountry
    (this : RoutesService.RoutesService) (t : SubscriptionTier) :
  (forall m,
     RoutesService.getRoutesByTier this (tierValue t) = Return m ->
     forall k group,
       m !! k = Some group ->
       k ≠ "Unknown"
       ∧ (forall r,
            r ∈ group ->
            RoutesService.hasCountryAccess (tierValue t)
              (RoutesService.sourceCountry r) = true
            ∨ RoutesService.hasCountryAccess (tierValue t)
                (RoutesService.destinationCountry r) = true)
       ∧ (RoutesService.hasCountryAccess (tierValue t) k = true ->
          exists l,
            RoutesService.getRoutesByCountry this (tierValue t) k = Return l
            ∧ group = List.filter
                        (fun r => String.eqb (RoutesService.sourceCountry r) k)
                        l))
  ∧ ((exists m, RoutesService.getRoutesByTier this (tierValue t) = Return m)
     <-> plain RoutesService.sourceCountry (admittedRoutes t this)).
Proof.
  split; [|apply getRoutesByTier_returns].
  intros m ->%getRoutesByTier_Return. unfold admittedRoutes.
  intros k group Hk.
  pose proof (collect_Some _ _ _ _ _ Hk) as [Hgroup Hne].
  assert (k ≠ "" ∧ k ≠ "Unknown") as [Hk1 Hk2].
  { destruct group as [|a group]; [done|].
    assert (a ∈ a :: group) as Ha by by left.
    apply (collect_elem _ _ _ _ _ _ Hk) in Ha as (_ & Hskip & <-).
    by apply skipRoute_false. }
  split_and!; [done| |].
  - intros r Hr. apply (collect_elem _ _ _ _ _ _ Hk) in Hr as (Hr & _ & _).
    apply elem_of_filter_bool in Hr as [_ Hr].
    rewrite !routes_hasCountryAccess_tier. by apply orb_true_iff.
  - rewrite routes_hasCountryAccess_tier, getRoutesByCountry_tier_bool.
    intros Hadm. rewrite Hadm. eexists. split; [reflexivity|].
    rewrite Hgroup. unfold filed. rewrite !filter_bool_filter.
    apply filter_ext. intros r.
    destruct (String.eqb_spec (RoutesService.sourceCountry r) k) as [Hsrc|Hsrc].
    + assert (skipRoute r = false) as -> by (apply skipRoute_false; by rewrite Hsrc).
      by rewrite Hsrc, Hadm.
    + by rewrite !andb_false_r.
Qed.

Lemma getRoutesBetweenCountries_tier_bool (this : RoutesService.RoutesService)
    (t : SubscriptionTier) (s d : string) :
  RoutesService.getRoutesBetweenCountries this (tierValue t) s d =
    if admits (listPolicy t) s && admits (listPolicy t) d
    then Return (List.filter
                   (fun r => String.eqb (RoutesService.sourceCountry r) s
                             && String.eqb (RoutesService.destinationCountry r) d)
                   (resolved this))
    else Throw (PairNotAccessible s d).
Proof.
  unfold RoutesService.getRoutesBetweenCountries.
  rewrite tierConfigurations_tier.
  destruct t; cbn [countries listPolicy admits]; [| |done];
    destruct (includes _ s), (includes _ d); done.
Qed.

(** X5. A pairwise query never shows more than the two single-country
    queries: when [getRoutesBetweenCountries] succeeds, [getRoutesByCountry]
    succeeds for the source and for the destination country, and the pairwise
    answer is the part of either answer with the given source and
    destination. *)
Theorem betweenCountries_within_byCountry
    (this : RoutesService.RoutesService) (t : SubscriptionTier)
    (s d : string) (l : list RoutesService.RouteWithCountries) :
  RoutesService.getRoutesBetweenCountries this (tierValue t) s d = Return l ->
  exists ls ld,
    RoutesService.getRoutesByCountry this (tierValue t) s = Return ls
    ∧ RoutesService.getRoutesByCountry this (tierValue t) d = Return ld
    ∧ l = List.filter
            (fun r => String.eqb (RoutesService.sourceCountry r) s
                      && String.eqb (RoutesService.destinationCountry r) d) ls
    ∧ l = List.filter
            (fun r => String.eqb (RoutesService.sourceCountry r) s
                      && String.eqb (RoutesService.destinationCountry r) d) ld
    ∧ sublist l ls ∧ sublist l ld.
Proof.
  rewrite getRoutesBetweenCountries_tier_bool, !getRoutesByCountry_tier_bool.
  destruct (admits (listPolicy t) s), (admits (listPolicy t) d); try done.
  cbn [andb]. intros [= <-]. eexists _, _.
  split; [reflexivity|]. split; [reflexivity|].
  assert (forall (f : RoutesService.RouteWithCountries -> bool),
            (forall r, String.eqb (RoutesService.sourceCountry r) s
                       && String.eqb (RoutesService.destinationCountry r) d = true
                       -> f r = true) ->
            List.filter
              (fun r => String.eqb (RoutesService.sourceCountry r) s
                        && String.eqb (RoutesService.destinationCountry r) d)
              (resolved this)
            = List.filter
                (fun r => String.eqb (RoutesService.sourceCountry r) s
                          && String.eqb (RoutesService.destinationCountry r) d)
                (List.filter f (resolved this))) as Hsub.
  { intros f Hf. rewrite filter_bool_filter. apply filter_ext. intros r.
    destruct (String.eqb _ s && String.eqb _ d) eqn:E.
    - by rewrite (Hf r E).
    - by rewrite andb_false_r. }
  assert (forall r, String.eqb (RoutesService.sourceCountry r) s
                    && String.eqb (RoutesService.destinationCountry r) d = true
                    -> String.eqb (RoutesService.sourceCountry r) s
                       || String.eqb (RoutesService.destinationCountry r) s
                       = true) as Hs.
  { intros r [-> _]%andb_true_iff. done. }
  assert (forall r, String.eqb (RoutesService.sourceCountry r) s
                    && String.eqb (RoutesService.destinationCountry r) d = true
                    -> String.eqb (RoutesService.sourceCountry r) d
                       || String.eqb (RoutesService.destinationCountry r) d
                       = true) as Hd.
  { intros r [_ ->]%andb_true_iff. by rewrite orb_true_r. }
  split_and!.
  - by apply Hsub.
  - by apply Hsub.
  - rewrite (Hsub _ Hs) at 1. apply filter_bool_sublist.
  - rewrite (Hsub _ Hd) at 1. apply filter_bool_sublist.
Qed.

Lemma betweenCountries_within_byCountry_sample :
  exists ls,
    RoutesService.getRoutesByCountry sampleRoutes "free" "Israel" = Return ls
    ∧ sublist [RoutesService.getRouteWithCountries sampleRoutes
                 (sampleRoute "TLV" "ETM")] ls.
Proof.
  destruct (betweenCountries_within_byCountry sampleRoutes FREE
              "Israel" "Israel"
              [RoutesService.getRouteWithCountries sampleRoutes
                 (sampleRoute "TLV" "ETM")] eq_refl)
    as (ls & ld & Hls & _ & _ & _ & Hsub & _).
  exists ls. split; [exact Hls|exact Hsub].
Defined.

(** ** Upgrading the tier *)

Lemma filter_sublist_mono {A} (f g : A -> bool) (l : list A) :
  (forall a, f a = true -> g a = true) ->
  sublist (List.filter f l) (List.filter g l).
Proof.
  intros Hfg. induction l as [|a l IH]; simpl; [constructor|].
  destruct (f a) eqn:Hf.
  - rewrite (Hfg a Hf). by constructor.
  - destruct (g a); [by constructor|done].
Qed.

Lemma collect_filter_embeds {A} (key : A -> string) (skip f g : A -> bool)
    (l : list A) :
  (forall a, f a = true -> g a = true) ->
  embeds (collect key skip (List.filter f l))
         (collect key skip (List.filter g l)).
Proof.
  intros Hfg k group1 Hk.
  pose proof (collect_Some _ _ _ _ _ Hk) as [-> Hne].
  assert (sublist (filed key skip k (List.filter f l))
                  (filed key skip k (List.filter g l))) as Hsub.
  { unfold filed. rewrite !filter_bool_filter. apply filter_sublist_mono.
    intros a [Hf ?]%andb_true_iff. apply andb_true_iff. auto. }
  rewrite collect_lookup.
  destruct (filed key skip k (List.filter g l)) as [|x group2] eqn:E.
  - apply sublist_nil_r in Hsub. done.
  - by eexists.
Qed.

Lemma embeds_dom_size {A} (m1 m2 : gmap string (list A)) :
  embeds m1 m2 -> size (dom m1) <= size (dom m2).
Proof.
  intros Hemb. apply subseteq_size. intros k [g Hg]%elem_of_dom.
  destruct (Hemb k g Hg) as (g2 & Hg2 & _). apply elem_of_dom. by eexists.
Qed.

Lemma plain_filter_mono {A} (key : A -> string) (f g : A -> bool)
    (l : list A) :
  (forall a, f a = true -> g a = true) ->
  plain key (List.filter g l) -> plain key (List.filter f l).
Proof.
  intros Hfg Hg. unfold plain in *. rewrite Forall_forall in *.
  intros a [Ha Hf]%elem_of_filter_bool. apply Hg, elem_of_filter_bool. auto.
Qed.

Lemma admittedRoutes_mono (t1 t2 : SubscriptionTier)
    (r : RoutesService.RouteWithCountries) :
  tierRank t1 <= tierRank t2 ->
  admits (listPolicy t1) (RoutesService.sourceCountry r)
  || admits (listPolicy t1) (RoutesService.destinationCountry r) = true ->
  admits (listPolicy t2) (RoutesService.sourceCountry r)
  || admits (listPolicy t2) (RoutesService.destinationCountry r) = true.
Proof.
  intros Hrank [H|H]%orb_true_iff; apply orb_true_iff; [left|right];
    by apply (admits_mono t1 t2).
Qed.

(** X6. Upgrading never hides data: in each service, when a tier is below
    another and [byTier] returns a mapping for the higher tier, it returns
    one for the lower tier too, and every key of the mapping of the lower
    tier is a key of the mapping of the higher tier, whose group keeps the
    records and their order. *)
Theorem byTier_upgrade_keeps_groups
    (airlinesService : AirlinesService.AirlinesService)
    (airportsService : AirportsService.AirportsService)
    (routesService : RoutesService.RoutesService)
    (t1 t2 : SubscriptionTier) :
  tierRank t1 <= tierRank t2 ->
  (forall m2,
      AirlinesService.getAirlinesByTier airlinesService (tierValue t2)
      = Return m2 ->
      exists m1,
        AirlinesService.getAirlinesByTier airlinesService (tierValue t1)
        = Return m1
        ∧ embeds m1 m2)
  ∧ (forall m2,
      AirportsService.getAirportsByTier airportsService (tierValue t2)
      = Return m2 ->
      exists m1,
        AirportsService.getAirportsByTier airportsService (tierValue t1)
        = Return m1
        ∧ embeds m1 m2)
  ∧ (forall m2,
      RoutesService.getRoutesByTier routesService (tierValue t2) = Return m2 ->
      exists m1,
        RoutesService.getRoutesByTier routesService (tierValue t1) = Return m1
        ∧ embeds m1 m2).
Proof.
  intros Hrank. split_and!; intros m2 Hm2.
  - assert (exists m1,
              AirlinesService.getAirlinesByTier airlinesService (tierValue t1)
              = Return m1) as [m1 Hm1].
    { apply getAirlinesByTier_returns.
      apply (plain_filter_mono _ _
               (fun a => admits (listPolicy t2) (AirlinesService.country a)));
        [intros a; by apply admits_mono|].
      apply getAirlinesByTier_returns. by exists m2. }
    exists m1. split; [done|].
    apply getAirlinesByTier_Return in Hm1 as ->.
    apply getAirlinesByTier_Return in Hm2 as ->.
    apply collect_filter_embeds. intros a. by apply admits_mono.
  - assert (exists m1,
              AirportsService.getAirportsByTier airportsService (tierValue t1)
              = Return m1) as [m1 Hm1].
    { apply getAirportsByTier_returns.
      apply (plain_filter_mono _ _
               (fun a => admits (listPolicy t2) (AirportsService.country a)));
        [intros a; by apply admits_mono|].
      apply getAirportsByTier_returns. by exists m2. }
    exists m1. split; [done|].
    apply getAirportsByTier_Return in Hm1 as ->.
    apply getAirportsByTier_Return in Hm2 as ->.
    apply collect_filter_embeds. intros a. by apply admits_mono.
  - assert (exists m1,
              RoutesService.getRoutesByTier routesService (tierValue t1)
              = Return m1) as [m1 Hm1].
    { apply getRoutesByTier_returns.
      apply (plain_filter_mono _ _
               (fun r => admits (listPolicy t2) (RoutesService.sourceCountry r)
                         || admits (listPolicy t2)
                              (RoutesService.destinationCountry r)));
        [intros r; by apply admittedRoutes_mono|].
      apply getRoutesByTier_returns. by exists m2. }
    exists m1. split; [done|].
    apply getRoutesByTier_Return in Hm1 as ->.
    apply getRoutesByTier_Return in Hm2 as ->.
    apply collect_filter_embeds. intros r. by apply admittedRoutes_mono.
Qed.

Lemma byTier_upgrade_keeps_groups_sample :
  exists m1 m2,
    RoutesService.getRoutesByTier sampleRoutes "free" = Return m1
    ∧ RoutesService.getRoutesByTier sampleRoutes "elite" = Return m2
    ∧ embeds m1 m2.
Proof.
  destruct (byTier_upgrade_keeps_groups sampleAirlines
              {| AirportsService.airports := [] |} sampleRoutes FREE ELITE)
    as (_ & _ & H); [cbn; lia|].
  assert (exists m2,
            RoutesService.getRoutesByTier sampleRoutes "elite" = Return m2)
    as [m2 Hm2] by (eexists; vm_compute; reflexivity).
  destruct (H m2 Hm2) as (m1 & Hm1 & Hemb). by exists m1, m2.
Defined.

(** The statistics of the grouped views of two filters, one weaker than the
    other. *)
Lemma statistics_filter_mono {A} (key : A -> string) (skip f g : A -> bool)
    (l : list A) :
  (forall a, f a = true -> g a = true) ->
  let m1 := collect key skip (List.filter f l) in
  let m2 := collect key skip (List.filter g l) in
  length (flat (Object_values m1)) <= length (flat (Object_values m2))
  ∧ length (flat (Object_values m2)) <= length l
  ∧ length (Object_keys m1) <= length (Object_keys m2)
  ∧ (forall c, c ∈ sort (Object_keys m1) -> c ∈ sort (Object_keys m2)).
Proof.
  intros Hfg m1 m2.
  pose proof (collect_filter_embeds key skip f g l Hfg) as Hemb.
  fold m1 m2 in Hemb. split_and!.
  - unfold m1, m2.
    rewrite !flat_values_groupSizes, !groupSizes_collect, !filter_bool_filter.
    apply sublist_length, filter_sublist_mono.
    intros a [? ?]%andb_true_iff. apply andb_true_iff. auto.
  - unfold m2.
    rewrite flat_values_groupSizes, groupSizes_collect, filter_bool_filter.
    apply sublist_length, filter_bool_sublist.
  - rewrite !Object_keys_length. by apply embeds_dom_size.
  - intros c. rewrite !sort_elem, !Object_keys_elem. intros [g1 Hg1].
    destruct (Hemb c g1 Hg1) as (g2 & Hg2 & _). by eexists.
Qed.

(** The statistics that [getTierStatistics] returns are those of a mapping
    that [byTier] returns. *)
Lemma airlines_getTierStatistics_Return (this : AirlinesService.AirlinesService)
    (tier : string) (s : AirlinesService.TierStatistics) :
  AirlinesService.getTierStatistics this tier = Return s ->
  exists m,
    AirlinesService.getAirlinesByTier this tier = Return m
    ∧ s = {| AirlinesService.totalAirlines := length (flat (Object_values m));
             AirlinesService.totalCountries := length (Object_keys m);
             AirlinesService.countriesWithData := sort (Object_keys m) |}.
Proof.
  unfold AirlinesService.getTierStatistics.
  destruct (AirlinesService.getAirlinesByTier this tier) as [m|e]; [|done].
  intros [= <-]. by exists m.
Qed.

Lemma airports_getTierStatistics_Return (this : AirportsService.AirportsService)
    (tier : string) (s : AirportsService.TierStatistics) :
  AirportsService.getTierStatistics this tier = Return s ->
  exists m,
    AirportsService.getAirportsByTier this tier = Return m
    ∧ s = {| AirportsService.totalAirports := length (flat (Object_values m));
             AirportsService.totalCountries := length (Object_keys m);
             AirportsService.countriesWithData := sort (Object_keys m) |}.
Proof.
  unfold AirportsService.getTierStatistics.
  destruct (AirportsService.getAirportsByTier this tier) as [m|e]; [|done].
  intros [= <-]. by exists m.
Qed.

Lemma routes_getTierStatistics_Return (this : RoutesService.RoutesService)
    (tier : string) (s : RoutesService.TierStatistics) :
  RoutesService.getTierStatistics this tier = Return s ->
  exists m,
    RoutesService.getRoutesByTier this tier = Return m
    ∧ s = {| RoutesService.totalRoutes := length (flat (Object_values m));
             RoutesService.totalCountries := length (Object_keys m);
             RoutesService.countriesWithData := sort (Object_keys m) |}.
Proof.
  unfold RoutesService.getTierStatistics.
  destruct (RoutesService.getRoutesByTier this tier) as [m|e]; [|done].
  intros [= <-]. by exists m.
Qed.

(** X7. Statistics grow with the tier: in each service, when a tier is below
    another and [getTierStatistics] returns for the higher tier, it returns
    for the lower tier too; the total and the number of countries of the
    lower tier are at most those of the higher tier, its countries with data
    are among those of the higher tier, and no total exceeds the number of
    loaded records. *)
Theorem getTierStatistics_monotone
    (airlinesService : AirlinesService.AirlinesService)
    (airportsService : AirportsService.AirportsService)
    (routesService : RoutesService.RoutesService)
    (t1 t2 : SubscriptionTier) :
  tierRank t1 <= tierRank t2 ->
  (forall s2,
      AirlinesService.getTierStatistics airlinesService (tierValue t2)
      = Return s2 ->
      exists s1,
        AirlinesService.getTierStatistics airlinesService (tierValue t1)
        = Return s1
        ∧ AirlinesService.totalAirlines s1 <= AirlinesService.totalAirlines s2
        ∧ AirlinesService.totalAirlines s2
          <= length (AirlinesService.airlines airlinesService)
        ∧ AirlinesService.totalCountries s1 <= AirlinesService.totalCountries s2
        ∧ (forall c, c ∈ AirlinesService.countriesWithData s1 ->
                     c ∈ AirlinesService.countriesWithData s2))
  ∧ (forall s2,
      AirportsService.getTierStatistics airportsService (tierValue t2)
      = Return s2 ->
      exists s1,
        AirportsService.getTierStatistics airportsService (tierValue t1)
        = Return s1
        ∧ AirportsService.totalAirports s1 <= AirportsService.totalAirports s2
        ∧ AirportsService.totalAirports s2
          <= length (AirportsService.airports airportsService)
        ∧ AirportsService.totalCountries s1 <= AirportsService.totalCountries s2
        ∧ (forall c, c ∈ AirportsService.countriesWithData s1 ->
                     c ∈ AirportsService.countriesWithData s2))
  ∧ (forall s2,
      RoutesService.getTierStatistics routesService (tierValue t2) = Return s2 ->
      exists s1,
        RoutesService.getTierStatistics routesService (tierValue t1) = Return s1
        ∧ RoutesService.totalRoutes s1 <= RoutesService.totalRoutes s2
        ∧ RoutesService.totalRoutes s2
          <= length (RoutesService.routes routesService)
        ∧ RoutesService.totalCountries s1 <= RoutesService.totalCountries s2
        ∧ (forall c, c ∈ RoutesService.countriesWithData s1 ->
                     c ∈ RoutesService.countriesWithData s2)).
Proof.
  intros Hrank. split_and!; intros s2 Hs2.
  - apply airlines_getTierStatistics_Return in Hs2 as (m2 & Hm2 & ->).
    assert (exists m1,
              AirlinesService.getAirlinesByTier airlinesService (tierValue t1)
              = Return m1) as [m1 Hm1].
    { apply getAirlinesByTier_returns.
      apply (plain_filter_mono _ _
               (fun a => admits (listPolicy t2) (AirlinesService.country a)));
        [intros a; by apply admits_mono|].
      apply getAirlinesByTier_returns. by exists m2. }
    eexists. split; [by apply airlines_getTierStatistics_of|].
    apply getAirlinesByTier_Return in Hm1 as ->.
    apply getAirlinesByTier_Return in Hm2 as ->.
    cbn [AirlinesService.totalAirlines AirlinesService.totalCountries
         AirlinesService.countriesWithData].
    apply statistics_filter_mono. intros a. by apply admits_mono.
  - apply airports_getTierStatistics_Return in Hs2 as (m2 & Hm2 & ->).
    assert (exists m1,
              AirportsService.getAirportsByTier airportsService (tierValue t1)
              = Return m1) as [m1 Hm1].
    { apply getAirportsByTier_returns.
      apply (plain_filter_mono _ _
               (fun a => admits (listPolicy t2) (AirportsService.country a)));
        [intros a; by apply admits_mono|].
      apply getAirportsByTier_returns. by exists m2. }
    eexists. split; [by apply airports_getTierStatistics_of|].
    apply getAirportsByTier_Return in Hm1 as ->.
    apply getAirportsByTier_Return in Hm2 as ->.
    cbn [AirportsService.totalAirports AirportsService.totalCountries
         AirportsService.countriesWithData].
    apply statistics_filter_mono. intros a. by apply admits_mono.
  - apply routes_getTierStatistics_Return in Hs2 as (m2 & Hm2 & ->).
    assert (exists m1,
              RoutesService.getRoutesByTier routesService (tierValue t1)
              = Return m1) as [m1 Hm1].
    { apply getRoutesByTier_returns.
      apply (plain_filter_mono _ _
               (fun r => admits (listPolicy t2) (RoutesService.sourceCountry r)
                         || admits (listPolicy t2)
                              (RoutesService.destinationCountry r)));
        [intros r; by apply admittedRoutes_mono|].
      apply getRoutesByTier_returns. by exists m2. }
    eexists. split; [by apply routes_getTierStatistics_of|].
    apply getRoutesByTier_Return in Hm1 as ->.
    apply getRoutesByTier_Return in Hm2 as ->.
    cbn [RoutesService.totalRoutes RoutesService.totalCountries
         RoutesService.countriesWithData].
    replace (length (RoutesService.routes routesService))
      with (length (resolved routesService))
      by (unfold resolved; apply length_map).
    apply statistics_filter_mono. intros r. by apply admittedRoutes_mono.
Qed.

Lemma getTierStatistics_monotone_sample :
  exists s1 s2,
    RoutesService.getTierStatistics sampleRoutes "free" = Return s1
    ∧ RoutesService.getTierStatistics sampleRoutes "pro" = Return s2
    ∧ RoutesService.totalRoutes s1 <= RoutesService.totalRoutes s2.
Proof.
  destruct (getTierStatistics_monotone sampleAirlines
              {| AirportsService.airports := [] |} sampleRoutes FREE PRO)
    as (_ & _ & H); [cbn; lia|].
  assert (exists s2,
            RoutesService.getTierStatistics sampleRoutes "pro" = Return s2)
    as [s2 Hs2] by (eexists; vm_compute; reflexivity).
  destruct (H s2 Hs2) as (s1 & Hs1 & Hle & _). by exists s1, s2.
Defined.

(** ** Countries with data against accessible countries *)

Lemma collect_is_Some {A} (key : A -> string) (skip : A -> bool)
    (l : list A) (k : string) :
  is_Some (collect key skip l !! k) <->
  exists a, a ∈ l ∧ skip a = false ∧ key a = k.
Proof.
  rewrite collect_lookup. split.
  - destruct (filed key skip k l) as [|a g] eqn:E; [by intros [? ?]|].
    intros _. exists a. apply elem_of_filed. rewrite E. by left.
  - intros (a & Ha). apply elem_of_filed in Ha.
    destruct (filed key skip k l); [inversion Ha|by eexists].
Qed.

Lemma StronglySorted_filter_bool (f : string -> bool) (l : list string) :
  StronglySorted String.le l -> StronglySorted String.le (List.filter f l).
Proof.
  induction 1 as [|x l Hl IH Hx]; simpl; [constructor|].
  destruct (f x); [|done]. constructor; [done|].
  apply Forall_forall. intros y [Hy _]%elem_of_filter_bool.
  by eapply Forall_forall in Hx.
Qed.

Lemma NoDup_filter_bool {A} (f : A -> bool) (l : list A) :
  NoDup l -> NoDup (List.filter f l).
Proof. intros Hl. apply (sublist_NoDup _ l Hl), filter_bool_sublist. Qed.

(** Two sorted lists without duplicates and with the same members are the
    same list. *)
Lemma sorted_lists_equal (l1 l2 : list string) :
  StronglySorted String.le l1 -> StronglySorted String.le l2 ->
  NoDup l1 -> NoDup l2 -> (forall c, c ∈ l1 <-> c ∈ l2) -> l1 = l2.
Proof.
  intros Hs1 Hs2 Hn1 Hn2 Hmem.
  apply (StronglySorted_unique String.le); [done..|].
  by apply NoDup_Permutation.
Qed.

(** X8. Under ELITE, the countries with data are read off the accessible
    countries.  [getAccessibleCountries] returns their list, and whenever
    [getTierStatistics] returns: for airlines and airports,
    [countriesWithData] is the list of accessible countries without the
    empty name; for routes, it is made of the accessible countries that are
    the source country of a loaded route. *)
Theorem countriesWithData_of_accessibleCountries
    (airlinesService : AirlinesService.AirlinesService)
    (airportsService : AirportsService.AirportsService)
    (routesService : RoutesService.RoutesService) :
  (exists l,
      AirlinesService.getAccessibleCountries airlinesService (tierValue ELITE)
      = Return l
      ∧ forall s,
          AirlinesService.getTierStatistics airlinesService (tierValue ELITE)
          = Return s ->
          AirlinesService.countriesWithData s = List.filter truthy l)
  ∧ (exists l,
      AirportsService.getAccessibleCountries airportsService (tierValue ELITE)
      = Return l
      ∧ forall s,
          AirportsService.getTierStatistics airportsService (tierValue ELITE)
          = Return s ->
          AirportsService.countriesWithData s = List.filter truthy l)
  ∧ (exists l,
      RoutesService.getAccessibleCountries routesService (tierValue ELITE)
      = Return l
      ∧ forall s,
          RoutesService.getTierStatistics routesService (tierValue ELITE)
          = Return s ->
          forall c,
            c ∈ RoutesService.countriesWithData s <->
            c ∈ l ∧ exists rc, rc ∈ resolved routesService
                               ∧ RoutesService.sourceCountry rc = c).
Proof.
  split_and!; eexists; (split; [reflexivity|]); intros s Hs.
  - apply airlines_getTierStatistics_Return in Hs as (m & Hm & ->).
    apply (getAirlinesByTier_Return _ ELITE) in Hm as ->. unfold admitted.
    cbn [AirlinesService.countriesWithData listPolicy].
    rewrite filter_admits_all.
    apply sorted_lists_equal.
    + apply sort_sorted.
    + apply StronglySorted_filter_bool, sort_sorted.
    + apply sort_NoDup, Object_keys_NoDup.
    + apply NoDup_filter_bool, sort_NoDup, Set_new_NoDup.
    + intros c. rewrite sort_elem, Object_keys_elem, collect_is_Some.
      rewrite elem_of_filter_bool, sort_elem, Set_new_elem.
      rewrite list_elem_of_In, in_map_iff. split.
      * intros (a & Ha & Hskip & <-). split.
        -- exists a. by rewrite <- list_elem_of_In.
        -- by apply negb_false_iff in Hskip.
      * intros [(a & <- & Ha) Hc]. exists a.
        rewrite list_elem_of_In. split_and!; [done| |done].
        unfold skipAirline. by rewrite Hc.
  - apply airports_getTierStatistics_Return in Hs as (m & Hm & ->).
    apply (getAirportsByTier_Return _ ELITE) in Hm as ->. unfold admitted.
    cbn [AirportsService.countriesWithData listPolicy].
    rewrite filter_admits_all.
    apply sorted_lists_equal.
    + apply sort_sorted.
    + apply StronglySorted_filter_bool, sort_sorted.
    + apply sort_NoDup, Object_keys_NoDup.
    + apply NoDup_filter_bool, sort_NoDup, Set_new_NoDup.
    + intros c. rewrite sort_elem, Object_keys_elem, collect_is_Some.
      rewrite elem_of_filter_bool, sort_elem, Set_new_elem.
      rewrite list_elem_of_In, in_map_iff. split.
      * intros (a & Ha & Hskip & <-). split.
        -- exists a. by rewrite <- list_elem_of_In.
        -- by apply negb_false_iff in Hskip.
      * intros [(a & <- & Ha) Hc]. exists a.
        rewrite list_elem_of_In. split_and!; [done| |done].
        unfold skipAirport. by rewrite Hc.
  - apply routes_getTierStatistics_Return in Hs as (m & Hm & ->).
    apply (getRoutesByTier_Return _ ELITE) in Hm as ->. unfold admittedRoutes.
    cbn [RoutesService.countriesWithData listPolicy admits].
    intros c. rewrite sort_elem, Object_keys_elem, collect_is_Some.
    rewrite sort_elem, allCountries_elem. cbn [orb].
    assert (List.filter (fun _ => true) (resolved routesService)
            = resolved routesService) as ->
      by apply (filter_admits_all (fun _ => "")).
    split.
    + intros (rc & Hrc & Hskip & <-). apply skipRoute_false in Hskip as [_ ?].
      split; [|by exists rc]. right. split; [done|]. exists rc. auto.
    + intros [[Hin|[Hc _]] (rc & Hrc & <-)]; [inversion Hin|].
      exists rc. split_and!; [done| |done].
      apply skipRoute_false. split; [|done].
      unfold resolved in Hrc. apply list_elem_of_In, in_map_iff in Hrc
        as (r & <- & _).
      cbn. by apply or_else_truthy.
Qed.

(** ** Splitting, joining and trimming *)

Lemma split_length (sep : ascii) (s : string) :
  length (split sep s) = S (occurrences sep s).
Proof.
  induction s as [|c s IH]; simpl; [done|].
  destruct (Ascii.eqb c sep); simpl; [by rewrite IH|].
  destruct (split sep s) as [|w ws]; simpl in *; [done|]. exact IH.
Qed.

Lemma split_no_sep (sep : ascii) (s : string) :
  occurrences sep s = 0 -> split sep s = [s].
Proof.
  induction s as [|c s IH]; simpl; [done|].
  destruct (Ascii.eqb c sep); simpl; [done|]. intros H. by rewrite IH.
Qed.

Lemma split_app (sep : ascii) (s1 s2 : string) :
  occurrences sep s1 = 0 ->
  split sep (s1 +:+ String sep s2) = s1 :: split sep s2.
Proof.
  induction s1 as [|c s1 IH]; simpl.
  - by rewrite Ascii.eqb_refl.
  - destruct (Ascii.eqb c sep); simpl; [done|]. intros H. by rewrite IH.
Qed.

(** Joining lines and splitting the result gives the lines back. *)
Lemma split_join (sep : ascii) (l : list string) :
  l ≠ [] -> Forall (fun s => occurrences sep s = 0) l ->
  split sep (join sep l) = l.
Proof.
  induction l as [|s l IH]; [done|]. intros _ Hl.
  apply Forall_cons in Hl as [Hs Hl].
  destruct l as [|s' l]; [by apply split_no_sep|].
  cbn [join]. rewrite split_app by done. f_equal. by apply IH.
Qed.

Lemma trimStart_head (s : string) :
  match trimStart s with
  | String c _ => isWhiteSpace c = false
  | EmptyString => True
  end.
Proof.
  induction s as [|c s IH]; simpl; [done|].
  destruct (isWhiteSpace c) eqn:E; [done|]. exact E.
Qed.

Lemma trimStart_fixed (s : string) :
  match s with
  | String c _ => isWhiteSpace c = false
  | EmptyString => True
  end ->
  trimStart s = s.
Proof. destruct s as [|c s]; simpl; [done|]. by intros ->. Qed.

Lemma trimEnd_head (s : string) :
  match s with
  | String c _ => isWhiteSpace c = false
  | EmptyString => True
  end ->
  match trimEnd s with
  | String c _ => isWhiteSpace c = false
  | EmptyString => True
  end.
Proof.
  destruct s as [|c s]; simpl; [done|]. intros Hc.
  destruct (trimEnd s); [by rewrite Hc|done].
Qed.

Lemma trimEnd_idem (s : string) : trimEnd (trimEnd s) = trimEnd s.
Proof.
  induction s as [|c s IH]; simpl; [done|].
  destruct (trimEnd s) as [|c' t] eqn:E.
  - destruct (isWhiteSpace c) eqn:Hc; simpl; [done|]. by rewrite Hc.
  - change (trimEnd (String c (String c' t))) with
      (match trimEnd (String c' t) with
       | EmptyString =>
           if isWhiteSpace c then EmptyString else String c EmptyString
       | u => String c u
       end).
    by rewrite IH.
Qed.

(** Trimming twice is trimming once. *)
Lemma trim_idem (s : string) : trim (trim s) = trim s.
Proof.
  unfold trim.
  rewrite (trimStart_fixed (trimEnd (trimStart s)))
    by apply trimEnd_head, trimStart_head.
  apply trimEnd_idem.
Qed.

Lemma field_trimmed (fields : list string) (i : nat) :
  trim (field fields i) = field fields i.
Proof.
  unfold field. destruct (fields !! i) as [f|]; simpl; [|done].
  destruct (truthy (trim f)); [apply trim_idem|done].
Qed.

(** ** Loading the CSV files *)

Lemma split_app_any (sep : ascii) (s1 s2 : string) :
  split sep (s1 +:+ String sep s2) = split sep s1 ++ split sep s2.
Proof.
  induction s1 as [|c s1 IH]; simpl.
  - by rewrite Ascii.eqb_refl.
  - destruct (Ascii.eqb c sep); simpl; [by rewrite IH|].
    rewrite IH. pose proof (split_length sep s1) as Hlen.
    destruct (split sep s1) as [|w ws]; [done|]. done.
Qed.

Lemma field_app (fields more : list string) (i : nat) :
  i < length fields -> field (fields ++ more) i = field fields i.
Proof. intros Hi. unfold field. by rewrite lookup_app_l. Qed.

Lemma elem_of_compact {A} (l : list (option A)) (x : A) :
  x ∈ compact l <-> Some x ∈ l.
Proof.
  induction l as [|[y|] l IH]; simpl.
  - split; inversion 1.
  - rewrite !elem_of_cons, IH. split; intros [?|?]; simplify_eq; auto.
  - rewrite elem_of_cons, IH. split; [auto|]. by intros [?|?].
Qed.

Lemma compact_length {A} (l : list (option A)) : length (compact l) <= length l.
Proof. induction l as [|[y|] l IH]; simpl; lia. Qed.

(** X9. A line of each CSV file is parsed if and only if it has enough
    commas (5 for airlines, 10 for airports, 8 for routes), every field of a
    parsed record is trimmed, and columns after the last one read are
    ignored. *)
Theorem parseCsvLine_accepts (line extra : string) :
  (is_Some (AirlinesService.parseCsvLine line) <-> 5 <= occurrences "," line)
  ∧ (is_Some (AirportsService.parseCsvLine line) <-> 10 <= occurrences "," line)
  ∧ (is_Some (RoutesService.parseCsvLine line) <-> 8 <= occurrences "," line)
  ∧ (forall a,
       AirlinesService.parseCsvLine line = Some a ->
       Forall trimmed (airlineFields a)
       ∧ AirlinesService.parseCsvLine (line +:+ String "," extra) = Some a)
  ∧ (forall a,
       AirportsService.parseCsvLine line = Some a ->
       Forall trimmed (airportFields a)
       ∧ AirportsService.parseCsvLine (line +:+ String "," extra) = Some a)
  ∧ (forall r,
       RoutesService.parseCsvLine line = Some r ->
       Forall trimmed (routeFields r)
       ∧ RoutesService.parseCsvLine (line +:+ String "," extra) = Some r).
Proof.
  unfold AirlinesService.parseCsvLine, AirportsService.parseCsvLine,
    RoutesService.parseCsvLine.
  rewrite !split_app_any, !length_app.
  pose proof (split_length "," line) as Hlen.
  pose proof (split_length "," extra) as Hextra.
  split_and!.
  - rewrite Hlen. destruct (Nat.ltb_spec (S (occurrences "," line)) 6).
    + split; [by intros [? ?]|lia].
    + split; [lia|by eexists].
  - rewrite Hlen. destruct (Nat.ltb_spec (S (occurrences "," line)) 11).
    + split; [by intros [? ?]|lia].
    + split; [lia|by eexists].
  - rewrite Hlen. destruct (Nat.ltb_spec (S (occurrences "," line)) 9).
    + split; [by intros [? ?]|lia].
    + split; [lia|by eexists].
  - intros a.
    destruct (Nat.ltb_spec (length (split "," line)) 6) as [|Hge]; [done|].
    intros [= <-]. split.
    + unfold airlineFields. cbn. repeat constructor; apply field_trimmed.
    + destruct (Nat.ltb_spec (length (split "," line) + length (split "," extra)) 6);
        [lia|].
      by rewrite !field_app by lia.
  - intros a.
    destruct (Nat.ltb_spec (length (split "," line)) 11) as [|Hge]; [done|].
    intros [= <-]. split.
    + unfold airportFields. cbn. repeat constructor; apply field_trimmed.
    + destruct (Nat.ltb_spec (length (split "," line) + length (split "," extra)) 11);
        [lia|].
      by rewrite !field_app by lia.
  - intros r.
    destruct (Nat.ltb_spec (length (split "," line)) 9) as [|Hge]; [done|].
    intros [= <-]. split.
    + unfold routeFields. cbn. repeat constructor; apply field_trimmed.
    + destruct (Nat.ltb_spec (length (split "," line) + length (split "," extra)) 9);
        [lia|].
      by rewrite !field_app by lia.
Qed.

Lemma data_lines_of_join (header : string) (body : list string) :
  occurrences LF header = 0 ->
  Forall (fun line => occurrences LF line = 0) body ->
  drop 1 (split LF (join LF (header :: body))) = body.
Proof.
  intros Hheader Hbody. rewrite split_join; [done..|]. by constructor.
Qed.

(** X10. A file made of a header line and of body lines is loaded line by
    line: the header is skipped, so are the blank lines, and the records are
    those of the other lines that parse, in the order of the file.  This
    holds for the three loaders. *)
Theorem load_line_by_line (header : string) (body : list string) :
  occurrences LF header = 0 ->
  Forall (fun line => occurrences LF line = 0) body ->
  let csvData := Some (join LF (header :: body)) in
  AirlinesService.loadAirlines csvData
  = compact (map AirlinesService.parseCsvLine (List.filter nonBlank body))
  ∧ AirportsService.loadAirports csvData
    = compact (map AirportsService.parseCsvLine (List.filter nonBlank body))
  ∧ RoutesService.loadRoutes csvData
    = compact (map RoutesService.parseCsvLine (List.filter nonBlank body)).
Proof.
  intros Hheader Hbody csvData.
  unfold AirlinesService.loadAirlines, AirportsService.loadAirports,
    RoutesService.loadRoutes, csvData.
  by rewrite data_lines_of_join.
Qed.

Lemma load_line_by_line_sample :
  AirlinesService.loadAirlines
    (Some (join LF ["name,iata,icao,callsign,country,active";
                    "El Al, LY ,ELY,ELAL,Israel,Y";
                    "   ";
                    "broken,line";
                    "Lufthansa,LH,DLH,LUFTHANSA,Germany,Y,extra"]))
  = [{| AirlinesService.name := "El Al"; AirlinesService.iata := "LY";
        AirlinesService.icao := "ELY"; AirlinesService.callsign := "ELAL";
        AirlinesService.country := "Israel"; AirlinesService.active := "Y" |};
     {| AirlinesService.name := "Lufthansa"; AirlinesService.iata := "LH";
        AirlinesService.icao := "DLH"; AirlinesService.callsign := "LUFTHANSA";
        AirlinesService.country := "Germany"; AirlinesService.active := "Y" |}].
Proof.
  pose proof (load_line_by_line "name,iata,icao,callsign,country,active"
                ["El Al, LY ,ELY,ELAL,Israel,Y"; "   "; "broken,line";
                 "Lufthansa,LH,DLH,LUFTHANSA,Germany,Y,extra"]
                eq_refl ltac:(repeat constructor)) as [H _].
  etransitivity; [exact H|]. reflexivity.
Defined.

Lemma parseCsvLine_fields_trimmed_airline (line : string)
    (a : AirlinesService.Airline) :
  AirlinesService.parseCsvLine line = Some a -> Forall trimmed (airlineFields a).
Proof.
  unfold AirlinesService.parseCsvLine. destruct (Nat.ltb _ _); [done|].
  intros [= <-]. unfold airlineFields. cbn.
  repeat constructor; apply field_trimmed.
Qed.

Lemma parseCsvLine_fields_trimmed_airport (line : string)
    (a : AirportsService.Airport) :
  AirportsService.parseCsvLine line = Some a -> Forall trimmed (airportFields a).
Proof.
  unfold AirportsService.parseCsvLine. destruct (Nat.ltb _ _); [done|].
  intros [= <-]. unfold airportFields. cbn.
  repeat constructor; apply field_trimmed.
Qed.

Lemma parseCsvLine_fields_trimmed_route (line : string)
    (r : RoutesService.Route) :
  RoutesService.parseCsvLine line = Some r -> Forall trimmed (routeFields r).
Proof.
  unfold RoutesService.parseCsvLine. destruct (Nat.ltb _ _); [done|].
  intros [= <-]. unfold routeFields. cbn.
  repeat constructor; apply field_trimmed.
Qed.

(** X11. Whatever the file, a loader returns at most one record per line
    feed of the file, and only records with trimmed fields; without a
    readable file it returns no record. *)
Theorem loaded_records_bounded_and_trimmed (csvData : string) :
  length (AirlinesService.loadAirlines (Some csvData)) <= occurrences LF csvData
  ∧ length (AirportsService.loadAirports (Some csvData))
    <= occurrences LF csvData
  ∧ length (RoutesService.loadRoutes (Some csvData)) <= occurrences LF csvData
  ∧ Forall (fun a => Forall trimmed (airlineFields a))
           (AirlinesService.loadAirlines (Some csvData))
  ∧ Forall (fun a => Forall trimmed (airportFields a))
           (AirportsService.loadAirports (Some csvData))
  ∧ Forall (fun r => Forall trimmed (routeFields r))
           (RoutesService.loadRoutes (Some csvData))
  ∧ AirlinesService.loadAirlines None = []
  ∧ AirportsService.loadAirports None = []
  ∧ RoutesService.loadRoutes None = [].
Proof.
  assert (forall {A} (parse : string -> option A),
            length (compact (map parse
                      (List.filter (fun line => truthy (trim line))
                                   (drop 1 (split LF csvData)))))
            <= occurrences LF csvData) as Hbound.
  { intros A parse. etrans; [apply compact_length|].
    rewrite length_map. etrans; [apply sublist_length, filter_bool_sublist|].
    rewrite length_drop, split_length. lia. }
  assert (forall {A} (parse : string -> option A) (P : A -> Prop),
            (forall line a, parse line = Some a -> P a) ->
            Forall P (compact (map parse
                        (List.filter (fun line => truthy (trim line))
                                     (drop 1 (split LF csvData)))))) as Hall.
  { intros A parse P HP. apply Forall_forall. intros a Ha.
    apply elem_of_compact, list_elem_of_In, in_map_iff in Ha as (line & Hline & _).
    by eapply HP. }
  split_and!; try apply Hbound; try reflexivity.
  - apply Hall. intros line a Ha.
    by apply (parseCsvLine_fields_trimmed_airline line).
  - apply Hall. intros line a Ha.
    by apply (parseCsvLine_fields_trimmed_airport line).
  - apply Hall. intros line a Ha.
    by apply (parseCsvLine_fields_trimmed_route line).
Qed.

(** ** The airport-country index *)

Section AirportIndex.

(** The body of the loop of [loadAirportCountryMap]. *)
Let addLine (airportCountryMap : gmap string string) (line : string)
  : gmap string string :=
  if truthy (trim line) then
    let fields := split "," line in
    if Nat.leb 4 (length fields) then
      match trim <$> fields !! 3%nat, trim <$> fields !! 2%nat with
      | Some iata, Some country =>
          if truthy iata && truthy country
             && negb (String.eqb iata "\N")
             && negb (String.eqb iata "")
          then <[iata := country]> airportCountryMap
          else airportCountryMap
      | _, _ => airportCountryMap
      end
    else airportCountryMap
  else airportCountryMap.

Lemma loadAirportCountryMap_fold (csvData : string) :
  RoutesService.loadAirportCountryMap (Some csvData)
  = fold_left addLine (drop 1 (split LF csvData)) ∅.
Proof. reflexivity. Qed.

(** A line either leaves the index as it is or sets one usable entry. *)
Lemma addLine_cases (m : gmap string string) (line : string) :
  addLine m line = m
  ∨ exists iata country,
      addLine m line = <[iata := country]> m
      ∧ iata ≠ "" ∧ iata ≠ "\N" ∧ country ≠ ""
      ∧ trimmed iata ∧ trimmed country.
Proof.
  unfold addLine. destruct (truthy (trim line)); [|by left].
  destruct (Nat.leb 4 _); [|by left].
  destruct (split "," line !! 3%nat) as [f3|]; [|by left].
  destruct (split "," line !! 2%nat) as [f2|]; [|by left]. cbn.
  destruct (truthy (trim f3)) eqn:H3; [|by left].
  destruct (truthy (trim f2)) eqn:H2; [|by left].
  destruct (String.eqb_spec (trim f3) "\N"); [by left|].
  destruct (String.eqb_spec (trim f3) ""); [by left|]. cbn.
  right. exists (trim f3), (trim f2).
  apply truthy_true in H2. split_and!; try done; apply trim_idem.
Qed.

Lemma addLine_keeps_keys (m : gmap string string) (line k : string) :
  is_Some (m !! k) -> is_Some (addLine m line !! k).
Proof.
  intros Hk. destruct (addLine_cases m line) as [->|(i & c & -> & _)]; [done|].
  destruct (decide (i = k)) as [->|]; [by rewrite lookup_insert_eq|].
  by rewrite lookup_insert_ne.
Qed.

Lemma fold_addLine_keeps_keys (lines : list string) (m : gmap string string)
    (k : string) :
  is_Some (m !! k) -> is_Some (fold_left addLine lines m !! k).
Proof.
  revert m. induction lines as [|line lines IH]; intros m Hk; [done|].
  cbn [fold_left]. by apply IH, addLine_keeps_keys.
Qed.

Lemma fold_addLine_entries (lines : list string) (m : gmap string string)
    (P : string -> string -> Prop) :
  (forall k v, m !! k = Some v -> P k v) ->
  (forall k v, k ≠ "" -> k ≠ "\N" -> v ≠ "" -> trimmed k -> trimmed v -> P k v) ->
  forall k v, fold_left addLine lines m !! k = Some v -> P k v.
Proof.
  revert m. induction lines as [|line lines IH]; intros m Hm HP; [done|].
  cbn [fold_left]. apply IH; [|done].
  destruct (addLine_cases m line) as [->|(i & c & -> & ? & ? & ? & ? & ?)]; [done|].
  intros k v. destruct (decide (i = k)) as [->|].
  - rewrite lookup_insert_eq. intros [= <-]. by apply HP.
  - rewrite lookup_insert_ne by done. apply Hm.
Qed.

(** A data line with an airport that the airports loader accepts, and whose
    code and country are usable, sets the entry of that code. *)
Lemma addLine_of_airport (m : gmap string string) (line : string)
    (a : AirportsService.Airport) :
  truthy (trim line) = true ->
  AirportsService.parseCsvLine line = Some a ->
  AirportsService.iata a ≠ "" -> AirportsService.iata a ≠ "\N" ->
  AirportsService.country a ≠ "" ->
  addLine m line = <[AirportsService.iata a := AirportsService.country a]> m.
Proof.
  intros Hline. unfold AirportsService.parseCsvLine, addLine. rewrite Hline.
  destruct (Nat.ltb_spec (length (split "," line)) 11) as [|Hlen]; [done|].
  intros [= <-]. cbn [AirportsService.iata AirportsService.country].
  destruct (Nat.leb_spec 4 (length (split "," line))); [|lia].
  unfold field.
  destruct (split "," line !! 3%nat) as [f3|]; [|done].
  destruct (split "," line !! 2%nat) as [f2|]; [|done]. cbn.
  destruct (truthy (trim f3)) eqn:H3; [|done].
  destruct (truthy (trim f2)) eqn:H2; [|done].
  intros _ Hn _. apply String.eqb_neq in Hn. rewrite Hn. cbn.
  destruct (String.eqb_spec (trim f3) ""); [|done].
  apply truthy_true in H3. done.
Qed.

Lemma fold_addLine_of_airport (lines : list string) (m : gmap string string)
    (line : string) (a : AirportsService.Airport) :
  line ∈ lines ->
  truthy (trim line) = true ->
  AirportsService.parseCsvLine line = Some a ->
  AirportsService.iata a ≠ "" -> AirportsService.iata a ≠ "\N" ->
  AirportsService.country a ≠ "" ->
  is_Some (fold_left addLine lines m !! AirportsService.iata a).
Proof.
  intros Hin Hline Hparse H1 H2 H3. revert m.
  induction lines as [|x lines IH]; intros m; [inversion Hin|].
  cbn [fold_left]. apply elem_of_cons in Hin as [<-|Hin]; [|by apply IH].
  apply fold_addLine_keeps_keys.
  rewrite (addLine_of_airport m line a) by done.
  rewrite lookup_insert_eq. by eexists.
Qed.

End AirportIndex.

(** X12. In a routes service built from the files, every entry of the
    airport-country index has a non-empty, trimmed code other than "\N" and a
    non-empty, trimmed country; so a route endpoint resolves to the country
    that the index holds for its code and to "Unknown" when the index has no
    entry for the code: it resolves to "Unknown" exactly when the index has
    no entry for the code or holds the country "Unknown" for it. *)
Theorem airportCountryMap_entries
    (airportsCsv routesCsv : option string) (r : RoutesService.Route) :
  let this := RoutesService.new airportsCsv routesCsv in
  map_Forall
    (fun iata country =>
       iata ≠ "" ∧ iata ≠ "\N" ∧ country ≠ ""
       ∧ trimmed iata ∧ trimmed country)
    (RoutesService.airportCountryMap this)
  ∧ RoutesService.sourceCountry (RoutesService.getRouteWithCountries this r)
    = default "Unknown"
        (RoutesService.airportCountryMap this !! RoutesService.sourceAirport r)
  ∧ RoutesService.destinationCountry
      (RoutesService.getRouteWithCountries this r)
    = default "Unknown"
        (RoutesService.airportCountryMap this
           !! RoutesService.destinationAirport r)
  ∧ (RoutesService.sourceCountry (RoutesService.getRouteWithCountries this r)
     = "Unknown"
     <-> RoutesService.airportCountryMap this !! RoutesService.sourceAirport r
         = None
         ∨ RoutesService.airportCountryMap this !! RoutesService.sourceAirport r
           = Some "Unknown")
  ∧ (RoutesService.destinationCountry
       (RoutesService.getRouteWithCountries this r)
     = "Unknown"
     <-> RoutesService.airportCountryMap this
           !! RoutesService.destinationAirport r
         = None
         ∨ RoutesService.airportCountryMap this
             !! RoutesService.destinationAirport r
           = Some "Unknown").
Proof.
  intros this.
  assert (map_Forall
            (fun iata country =>
               iata ≠ "" ∧ iata ≠ "\N" ∧ country ≠ ""
               ∧ trimmed iata ∧ trimmed country)
            (RoutesService.airportCountryMap this)) as Hentries.
  { unfold this, RoutesService.new. cbn [RoutesService.airportCountryMap].
    destruct airportsCsv as [csvData|]; [|by intros k v Hk].
    rewrite loadAirportCountryMap_fold. intros k v.
    apply (fold_addLine_entries _ ∅
             (fun iata country =>
                iata ≠ "" ∧ iata ≠ "\N" ∧ country ≠ ""
                ∧ trimmed iata ∧ trimmed country));
      [by intros k' v' Hk'|tauto]. }
  split; [done|].
  assert (forall code,
            or_else (RoutesService.airportCountryMap this !! code) "Unknown"
            = default "Unknown" (RoutesService.airportCountryMap this !! code))
    as Hresolve.
  { intros code.
    destruct (RoutesService.airportCountryMap this !! code) as [c|] eqn:E;
      [|done].
    apply Hentries in E as (_ & _ & Hc & _).
    apply truthy_true in Hc. cbn. by rewrite Hc. }
  assert (forall code,
            default "Unknown" (RoutesService.airportCountryMap this !! code)
            = "Unknown"
            <-> RoutesService.airportCountryMap this !! code = None
                ∨ RoutesService.airportCountryMap this !! code = Some "Unknown")
    as Hunknown.
  { intros code.
    destruct (RoutesService.airportCountryMap this !! code) as [c|]; cbn.
    - split; [intros ->; by right|]. by intros [?|[= ->]].
    - split; [by left|done]. }
  cbn [RoutesService.getRouteWithCountries RoutesService.sourceCountry
       RoutesService.destinationCountry].
  rewrite !Hresolve. split_and!; [done|done|apply Hunknown|apply Hunknown].
Qed.

(** X13. The index covers the airports service: read from the same file,
    every airport that the airports service loads with a non-empty IATA code
    other than "\N" and a non-empty country has its code in the index of the
    routes service, with a non-empty country. *)
Theorem loaded_airport_is_indexed (csvData : string)
    (a : AirportsService.Airport) :
  a ∈ AirportsService.loadAirports (Some csvData) ->
  AirportsService.iata a ≠ "" ->
  AirportsService.iata a ≠ "\N" ->
  AirportsService.country a ≠ "" ->
  exists country,
    RoutesService.loadAirportCountryMap (Some csvData) !! AirportsService.iata a
    = Some country
    ∧ country ≠ "".
Proof.
  intros Ha H1 H2 H3. unfold AirportsService.loadAirports in Ha.
  apply elem_of_compact, list_elem_of_In, in_map_iff in Ha as (line & Hparse & Hline).
  apply list_elem_of_In, elem_of_filter_bool in Hline as [Hline Hblank].
  rewrite loadAirportCountryMap_fold.
  destruct (fold_addLine_of_airport _ ∅ line a Hline Hblank Hparse H1 H2 H3)
    as [c Hc].
  exists c. split; [exact Hc|].
  revert Hc.
  apply (fold_addLine_entries _ ∅ (fun _ country => country ≠ ""));
    [by intros k v Hk|tauto].
Qed.

Lemma loaded_airport_is_indexed_sample :
  exists country,
    RoutesService.loadAirportCountryMap
      (Some (join LF ["name,city,country,iata,icao,lat,lon,alt,tz,dst,tzdb";
                      "Ben Gurion,Tel Aviv,Israel,TLV,LLBG,32,34,135,2,E,Asia"]))
    !! "TLV" = Some country
    ∧ country ≠ "".
Proof.
  apply (loaded_airport_is_indexed _
           {| AirportsService.name := "Ben Gurion";
              AirportsService.city := "Tel Aviv";
              AirportsService.country := "Israel";
              AirportsService.iata := "TLV";
              AirportsService.icao := "LLBG";
              AirportsService.latitude := "32";
              AirportsService.longitude := "34";
              AirportsService.altitude := "135";
              AirportsService.timezone := "2";
              AirportsService.dst := "E";
              AirportsService.timezoneDb := "Asia" |}).
  - apply list_elem_of_here.
  - discriminate.
  - discriminate.
  - discriminate.
Defined.

(** ** Services without their files *)

Lemma collect_all_skipped {A} (key : A -> string) (skip : A -> bool)
    (l : list A) :
  Forall (fun a => skip a = true) l -> collect key skip l = ∅.
Proof.
  intros Hl. apply map_eq. intros k. rewrite collect_lookup, lookup_empty.
  destruct (filed key skip k l) as [|a g] eqn:E; [done|].
  assert (a ∈ filed key skip k l) as Ha by (rewrite E; by left).
  apply elem_of_filed in Ha as (Ha & Hskip & _).
  eapply Forall_forall in Hl; [|exact Ha]. congruence.
Qed.

Lemma list_without_members {A} (l : list A) : (forall x, x ∉ l) -> l = [].
Proof. destruct l as [|x l]; [done|]. intros H. destruct (H x). by left. Qed.

(** X14. A service whose file cannot be read answers as an empty data set
    and raises no error: the grouped view of every tier is empty and the
    statistics are zero.  A routes service without the airports file resolves
    every endpoint to "Unknown", so its grouped views are empty as well and
    ELITE has no accessible country, yet ELITE still gets every loaded route
    by asking for the country "Unknown". *)
Theorem services_without_files (routesCsv : option string)
    (t : SubscriptionTier) :
  AirlinesService.getAirlinesByTier (AirlinesService.new None) (tierValue t)
  = Return ∅
  ∧ AirlinesService.getTierStatistics (AirlinesService.new None) (tierValue t)
    = Return {| AirlinesService.totalAirlines := 0;
                AirlinesService.totalCountries := 0;
                AirlinesService.countriesWithData := [] |}
  ∧ AirportsService.getAirportsByTier (AirportsService.new None) (tierValue t)
    = Return ∅
  ∧ AirportsService.getTierStatistics (AirportsService.new None) (tierValue t)
    = Return {| AirportsService.totalAirports := 0;
                AirportsService.totalCountries := 0;
                AirportsService.countriesWithData := [] |}
  ∧ RoutesService.getRoutesByTier (RoutesService.new None routesCsv)
      (tierValue t)
    = Return ∅
  ∧ RoutesService.getTierStatistics (RoutesService.new None routesCsv)
      (tierValue t)
    = Return {| RoutesService.totalRoutes := 0;
                RoutesService.totalCountries := 0;
                RoutesService.countriesWithData := [] |}
  ∧ RoutesService.getAccessibleCountries (RoutesService.new None routesCsv)
      (tierValue ELITE)
    = Return []
  ∧ exists l,
      RoutesService.getRoutesByCountry (RoutesService.new None routesCsv)
        (tierValue ELITE) "Unknown"
      = Return l
      ∧ map RoutesService.route l = RoutesService.loadRoutes routesCsv.
Proof.
  set (this := RoutesService.new None routesCsv).
  assert (Forall (fun rc => RoutesService.sourceCountry rc = "Unknown"
                            ∧ RoutesService.destinationCountry rc = "Unknown")
                 (resolved this)) as Hunknown.
  { unfold resolved. apply Forall_forall. intros rc Hrc.
    by apply list_elem_of_In, in_map_iff in Hrc as (r & <- & _). }
  assert (RoutesService.getRoutesByTier this (tierValue t) = Return ∅) as Hroutes.
  { assert (Forall (fun rc => skipRoute rc = true) (admittedRoutes t this))
      as Hskipped.
    { apply Forall_forall. intros rc [Hrc _]%elem_of_filter_bool.
      eapply Forall_forall in Hunknown as [Hsrc _]; [|exact Hrc].
      unfold skipRoute. by rewrite Hsrc. }
    rewrite getRoutesByTier_tier, groupBy_plain.
    - f_equal. by apply collect_all_skipped.
    - apply Forall_forall. intros rc [Hrc Hkept]%elem_of_filter_bool.
      eapply Forall_forall in Hskipped; [|exact Hrc].
      by rewrite Hskipped in Hkept. }
  split_and!.
  - unfold AirlinesService.getAirlinesByTier. rewrite tierConfigurations_tier.
    by destruct t.
  - unfold AirlinesService.getTierStatistics, AirlinesService.getAirlinesByTier.
    rewrite tierConfigurations_tier. by destruct t.
  - unfold AirportsService.getAirportsByTier. rewrite tierConfigurations_tier.
    by destruct t.
  - unfold AirportsService.getTierStatistics, AirportsService.getAirportsByTier.
    rewrite tierConfigurations_tier. by destruct t.
  - exact Hroutes.
  - by rewrite (routes_getTierStatistics_of this _ ∅ Hroutes).
  - change (RoutesService.getAccessibleCountries this (tierValue ELITE))
      with (Return (A:=list string)
              (sort (fold_left
                 (fun allCountries route =>
                    let allCountries :=
                      if negb (String.eqb (RoutesService.sourceCountry route)
                                 "Unknown")
                      then Set_add allCountries
                             (RoutesService.sourceCountry route)
                      else allCountries in
                    if negb (String.eqb (RoutesService.destinationCountry route)
                               "Unknown")
                    then Set_add allCountries
                           (RoutesService.destinationCountry route)
                    else allCountries)
                 (resolved this) []))).
    rewrite (list_without_members (fold_left _ (resolved this) [])); [done|].
    intros c [Hc|(Hc & rc & Hrc & Hor)]%allCountries_elem; [inversion Hc|].
    eapply Forall_forall in Hunknown as [Hsrc Hdst]; [|exact Hrc].
    destruct Hor; congruence.
  - eexists. split; [apply (getRoutesByCountry_tier_bool this ELITE)|].
    cbn [listPolicy admits].
    assert (List.filter
              (fun r => String.eqb (RoutesService.sourceCountry r) "Unknown"
                        || String.eqb (RoutesService.destinationCountry r)
                             "Unknown")
              (resolved this) = resolved this) as ->.
    { induction Hunknown as [|rc l [Hsrc _] _ IH]; simpl; [done|].
      by rewrite Hsrc, IH. }
    unfold resolved. rewrite map_map. cbn. apply map_id.
Qed.

(** ** Tokens *)

Section TokenFacts.

Variable JWT_SECRET : option string.
Variable jwt_verify : string -> string -> JwtManager.VerifyOutcome.

Lemma verifyToken_verifiesAs (token : option string) (t : string) :
  verifiesAs JWT_SECRET jwt_verify token t ->
  exists p,
    JwtManager.verifyToken JWT_SECRET jwt_verify token
    = {| JwtManager.isValid := true; JwtManager.payload := Some p;
         JwtManager.error := None; JwtManager.validatedTier := Some t |}
    ∧ JwtManager.tier p = Some t.
Proof.
  intros (tok & p & -> & Htok & Hverify & Htier & Ht).
  exists p. split; [|done]. unfold JwtManager.verifyToken.
  apply truthy_true in Htok. rewrite Htok, Hverify, Htier. cbn [negb].
  apply includes_true in Ht. by rewrite Ht.
Qed.

Lemma verifyToken_valid (token : option string) :
  JwtManager.isValid (JwtManager.verifyToken JWT_SECRET jwt_verify token) = true ->
  exists t, verifiesAs JWT_SECRET jwt_verify token t.
Proof.
  unfold JwtManager.verifyToken. destruct token as [tok|]; [|done].
  destruct (truthy tok) eqn:Htok; [|done]. cbn [negb].
  destruct (jwt_verify tok _) as [p|exn] eqn:Hverify; [|done].
  destruct (JwtManager.tier p) as [t|] eqn:Htier; [|done].
  destruct (includes _ t) eqn:Ht; [|done]. intros _.
  exists t, tok, p. apply truthy_true in Htok. apply includes_true in Ht. done.
Qed.

Lemma verifiesAs_unique (token : option string) (t1 t2 : string) :
  verifiesAs JWT_SECRET jwt_verify token t1 ->
  verifiesAs JWT_SECRET jwt_verify token t2 -> t1 = t2.
Proof.
  intros (tok & p & -> & _ & H1 & Ht1 & _) (tok' & p' & [= <-] & _ & H2 & Ht2 & _).
  congruence.
Qed.

End TokenFacts.

(** X15. [verifyToken] declares a token valid exactly when the token is a
    non-empty string that the library decodes to a payload whose tier is one
    of free, pro and elite; the validation is then made of the payload that
    the library decoded, of the tier of that payload and of no error, and
    otherwise it carries an error message and neither payload nor tier. *)
Theorem verifyToken_valid_iff
    (JWT_SECRET : option string)
    (jwt_verify : string -> string -> JwtManager.VerifyOutcome)
    (token : option string) :
  let validation := JwtManager.verifyToken JWT_SECRET jwt_verify token in
  (JwtManager.isValid validation = true <->
   exists t, verifiesAs JWT_SECRET jwt_verify token t)
  ∧ (forall tok p t,
       token = Some tok ->
       tok ≠ "" ->
       jwt_verify tok (JwtManager.secretKey JWT_SECRET) = JwtManager.Decoded p ->
       JwtManager.tier p = Some t ->
       t ∈ JwtManager.UserTier_values ->
       validation
       = {| JwtManager.isValid := true; JwtManager.payload := Some p;
            JwtManager.error := None; JwtManager.validatedTier := Some t |})
  ∧ (JwtManager.isValid validation = false ->
     JwtManager.payload validation = None
     ∧ JwtManager.validatedTier validation = None
     ∧ is_Some (JwtManager.error validation)).
Proof.
  intros validation. split_and!.
  - split; [apply verifyToken_valid|].
    intros [t Ht]. unfold validation.
    by destruct (verifyToken_verifiesAs _ _ _ _ Ht) as (p & -> & _).
  - intros tok p t -> Htok Hverify Htier Ht.
    unfold validation, JwtManager.verifyToken.
    apply truthy_true in Htok. rewrite Htok, Hverify, Htier. cbn [negb].
    apply includes_true in Ht. by rewrite Ht.
  - unfold validation, JwtManager.verifyToken.
    destruct token as [tok|]; [|by cbn; eauto].
    destruct (negb (truthy tok)); [by cbn; eauto|].
    destruct (jwt_verify tok _) as [p|exn]; [|by cbn; eauto].
    destruct (negb _); [by cbn; eauto|]. done.
Qed.

Lemma split_bearer (tok : string) :
  occurrences " " tok = 0 -> split " " ("Bearer " +:+ tok) = ["Bearer"; tok].
Proof.
  intros Htok.
  change ("Bearer " +:+ tok) with ("Bearer" +:+ String " " tok).
  rewrite split_app by reflexivity. by rewrite split_no_sep.
Qed.

Lemma getUserTier_verifiesAs
    (JWT_SECRET : option string)
    (jwt_verify : string -> string -> JwtManager.VerifyOutcome)
    (req : Request) (cookie t : string) :
  cookies_Authorization req = Some cookie ->
  verifiesAs JWT_SECRET jwt_verify (split " " cookie !! 1%nat) t ->
  getUserTier JWT_SECRET jwt_verify req = t.
Proof.
  intros Hcookie Ht. unfold getUserTier. rewrite Hcookie.
  destruct (verifyToken_verifiesAs _ _ _ _ Ht) as (p & Hv & Hp).
  destruct Ht as (tok & _ & Htok & _ & _ & _ & Hin).
  destruct (truthy cookie) eqn:Hc.
  - cbn [negb]. unfold tierOrFree. rewrite Hv. cbn. rewrite Hp. cbn.
    assert (truthy t = true) as ->; [|done].
    apply truthy_true. intros ->. by apply includes_true in Hin.
  - apply truthy_false in Hc. by subst cookie.
Qed.

(** X16. Issuing a token and presenting it resolves to the tier asked, for
    each of the three tiers: the cookie that [/token/:tier] sets (none for
    free), sent back with a request, makes [getUserTier] return that tier,
    provided that the library returns a non-empty token without a space and
    decodes it to a payload with the tier that was signed. *)
Theorem token_round_trip
    (JWT_SECRET JWT_EXPIRES : option string)
    (jwt_sign : JwtManager.TokenPayload -> string -> string -> string)
    (jwt_verify : string -> string -> JwtManager.VerifyOutcome)
    (tier : string) (header : option string) :
  tier ∈ JwtManager.UserTier_values ->
  let token :=
    jwt_sign {| JwtManager.tier := Some tier;
                JwtManager.iat := None; JwtManager.exp := None |}
             (JwtManager.secretKey JWT_SECRET)
             (JwtManager.expiresIn JWT_EXPIRES) in
  token ≠ "" ->
  occurrences " " token = 0 ->
  (exists p,
      jwt_verify token (JwtManager.secretKey JWT_SECRET) = JwtManager.Decoded p
      ∧ JwtManager.tier p = Some tier) ->
  let reply := IndexRoutes.getToken JWT_SECRET JWT_EXPIRES jwt_sign tier in
  getUserTier JWT_SECRET jwt_verify
    {| headers_authorization := header;
       cookies_Authorization := IndexRoutes.cookie_Authorization reply |}
  = tier
  ∧ (IndexRoutes.cookie_Authorization reply = None <-> tier = "free")
  ∧ (tier ≠ "free" ->
     IndexRoutes.cookie_Authorization reply = Some ("Bearer " +:+ token)).
Proof.
  intros Htier token Hne Hspace (p & Hverify & Hp) reply.
  unfold reply, IndexRoutes.getToken, JwtManager.generateToken.
  fold token. cbn [IndexRoutes.cookie_Authorization].
  destruct (String.eqb_spec tier JwtManager.UserTier_FREE) as [->|Hfree].
  - split_and!; [reflexivity|done|done].
  - apply truthy_true in Hne as Htruthy. rewrite Htruthy.
    split_and!; [|split; [done|by intros ->]|done].
    apply (getUserTier_verifiesAs _ _ _ ("Bearer " +:+ token)); [done|].
    rewrite split_bearer by done. by exists token, p.
Qed.

Lemma token_round_trip_toy :
  getUserTier None toyVerify
    {| headers_authorization := None;
       cookies_Authorization :=
         IndexRoutes.cookie_Authorization
           (IndexRoutes.getToken None None toySign "pro") |}
  = "pro".
Proof.
  apply (token_round_trip None None toySign toyVerify "pro" None).
  - apply list_elem_of_further, list_elem_of_here.
  - discriminate.
  - reflexivity.
  - eexists. split; reflexivity.
Defined.

Lemma verifies_or_not
    (JWT_SECRET : option string)
    (jwt_verify : string -> string -> JwtManager.VerifyOutcome)
    (token : option string) :
  (exists t, verifiesAs JWT_SECRET jwt_verify token t)
  ∨ (forall t, ¬ verifiesAs JWT_SECRET jwt_verify token t).
Proof.
  destruct (JwtManager.isValid
              (JwtManager.verifyToken JWT_SECRET jwt_verify token)) eqn:Hvalid.
  - left. by apply verifyToken_valid.
  - right. intros t Ht.
    destruct (verifyToken_verifiesAs _ _ _ _ Ht) as (p & Hv & _).
    rewrite Hv in Hvalid. done.
Qed.

Section ValidateTierAccess.

Variable JWT_SECRET : option string.
Variable jwt_verify : string -> string -> JwtManager.VerifyOutcome.

Lemma validateTierAccess_unverified (token : option string)
    (requiredTier : string) :
  requiredTier ≠ "free" ->
  (forall t, ¬ verifiesAs JWT_SECRET jwt_verify token t) ->
  exists validation,
    JwtManager.validateTierAccess JWT_SECRET jwt_verify token requiredTier
    = Return validation
    ∧ JwtManager.isValid validation = false.
Proof.
  intros Hreq Hnone. unfold JwtManager.validateTierAccess.
  apply String.eqb_neq in Hreq.
  change JwtManager.UserTier_FREE with "free". rewrite Hreq.
  destruct (truthy_opt token); cbn [negb]; [|by eexists].
  destruct (JwtManager.isValid (JwtManager.verifyToken _ _ token)) eqn:Hvalid.
  - apply verifyToken_valid in Hvalid as [t Ht]. by destruct (Hnone t).
  - cbn [negb]. by eexists.
Qed.

Lemma validateTierAccess_verified (token : option string)
    (requiredTier t : string) :
  requiredTier ≠ "free" ->
  verifiesAs JWT_SECRET jwt_verify token t ->
  exists validation,
    JwtManager.validateTierAccess JWT_SECRET jwt_verify token requiredTier
    = Return validation
    ∧ JwtManager.isValid validation
      = negb (js_lt (JwtManager.tierHierarchy t)
                    (JwtManager.tierHierarchy requiredTier)).
Proof.
  intros Hreq Ht. unfold JwtManager.validateTierAccess.
  apply String.eqb_neq in Hreq.
  change JwtManager.UserTier_FREE with "free". rewrite Hreq.
  destruct (verifyToken_verifiesAs _ _ _ _ Ht) as (p & Hv & Hp).
  destruct Ht as (tok & _ & -> & Htok & _).
  cbn [truthy_opt]. apply truthy_true in Htok. rewrite Htok. cbn [negb].
  rewrite Hv. cbn [JwtManager.isValid JwtManager.payload negb]. rewrite Hp.
  cbn [mbind option_bind].
  destruct (js_lt _ _); by eexists.
Qed.

End ValidateTierAccess.

(** X17. [validateTierAccess] never throws (its non-null assertion is safe)
    and decides by the order of the tiers: FREE is granted whatever the
    token, PRO is granted exactly to a token that verifies as pro or elite,
    ELITE exactly to a token that verifies as elite; a required tier outside
    the enumeration is not enforced, any token that verifies is granted. *)
Theorem validateTierAccess_decides
    (JWT_SECRET : option string)
    (jwt_verify : string -> string -> JwtManager.VerifyOutcome)
    (token : option string) (requiredTier : string) :
  exists validation,
    JwtManager.validateTierAccess JWT_SECRET jwt_verify token requiredTier
    = Return validation
    ∧ (requiredTier = "free" -> JwtManager.isValid validation = true)
    ∧ (requiredTier = "pro" ->
       (JwtManager.isValid validation = true <->
        verifiesAs JWT_SECRET jwt_verify token "pro"
        ∨ verifiesAs JWT_SECRET jwt_verify token "elite"))
    ∧ (requiredTier = "elite" ->
       (JwtManager.isValid validation = true <->
        verifiesAs JWT_SECRET jwt_verify token "elite"))
    ∧ (requiredTier ∉ JwtManager.UserTier_values ->
       (JwtManager.isValid validation = true <->
        exists t, verifiesAs JWT_SECRET jwt_verify token t)).
Proof.
  destruct (String.eqb_spec requiredTier "free") as [->|Hreq].
  { eexists. split; [reflexivity|]. split_and!; try done.
    intros Hnot. destruct Hnot. by left. }
  destruct (verifies_or_not JWT_SECRET jwt_verify token) as [[t Ht]|Hnone].
  - destruct (validateTierAccess_verified _ _ _ requiredTier t Hreq Ht)
      as (v & Hv & Hvalid).
    exists v. split; [exact Hv|]. rewrite Hvalid.
    assert (t = "free" ∨ t = "pro" ∨ t = "elite") as Hcases.
    { destruct Ht as (_ & _ & _ & _ & _ & _ & Hin).
      unfold JwtManager.UserTier_values in Hin.
      rewrite !elem_of_cons in Hin. destruct Hin as [?|[?|[?|Hin]]]; auto.
      inversion Hin. }
    split_and!; [done| | |].
    + intros ->. split.
      * destruct Hcases as [-> | [-> | ->]]; [done|by left|by right].
      * intros [H|H]; by rewrite (verifiesAs_unique _ _ _ _ _ Ht H).
    + intros ->. split.
      * destruct Hcases as [-> | [-> | ->]]; done.
      * intros H. by rewrite (verifiesAs_unique _ _ _ _ _ Ht H).
    + intros Hout. split; [by exists t|]. intros _.
      assert (JwtManager.tierHierarchy requiredTier = None) as ->.
      { unfold JwtManager.tierHierarchy, JwtManager.UserTier_values in *.
        rewrite !not_elem_of_cons in Hout. destruct Hout as (H1 & H2 & H3 & _).
        apply String.eqb_neq in H1, H2, H3.
        change JwtManager.UserTier_FREE with "free".
        change JwtManager.UserTier_PRO with "pro".
        change JwtManager.UserTier_ELITE with "elite".
        by rewrite H1, H2, H3. }
      by destruct (JwtManager.tierHierarchy t).
  - destruct (validateTierAccess_unverified _ _ _ requiredTier Hreq Hnone)
      as (v & Hv & Hvalid).
    exists v. split; [exact Hv|]. rewrite Hvalid.
    split_and!; [done|..]; intros _; split; try done.
    + intros [H|H]; by destruct (Hnone _ H).
    + intros H. by destruct (Hnone _ H).
    + intros [t H]. by destruct (Hnone _ H).
Qed.

(** ** The feature guard *)

Section RequireFeature.

Variable JWT_SECRET : option string.
Variable jwt_verify : string -> string -> JwtManager.VerifyOutcome.

(** The reply of the guard to a tier without the feature. *)
Let denied (featureId userTier : string) : Outcome :=
  Respond 403
    [("error", JString "Access denied");
     ("message",
      JString ("Feature '" +:+ featureId +:+ "' requires a higher tier"));
     ("requiredFeature", JString featureId);
     ("userTier", JString userTier);
     ("userFeatures", JStrings (JwtManager.getTierFeatures userTier))].

Lemma requireFeature_no_token (featureId : string) (req : Request) :
  truthy_opt (bearerToken req) = false ->
  requireFeature JWT_SECRET jwt_verify featureId req =
    if includes ["basic_access"] featureId then Next
    else denied featureId "free".
Proof.
  intros Htoken. unfold requireFeature. fold (bearerToken req).
  rewrite Htoken. cbn. by destruct (includes _ featureId).
Qed.

Lemma requireFeature_verified (featureId : string) (req : Request) (t : string) :
  verifiesAs JWT_SECRET jwt_verify (bearerToken req) t ->
  requireFeature JWT_SECRET jwt_verify featureId req =
    if includes (JwtManager.getTierFeatures t) featureId then Next
    else denied featureId t.
Proof.
  intros Ht. unfold requireFeature. fold (bearerToken req).
  destruct (verifyToken_verifiesAs _ _ _ _ Ht) as (p & Hv & Hp).
  destruct Ht as (tok & _ & Htoken & Htok & _ & _ & Hin).
  rewrite Htoken in *. cbn [truthy_opt]. apply truthy_true in Htok.
  rewrite Htok, Hv. cbn [JwtManager.isValid negb].
  unfold tierOrFree. cbn [JwtManager.payload mbind option_bind]. rewrite Hp.
  cbn [or_else].
  assert (truthy t = true) as ->.
  { apply truthy_true. intros ->. by apply includes_true in Hin. }
  by destruct (includes _ featureId).
Qed.

Lemma requireFeature_rejected (featureId : string) (req : Request) :
  truthy_opt (bearerToken req) = true ->
  (forall t, ¬ verifiesAs JWT_SECRET jwt_verify (bearerToken req) t) ->
  requireFeature JWT_SECRET jwt_verify featureId req =
    Respond 401
      [("error", JString "Invalid token");
       ("message",
        from_option JString JUndefined
          (JwtManager.error
             (JwtManager.verifyToken JWT_SECRET jwt_verify (bearerToken req))))].
Proof.
  intros Htoken Hnone. unfold requireFeature. fold (bearerToken req).
  rewrite Htoken.
  destruct (JwtManager.isValid (JwtManager.verifyToken _ _ (bearerToken req)))
    eqn:Hvalid; [|done].
  apply verifyToken_valid in Hvalid as [t Ht]. by destruct (Hnone t).
Qed.

End RequireFeature.

(** X18. The guard [requireFeature] lets a request through exactly when the
    tier of its bearer token has the feature: the tier is FREE, with only
    "basic_access", when the header carries no bearer token, and the tier of
    the token when the token verifies.  It answers 401 exactly when a bearer
    token is present and does not verify, and 403 in the remaining cases; so
    [basicAccess] never answers 403. *)
Theorem requireFeature_outcomes
    (JWT_SECRET : option string)
    (jwt_verify : string -> string -> JwtManager.VerifyOutcome)
    (featureId : string) (req : Request) :
  let outcome := requireFeature JWT_SECRET jwt_verify featureId req in
  (outcome = Next <->
   (truthy_opt (bearerToken req) = false ∧ featureId = "basic_access")
   ∨ exists t, verifiesAs JWT_SECRET jwt_verify (bearerToken req) t
               ∧ featureId ∈ JwtManager.getTierFeatures t)
  ∧ ((exists body, outcome = Respond 401 body) <->
     truthy_opt (bearerToken req) = true
     ∧ forall t, ¬ verifiesAs JWT_SECRET jwt_verify (bearerToken req) t)
  ∧ (forall status body,
       outcome = Respond status body -> status = 401 ∨ status = 403)
  ∧ (forall body,
       basicAccess JWT_SECRET jwt_verify req ≠ Respond 403 body).
Proof.
  intros outcome.
  assert (forall t, verifiesAs JWT_SECRET jwt_verify (bearerToken req) t ->
                    truthy_opt (bearerToken req) = true) as Htruthy.
  { intros t (tok & _ & -> & Htok & _). by apply truthy_true. }
  assert (forall t, verifiesAs JWT_SECRET jwt_verify (bearerToken req) t ->
                    "basic_access" ∈ JwtManager.getTierFeatures t) as Hbasic.
  { intros t (_ & _ & _ & _ & _ & _ & Hin).
    unfold JwtManager.UserTier_values in Hin. rewrite !elem_of_cons in Hin.
    destruct Hin as [-> | [-> | [-> | Hin]]]; [by left..|inversion Hin]. }
  destruct (truthy_opt (bearerToken req)) eqn:Htoken.
  - destruct (verifies_or_not JWT_SECRET jwt_verify (bearerToken req))
      as [[t Ht]|Hnone].
    + pose proof (requireFeature_verified _ _ featureId req t Ht) as Hout.
      pose proof (requireFeature_verified _ _ "basic_access" req t Ht) as Hb.
      fold outcome in Hout. unfold basicAccess. rewrite Hb. clear Hb.
      assert (includes (JwtManager.getTierFeatures t) "basic_access" = true)
        as -> by by apply includes_true, Hbasic.
      destruct (includes _ featureId) eqn:Hf; rewrite Hout; split_and!; try done.
      * split; [|done]. intros _. right. exists t. by apply includes_true in Hf.
      * split; [by intros [? ?]|]. intros [_ Hnone]. by destruct (Hnone t).
      * split; [done|]. intros [[? _]|(t' & Ht' & Hin)]; [done|].
        rewrite (verifiesAs_unique _ _ _ _ _ Ht' Ht) in Hin.
        apply includes_false in Hf. done.
      * split; [by intros [? ?]|]. intros [_ Hnone]. by destruct (Hnone t).
      * intros status body [= <- _]. by right.
    + pose proof (requireFeature_rejected _ _ featureId req Htoken Hnone) as Hout.
      pose proof (requireFeature_rejected _ _ "basic_access" req Htoken Hnone)
        as Hb.
      fold outcome in Hout. unfold basicAccess. rewrite Hb, Hout.
      split_and!; try done.
      * split; [done|]. intros [[? _]|(t & Ht & _)]; [done|by destruct (Hnone t)].
      * split; [done|]. intros _. by eexists.
      * intros status body [= <- _]. by left.
  - pose proof (requireFeature_no_token JWT_SECRET jwt_verify featureId req Htoken) as Hout.
    pose proof (requireFeature_no_token JWT_SECRET jwt_verify "basic_access" req Htoken)
      as Hb.
    fold outcome in Hout. unfold basicAccess. rewrite Hb.
    destruct (includes ["basic_access"] featureId) eqn:Hf; rewrite Hout;
      split_and!; try done.
    + split; [|done]. intros _. left. split; [done|].
      apply includes_true in Hf. by apply list_elem_of_singleton in Hf.
    + split; [by intros [? ?]|]. by intros [? _].
    + split; [done|]. intros [[_ ->]|(t & Ht & _)]; [done|].
      apply Htruthy in Ht. congruence.
    + split; [by intros [? ?]|]. by intros [? _].
    + intros status body [= <- _]. by right.
Qed.

(** ** The handlers of the flight routes *)

Section HandlerFacts.

Variable JWT_SECRET : option string.
Variable jwt_verify : string -> string -> JwtManager.VerifyOutcome.

Lemma getUserTier_enum (req : Request) :
  exists t, getUserTier JWT_SECRET jwt_verify req = tierValue t.
Proof.
  assert (exists t, "free" = tierValue t) as Hfree by by exists FREE.
  unfold getUserTier. destruct (cookies_Authorization req) as [cookie|]; [|done].
  destruct (negb (truthy cookie)); [done|].
  destruct (verifies_or_not JWT_SECRET jwt_verify (split " " cookie !! 1%nat))
    as [[t Ht]|Hnone].
  - destruct (verifyToken_verifiesAs _ _ _ _ Ht) as (p & -> & Hp).
    unfold tierOrFree. cbn. rewrite Hp. cbn.
    destruct Ht as (_ & _ & _ & _ & _ & _ & Hin).
    unfold JwtManager.UserTier_values in Hin. rewrite !elem_of_cons in Hin.
    destruct Hin as [-> | [-> | [-> | Hin]]]; [| | |inversion Hin].
    + by exists FREE.
    + by exists PRO.
    + by exists ELITE.
  - unfold tierOrFree. rewrite verifyToken_invalid_payload; [done|].
    destruct (JwtManager.isValid _) eqn:Hvalid; [|done].
    apply verifyToken_valid in Hvalid as [t Ht]. by destruct (Hnone t).
Qed.

Lemma mapUserTierToSubscriptionTier_tierValue (t : SubscriptionTier) :
  mapUserTierToSubscriptionTier (tierValue t) = tierValue t.
Proof. by destruct t. Qed.

Lemma mapUserTierToSubscriptionTier_enum (userTier : string) :
  exists t, mapUserTierToSubscriptionTier userTier = tierValue t.
Proof.
  unfold mapUserTierToSubscriptionTier.
  destruct (String.eqb userTier _); [by exists FREE|].
  destruct (String.eqb userTier _); [by exists PRO|].
  destruct (String.eqb userTier _); [by exists ELITE|by exists FREE].
Qed.

Lemma hasCountryAccess_Israel (t : SubscriptionTier) :
  RoutesService.hasCountryAccess (tierValue t) "Israel" = true.
Proof. by destruct t. Qed.

(** What the handlers do once [getUserTier] has returned. *)
Lemma getRoot_WithCookie (req : Request) (routesService : RoutesService.RoutesService)
    (t : SubscriptionTier) :
  getUserTier JWT_SECRET jwt_verify req = tierValue t ->
  FlightRoutes.getRoot JWT_SECRET jwt_verify routesService (WithCookie req)
  = match RoutesService.getRoutesByTier routesService (tierValue t) with
    | Return m =>
        FlightRoutes.ReplyData (tierValue t) m
          (length (flat (Object_values m))) (length (Object_keys m))
          (sort (Object_keys m))
    | Throw e => FlightRoutes.ReplyError 500 (message e)
    end.
Proof.
  intros Ht. unfold FlightRoutes.getRoot, getUserTierOf. cbn.
  rewrite Ht, mapUserTierToSubscriptionTier_tierValue.
  destruct (RoutesService.getRoutesByTier routesService (tierValue t))
    as [m|e] eqn:Hm; [|done].
  by rewrite (routes_getTierStatistics_of _ _ _ Hm).
Qed.

Lemma getStatistics_WithCookie (req : Request)
    (routesService : RoutesService.RoutesService) (t : SubscriptionTier) :
  getUserTier JWT_SECRET jwt_verify req = tierValue t ->
  FlightRoutes.status
    (FlightRoutes.getStatistics JWT_SECRET jwt_verify routesService
       (WithCookie req))
  = match RoutesService.getRoutesByTier routesService (tierValue t) with
    | Return _ => 200
    | Throw _ => 500
    end.
Proof.
  intros Ht. unfold FlightRoutes.getStatistics, getUserTierOf. cbn.
  rewrite Ht, mapUserTierToSubscriptionTier_tierValue.
  destruct (RoutesService.getRoutesByTier routesService (tierValue t))
    as [m|e] eqn:Hm.
  - by rewrite (routes_getTierStatistics_of _ _ _ Hm).
  - by rewrite (routes_getTierStatistics_Throw _ _ _ Hm).
Qed.

Lemma getAccessibleCountries_tier (routesService : RoutesService.RoutesService)
    (t : SubscriptionTier) :
  exists l,
    RoutesService.getAccessibleCountries routesService (tierValue t) = Return l.
Proof.
  unfold RoutesService.getAccessibleCountries.
  rewrite tierConfigurations_tier. destruct t; by eexists.
Qed.

Lemma getPreview_WithCookie (req : Request)
    (routesService : RoutesService.RoutesService) (t : SubscriptionTier)
    (tier : string) (accessibleCountries : list string) :
  mapUserTierToSubscriptionTier tier = tierValue t ->
  RoutesService.getAccessibleCountries routesService (tierValue t)
  = Return accessibleCountries ->
  FlightRoutes.getPreview JWT_SECRET jwt_verify routesService (WithCookie req)
    tier
  = match RoutesService.getTierStatistics routesService (tierValue t) with
    | Return statistics =>
        FlightRoutes.ReplyPreview (getUserTier JWT_SECRET jwt_verify req) tier
          (RoutesService.totalRoutes statistics)
          (RoutesService.totalCountries statistics)
          (take 5 accessibleCountries) accessibleCountries
          (if negb (String.eqb tier (getUserTier JWT_SECRET jwt_verify req))
           then Some ("Upgrade to " +:+ tier +:+ " tier to access this data",
                      "Get access to " +:+
                      pretty (RoutesService.totalCountries statistics) +:+
                      " countries and " +:+
                      pretty (RoutesService.totalRoutes statistics) +:+
                      " flight routes")
           else None)
    | Throw e => FlightRoutes.ReplyError 500 (message e)
    end.
Proof.
  intros Ht Hl. unfold FlightRoutes.getPreview, getUserTierOf. cbn.
  rewrite Ht.
  destruct (RoutesService.getTierStatistics routesService (tierValue t))
    as [statistics|e]; [|done].
  cbn. by rewrite Hl.
Qed.

(** The outcome of [getRoutesByTier], from the routes that pass the filter. *)
Lemma getRoutesByTier_outcome (routesService : RoutesService.RoutesService)
    (t : SubscriptionTier) :
  (plain RoutesService.sourceCountry (admittedRoutes t routesService) ->
   exists m, RoutesService.getRoutesByTier routesService (tierValue t) = Return m)
  ∧ (¬ plain RoutesService.sourceCountry (admittedRoutes t routesService) ->
     RoutesService.getRoutesByTier routesService (tierValue t)
     = Throw (NotAFunction "acc[route.sourceCountry].push")).
Proof.
  split; [apply getRoutesByTier_returns|]. intros Hplain.
  destruct (RoutesService.getRoutesByTier routesService (tierValue t))
    as [m|e] eqn:Hm.
  - destruct Hplain. apply getRoutesByTier_returns. by exists m.
  - rewrite getRoutesByTier_tier in Hm. by apply groupBy_Throw in Hm as [-> _].
Qed.

End HandlerFacts.

(** X19. The status codes of the handlers of the flight routes.  On a
    request whose [Authorization] cookie is absent or a string, the tier
    that the handlers pass to the service is a tier of the table; the
    countries and access handlers answer 200; the two country handlers
    answer 403 exactly when [hasCountryAccess] fails for the tier of the
    request (for either country, for a pair) and 200 otherwise; the root and
    statistics handlers answer 200 when no route that passes the filter of
    the tier of the request has a source country that names a member of
    [Object.prototype], and 500 otherwise; so does the preview handler, for
    the tier of the preview.  On a request whose [Authorization] cookie is a
    JSON cookie, every handler answers 500. *)
Theorem flightRoutes_statuses
    (JWT_SECRET : option string)
    (jwt_verify : string -> string -> JwtManager.VerifyOutcome)
    (routesService : RoutesService.RoutesService)
    (req : Request) (authorization : option string)
    (country source destination tier : string) :
  let userTier := getUserTier JWT_SECRET jwt_verify req in
  let status_of (P : Prop) (reply : FlightRoutes.Reply) :=
    (P -> FlightRoutes.status reply = 200)
    ∧ (¬ P -> FlightRoutes.status reply = 500) in
  (exists t t',
      userTier = tierValue t
      ∧ mapUserTierToSubscriptionTier userTier = tierValue t
      ∧ mapUserTierToSubscriptionTier tier = tierValue t'
      ∧ status_of
          (plain RoutesService.sourceCountry (admittedRoutes t routesService))
          (FlightRoutes.getRoot JWT_SECRET jwt_verify routesService
             (WithCookie req))
      ∧ status_of
          (plain RoutesService.sourceCountry (admittedRoutes t routesService))
          (FlightRoutes.getStatistics JWT_SECRET jwt_verify routesService
             (WithCookie req))
      ∧ status_of
          (plain RoutesService.sourceCountry (admittedRoutes t' routesService))
          (FlightRoutes.getPreview JWT_SECRET jwt_verify routesService
             (WithCookie req) tier))
  ∧ FlightRoutes.status
      (FlightRoutes.getCountries JWT_SECRET jwt_verify routesService
         (WithCookie req)) = 200
  ∧ FlightRoutes.status
      (FlightRoutes.getAccess JWT_SECRET jwt_verify (WithCookie req) country)
    = 200
  ∧ FlightRoutes.status
      (FlightRoutes.getCountry JWT_SECRET jwt_verify routesService
         (WithCookie req) country)
    = (if RoutesService.hasCountryAccess userTier country then 200 else 403)
  ∧ FlightRoutes.status
      (FlightRoutes.getFromTo JWT_SECRET jwt_verify routesService
         (WithCookie req) source destination)
    = (if RoutesService.hasCountryAccess userTier source
          && RoutesService.hasCountryAccess userTier destination
       then 200 else 403)
  ∧ Forall (fun reply => FlightRoutes.status reply = 500)
      [FlightRoutes.getRoot JWT_SECRET jwt_verify routesService
         (WithJsonCookie authorization);
       FlightRoutes.getCountries JWT_SECRET jwt_verify routesService
         (WithJsonCookie authorization);
       FlightRoutes.getCountry JWT_SECRET jwt_verify routesService
         (WithJsonCookie authorization) country;
       FlightRoutes.getFromTo JWT_SECRET jwt_verify routesService
         (WithJsonCookie authorization) source destination;
       FlightRoutes.getStatistics JWT_SECRET jwt_verify routesService
         (WithJsonCookie authorization);
       FlightRoutes.getAccess JWT_SECRET jwt_verify
         (WithJsonCookie authorization) country;
       FlightRoutes.getPreview JWT_SECRET jwt_verify routesService
         (WithJsonCookie authorization) tier].
Proof.
  intros userTier status_of.
  destruct (getUserTier_enum JWT_SECRET jwt_verify req) as [t Ht].
  fold userTier in Ht.
  destruct (mapUserTierToSubscriptionTier_enum tier) as [t' Ht'].
  destruct (getRoutesByTier_outcome routesService t) as [Hreturns Hthrows].
  destruct (getRoutesByTier_outcome routesService t') as [Hreturns' Hthrows'].
  split_and!.
  - exists t, t'. rewrite Ht, mapUserTierToSubscriptionTier_tierValue.
    split_and!; [done..| | |]; split; intros Hplain.
    + rewrite (getRoot_WithCookie _ _ _ _ t Ht).
      by destruct (Hreturns Hplain) as [m ->].
    + rewrite (getRoot_WithCookie _ _ _ _ t Ht). by rewrite (Hthrows Hplain).
    + rewrite (getStatistics_WithCookie _ _ _ _ t Ht).
      by destruct (Hreturns Hplain) as [m ->].
    + rewrite (getStatistics_WithCookie _ _ _ _ t Ht).
      by rewrite (Hthrows Hplain).
    + destruct (getAccessibleCountries_tier routesService t') as [l Hl].
      rewrite (getPreview_WithCookie _ _ _ _ t' _ l Ht' Hl).
      destruct (Hreturns' Hplain) as [m Hm].
      by rewrite (routes_getTierStatistics_of _ _ _ Hm).
    + destruct (getAccessibleCountries_tier routesService t') as [l Hl].
      rewrite (getPreview_WithCookie _ _ _ _ t' _ l Ht' Hl).
      by rewrite (routes_getTierStatistics_Throw _ _ _ (Hthrows' Hplain)).
  - unfold FlightRoutes.getCountries, getUserTierOf. cbn. fold userTier.
    rewrite Ht, mapUserTierToSubscriptionTier_tierValue.
    by destruct (getAccessibleCountries_tier routesService t) as [l ->].
  - reflexivity.
  - unfold FlightRoutes.getCountry, getUserTierOf. cbn. fold userTier.
    rewrite Ht, mapUserTierToSubscriptionTier_tierValue.
    rewrite getRoutesByCountry_tier_bool, routes_hasCountryAccess_tier.
    by destruct (admits (listPolicy t) country).
  - unfold FlightRoutes.getFromTo, getUserTierOf. cbn. fold userTier.
    rewrite Ht, mapUserTierToSubscriptionTier_tierValue.
    rewrite getRoutesBetweenCountries_tier_bool, !routes_hasCountryAccess_tier.
    by destruct (admits (listPolicy t) source),
      (admits (listPolicy t) destination).
  - repeat (constructor; [reflexivity|]). constructor.
Qed.

(** X20. The two country handlers of the flight routes answer from their
    own access check, and on a request whose [Authorization] cookie is
    absent or a string the errors of the service are never reached: a denied
    request gets the 403 reply with the error message, the current tier and
    always "pro" as the required tier; an allowed request gets the routes of
    [getRoutesByCountry] (of [getRoutesBetweenCountries] for a pair) with
    their count.  On a request whose [Authorization] cookie is a JSON
    cookie, both answer 500 with the message of the [TypeError] that
    [getUserTier] throws. *)
Theorem flightRoutes_country_replies
    (JWT_SECRET : option string)
    (jwt_verify : string -> string -> JwtManager.VerifyOutcome)
    (routesService : RoutesService.RoutesService)
    (req : Request) (authorization : option string)
    (country source destination : string) :
  let userTier := getUserTier JWT_SECRET jwt_verify req in
  FlightRoutes.getCountry JWT_SECRET jwt_verify routesService (WithCookie req)
    country
  = (if RoutesService.hasCountryAccess userTier country then
       let routes :=
         List.filter
           (fun r => String.eqb (RoutesService.sourceCountry r) country
                     || String.eqb (RoutesService.destinationCountry r) country)
           (resolved routesService) in
       FlightRoutes.ReplyRoutes userTier country routes (length routes)
     else
       FlightRoutes.ReplyDenied
         ("Access to '" +:+ country +:+ "' requires a higher subscription tier")
         userTier "pro")
  ∧ FlightRoutes.getFromTo JWT_SECRET jwt_verify routesService (WithCookie req)
      source destination
    = (if RoutesService.hasCountryAccess userTier source
          && RoutesService.hasCountryAccess userTier destination then
         let routes :=
           List.filter
             (fun r => String.eqb (RoutesService.sourceCountry r) source
                       && String.eqb (RoutesService.destinationCountry r)
                            destination)
             (resolved routesService) in
         FlightRoutes.ReplyBetween userTier source destination routes
           (length routes)
       else
         FlightRoutes.ReplyDenied
           ("Access to routes between '" +:+ source +:+ "' and '" +:+
            destination +:+ "' requires a higher subscription tier")
           userTier "pro")
  ∧ FlightRoutes.getCountry JWT_SECRET jwt_verify routesService
      (WithJsonCookie authorization) country
    = FlightRoutes.ReplyError 500
        "req.cookies.Authorization.split is not a function"
  ∧ FlightRoutes.getFromTo JWT_SECRET jwt_verify routesService
      (WithJsonCookie authorization) source destination
    = FlightRoutes.ReplyError 500
        "req.cookies.Authorization.split is not a function".
Proof.
  intros userTier.
  destruct (getUserTier_enum JWT_SECRET jwt_verify req) as [t Ht].
  fold userTier in Ht.
  split_and!; [| |reflexivity|reflexivity].
  - unfold FlightRoutes.getCountry, getUserTierOf. cbn. fold userTier.
    rewrite Ht, mapUserTierToSubscriptionTier_tierValue.
    rewrite getRoutesByCountry_tier_bool, routes_hasCountryAccess_tier.
    destruct (admits (listPolicy t) country) eqn:Hadm; [done|].
    cbn [negb]. destruct (String.eqb_spec country "Israel") as [->|]; [|done].
    pose proof (hasCountryAccess_Israel t) as HIsrael.
    rewrite routes_hasCountryAccess_tier in HIsrael. congruence.
  - unfold FlightRoutes.getFromTo, getUserTierOf. cbn. fold userTier.
    rewrite Ht, mapUserTierToSubscriptionTier_tierValue.
    rewrite getRoutesBetweenCountries_tier_bool, !routes_hasCountryAccess_tier.
    destruct (admits (listPolicy t) source) eqn:Hs,
      (admits (listPolicy t) destination) eqn:Hd; try done; cbn.
    all: destruct (String.eqb_spec source "Israel") as [->|]; [|done].
    all: destruct (String.eqb_spec destination "Israel") as [->|]; [|done].
    all: pose proof (hasCountryAccess_Israel t) as HIsrael.
    all: rewrite routes_hasCountryAccess_tier in HIsrael; congruence.
Qed.

(** X21. The preview is not gated by the tier of the caller.  On a request
    whose [Authorization] cookie is absent or a string and for every tier of
    the enumeration, [getAccessibleCountries] returns the accessible
    countries of the tier asked and, when [getTierStatistics] returns for
    that tier, the preview handler answers with its totals, the accessible
    countries, the first five of them as a sample, and an upgrade note
    unless the caller already has that tier; when [getTierStatistics]
    throws, the handler answers 500 with the message of the error. *)
Theorem flightRoutes_preview_of_any_tier
    (JWT_SECRET : option string)
    (jwt_verify : string -> string -> JwtManager.VerifyOutcome)
    (routesService : RoutesService.RoutesService)
    (req : Request) (t : SubscriptionTier) :
  exists accessibleCountries,
    RoutesService.getAccessibleCountries routesService (tierValue t)
    = Return accessibleCountries
    ∧ (forall statistics,
         RoutesService.getTierStatistics routesService (tierValue t)
         = Return statistics ->
         exists upgrade,
           FlightRoutes.getPreview JWT_SECRET jwt_verify routesService
             (WithCookie req) (tierValue t)
           = FlightRoutes.ReplyPreview
               (getUserTier JWT_SECRET jwt_verify req) (tierValue t)
               (RoutesService.totalRoutes statistics)
               (RoutesService.totalCountries statistics)
               (take 5 accessibleCountries) accessibleCountries upgrade
           ∧ (upgrade = None
              <-> getUserTier JWT_SECRET jwt_verify req = tierValue t))
    ∧ (forall e,
         RoutesService.getTierStatistics routesService (tierValue t) = Throw e ->
         FlightRoutes.getPreview JWT_SECRET jwt_verify routesService
           (WithCookie req) (tierValue t)
         = FlightRoutes.ReplyError 500 (message e))
    ∧ length (take 5 accessibleCountries) <= 5
    ∧ sublist (take 5 accessibleCountries) accessibleCountries.
Proof.
  destruct (getAccessibleCountries_tier routesService t) as [l Hl].
  exists l. split; [exact Hl|].
  pose proof (getPreview_WithCookie JWT_SECRET jwt_verify req routesService t
                (tierValue t) l (mapUserTierToSubscriptionTier_tierValue t) Hl)
    as Hpreview.
  split_and!.
  - intros statistics Hs. rewrite Hs in Hpreview. eexists.
    split; [exact Hpreview|].
    destruct (String.eqb_spec (tierValue t)
                (getUserTier JWT_SECRET jwt_verify req)); cbn; split; done.
  - intros e He. by rewrite He in Hpreview.
  - rewrite length_take. lia.
  - apply sublist_take.
Qed.

(** X22. The root handler of the flight routes, on a request whose
    [Authorization] cookie is absent or a string.  When [getRoutesByTier]
    returns for the tier of the request, the handler answers with the mapping
    returned, which is well grouped over the loaded routes, and with
    metadata that summarise that same mapping; when [getRoutesByTier]
    throws, the handler answers 500 with the message of the error.  A
    request without the credential cookie is served as FREE. *)
Theorem flightRoutes_root_reply
    (JWT_SECRET : option string)
    (jwt_verify : string -> string -> JwtManager.VerifyOutcome)
    (routesService : RoutesService.RoutesService) (req : Request) :
  exists t,
    getUserTier JWT_SECRET jwt_verify req = tierValue t
    ∧ (forall m,
         RoutesService.getRoutesByTier routesService (tierValue t) = Return m ->
         exists totalRoutes totalCountries accessibleCountries,
           FlightRoutes.getRoot JWT_SECRET jwt_verify routesService
             (WithCookie req)
           = FlightRoutes.ReplyData (tierValue t) m totalRoutes totalCountries
               accessibleCountries
           ∧ summarises m totalRoutes totalCountries accessibleCountries
           ∧ well_grouped RoutesService.sourceCountry
               (resolved routesService) m)
    ∧ (forall e,
         RoutesService.getRoutesByTier routesService (tierValue t) = Throw e ->
         FlightRoutes.getRoot JWT_SECRET jwt_verify routesService
           (WithCookie req)
         = FlightRoutes.ReplyError 500 (message e))
    ∧ (cookies_Authorization req = None -> t = FREE).
Proof.
  destruct (getUserTier_enum JWT_SECRET jwt_verify req) as [t Ht].
  exists t. split; [exact Ht|].
  pose proof (getRoot_WithCookie JWT_SECRET jwt_verify req routesService t Ht)
    as Hroot.
  split_and!.
  - intros m Hm. rewrite Hm in Hroot. eexists _, _, _.
    split; [exact Hroot|]. split; [apply summarises_keys_values|].
    apply getRoutesByTier_Return in Hm as ->.
    apply collect_well_grouped. intros r Hr.
    by apply skipRoute_false in Hr as [? _].
  - intros e He. by rewrite He in Hroot.
  - intros Hcookie. unfold getUserTier in Ht. rewrite Hcookie in Ht.
    by apply (tierValue_inj FREE t) in Ht.
Qed.

(** X23. The last line of the airports file wins: when the last data line
    is an airport that the airports loader accepts, with a non-empty IATA
    code other than "\N" and a non-empty country, the index maps that code to
    the country of that line, whatever the earlier lines said. *)
Theorem loadAirportCountryMap_last_line
    (header : string) (body : list string) (line : string)
    (a : AirportsService.Airport) :
  occurrences LF header = 0 ->
  Forall (fun l => occurrences LF l = 0) (body ++ [line]) ->
  truthy (trim line) = true ->
  AirportsService.parseCsvLine line = Some a ->
  AirportsService.iata a ≠ "" ->
  AirportsService.iata a ≠ "\N" ->
  AirportsService.country a ≠ "" ->
  RoutesService.loadAirportCountryMap
    (Some (join LF (header :: body ++ [line])))
  !! AirportsService.iata a
  = Some (AirportsService.country a).
Proof.
  intros Hheader Hbody Hline Hparse H1 H2 H3.
  rewrite loadAirportCountryMap_fold.
  rewrite (data_lines_of_join header (body ++ [line]) Hheader Hbody).
  rewrite fold_left_app. cbn [fold_left].
  rewrite (addLine_of_airport _ line a) by done.
  apply lookup_insert_eq.
Qed.

Lemma loadAirportCountryMap_last_line_sample :
  RoutesService.loadAirportCountryMap
    (Some (join LF ["name,city,country,iata,icao,lat,lon,alt,tz,dst,tzdb";
                    "Old,Tel Aviv,Palestine,TLV,LLBG,32,34,135,2,E,Asia";
                    "Ben Gurion,Tel Aviv,Israel,TLV,LLBG,32,34,135,2,E,Asia"]))
  !! "TLV" = Some "Israel".
Proof.
  apply (loadAirportCountryMap_last_line
           "name,city,country,iata,icao,lat,lon,alt,tz,dst,tzdb"
           ["Old,Tel Aviv,Palestine,TLV,LLBG,32,34,135,2,E,Asia"]
           "Ben Gurion,Tel Aviv,Israel,TLV,LLBG,32,34,135,2,E,Asia"
           {| AirportsService.name := "Ben Gurion";
              AirportsService.city := "Tel Aviv";
              AirportsService.country := "Israel";
              AirportsService.iata := "TLV";
              AirportsService.icao := "LLBG";
              AirportsService.latitude := "32";
              AirportsService.longitude := "34";
              AirportsService.altitude := "135";
              AirportsService.timezone := "2";
              AirportsService.dst := "E";
              AirportsService.timezoneDb := "Asia" |}).
  - reflexivity.
  - repeat constructor.
  - reflexivity.
  - reflexivity.
  - discriminate.
  - discriminate.
  - discriminate.
Defined.

(** ** Grouped views and the members of [Object.prototype] *)

Lemma getRoutesByTier_policy_returns (this : RoutesService.RoutesService)
    (tier : string) (cs : list string) :
  tierConfigurations !! tier = Some {| countries := Some cs |} ->
  (exists m, RoutesService.getRoutesByTier this tier = Return m)
  <-> plain RoutesService.sourceCountry
        (List.filter
           (fun x => includes cs (RoutesService.sourceCountry x)
                     || includes cs (RoutesService.destinationCountry x))
           (resolved this)).
Proof.
  intros Hcfg. rewrite (getRoutesByTier_policy _ _ _ Hcfg), groupBy_returns.
  apply plain_kept, skipRoute_plain.
Qed.

(** X24. Under a tier with a list policy, [getRoutesByTier] returns a
    mapping exactly when no route that passes its filter has a source
    country that names a member of [Object.prototype]; and in every mapping
    that it returns, a loaded route whose resolved destination country is in
    the list and whose resolved source country is not is still kept: the
    mapping is keyed by source country only, the route is listed under its
    source country when that country is neither "Unknown" nor empty, and it
    is in no group at all when its source country is "Unknown" or empty. *)
Theorem getRoutesByTier_source_keyed
    (this : RoutesService.RoutesService) (tier : string) (cs : list string)
    (r : RoutesService.Route) :
  tierConfigurations !! tier = Some {| countries := Some cs |} ->
  r ∈ RoutesService.routes this ->
  let rc := RoutesService.getRouteWithCountries this r in
  RoutesService.destinationCountry rc ∈ cs ->
  RoutesService.sourceCountry rc ∉ cs ->
  ((exists m, RoutesService.getRoutesByTier this tier = Return m)
   <-> plain RoutesService.sourceCountry
         (List.filter
            (fun x => includes cs (RoutesService.sourceCountry x)
                      || includes cs (RoutesService.destinationCountry x))
            (resolved this)))
  ∧ forall m,
      RoutesService.getRoutesByTier this tier = Return m ->
      (forall k group x,
         m !! k = Some group -> x ∈ group -> RoutesService.sourceCountry x = k)
      ∧ (RoutesService.sourceCountry rc ≠ "Unknown" ->
         RoutesService.sourceCountry rc ≠ "" ->
         exists group,
           m !! RoutesService.sourceCountry rc = Some group ∧ rc ∈ group)
      ∧ (RoutesService.sourceCountry rc = "Unknown"
         ∨ RoutesService.sourceCountry rc = "" ->
         forall k group, m !! k = Some group -> rc ∉ group).
Proof.
  intros Hcfg Hr rc Hdst Hsrc.
  split; [by apply getRoutesByTier_policy_returns|].
  intros m Hm. rewrite (getRoutesByTier_policy _ _ _ Hcfg) in Hm.
  apply groupBy_Return in Hm as [-> _].
  set (passing := List.filter _ (resolved this)).
  assert (rc ∈ passing) as Hpassing.
  { apply elem_of_filter_bool. split.
    - unfold resolved. apply list_elem_of_In, in_map. by apply list_elem_of_In.
    - apply orb_true_iff. right. by apply includes_true. }
  split_and!.
  - intros k group x Hk Hx.
    by apply (collect_elem _ _ _ _ _ _ Hk) in Hx as (_ & _ & ?).
  - intros Hunknown Hempty.
    destruct (collect_filed RoutesService.sourceCountry skipRoute passing rc)
      as [Hlookup Hin]; [done|by apply skipRoute_false|].
    eexists. split; [exact Hlookup|exact Hin].
  - intros Hskipped k group Hk Hx.
    apply (collect_elem _ _ _ _ _ _ Hk) in Hx as (_ & Hx & _).
    apply skipRoute_false in Hx as [? ?]. by destruct Hskipped.
Qed.

Lemma getRoutesByTier_source_keyed_JFK_TLV :
  exists m,
    RoutesService.getRoutesByTier sampleRoutes "free" = Return m
    ∧ exists group,
        m !! "United States" = Some group
        ∧ RoutesService.getRouteWithCountries sampleRoutes
            (sampleRoute "JFK" "TLV") ∈ group.
Proof.
  destruct (getRoutesByTier_source_keyed sampleRoutes "free" freeCountries
              (sampleRoute "JFK" "TLV"))
    as [Hreturns Hkept].
  - reflexivity.
  - apply list_elem_of_here.
  - apply list_elem_of_here.
  - vm_compute. intros H. inversion H as [|? ? ? H']. inversion H'.
  - destruct (proj2 Hreturns) as [m Hm].
    { vm_compute. repeat constructor. }
    exists m. split; [exact Hm|].
    destruct (Hkept m Hm) as (_ & Hlisted & _).
    apply Hlisted; vm_compute; discriminate.
Defined.

(** X25. In each of the three services and for every tier, when a record
    that passes the filter of the tier has a country (a source country, for
    routes) that names a member of [Object.prototype], [byTier] throws the
    [TypeError] of the reducer, and so does [getTierStatistics].  For
    airlines and airports this can only happen under ELITE: the countries of
    the lists of FREE and PRO name no such member. *)
Theorem byTier_inherited_country_throws
    (airlinesService : AirlinesService.AirlinesService)
    (airportsService : AirportsService.AirportsService)
    (routesService : RoutesService.RoutesService)
    (t : SubscriptionTier) :
  (¬ plain AirlinesService.country
       (admitted t AirlinesService.country
          (AirlinesService.airlines airlinesService)) ->
   t = ELITE
   ∧ AirlinesService.getAirlinesByTier airlinesService (tierValue t)
     = Throw (NotAFunction "acc[airline.country].push")
   ∧ AirlinesService.getTierStatistics airlinesService (tierValue t)
     = Throw (NotAFunction "acc[airline.country].push"))
  ∧ (¬ plain AirportsService.country
         (admitted t AirportsService.country
            (AirportsService.airports airportsService)) ->
     t = ELITE
     ∧ AirportsService.getAirportsByTier airportsService (tierValue t)
       = Throw (NotAFunction "acc[airport.country].push")
     ∧ AirportsService.getTierStatistics airportsService (tierValue t)
       = Throw (NotAFunction "acc[airport.country].push"))
  ∧ (¬ plain RoutesService.sourceCountry (admittedRoutes t routesService) ->
     RoutesService.getRoutesByTier routesService (tierValue t)
     = Throw (NotAFunction "acc[route.sourceCountry].push")
     ∧ RoutesService.getTierStatistics routesService (tierValue t)
       = Throw (NotAFunction "acc[route.sourceCountry].push")).
Proof.
  split_and!; intros Hplain.
  - assert (t = ELITE) as Ht.
    { destruct t; [| |done]; destruct Hplain; by apply admitted_plain. }
    split; [done|].
    destruct (AirlinesService.getAirlinesByTier airlinesService (tierValue t))
      as [m|e] eqn:Hm.
    + destruct Hplain. apply getAirlinesByTier_returns. by exists m.
    + rewrite (airlines_getTierStatistics_Throw _ _ _ Hm).
      rewrite getAirlinesByTier_tier in Hm.
      by apply groupBy_Throw in Hm as [-> _].
  - assert (t = ELITE) as Ht.
    { destruct t; [| |done]; destruct Hplain; by apply admitted_plain. }
    split; [done|].
    destruct (AirportsService.getAirportsByTier airportsService (tierValue t))
      as [m|e] eqn:Hm.
    + destruct Hplain. apply getAirportsByTier_returns. by exists m.
    + rewrite (airports_getTierStatistics_Throw _ _ _ Hm).
      rewrite getAirportsByTier_tier in Hm.
      by apply groupBy_Throw in Hm as [-> _].
  - destruct (RoutesService.getRoutesByTier routesService (tierValue t))
      as [m|e] eqn:Hm.
    + destruct Hplain. apply getRoutesByTier_returns. by exists m.
    + rewrite (routes_getTierStatistics_Throw _ _ _ Hm).
      rewrite getRoutesByTier_tier in Hm.
      by apply groupBy_Throw in Hm as [-> _].
Qed.

(** An airport in a country named "toString" makes the grouped view of
    ELITE throw, while FREE and PRO are served. *)
Example airports_toString_elite :
  let this :=
    AirportsService.new
      (Some (join LF ["name,city,country,iata,icao,lat,lon,alt,tz,dst,tzdb";
                      "Ben Gurion,Tel Aviv,Israel,TLV,LLBG,32,34,135,2,E,Asia";
                      "Crossroads,Midway,toString,CTR,XCTR,0,0,0,0,U,Etc"])) in
  AirportsService.getAirportsByTier this "elite"
  = Throw (mkError "acc[airport.country].push is not a function")
  ∧ AirportsService.getTierStatistics this "elite"
    = Throw (mkError "acc[airport.country].push is not a function")
  ∧ AirportsService.getTierStatistics this "free"
    = Return {| AirportsService.totalAirports := 1;
                AirportsService.totalCountries := 1;
                AirportsService.countriesWithData := ["Israel"] |}.
Proof. split_and!; vm_compute; reflexivity. Qed.
